(** * Spectrometer control core: protocol framing, command queue, scan
      sequencing and peak detection

    A shallow embedding of [protocol_handler.py], [async_communication.py]
    and [data_acquisition.py], with the synchronous communicators of
    [communication.py] and the playback controller of
    [data_visualization.py].

    Conventions of the embedding:
    - Python [str] is [string]; a character is a code point below 256.
    - Python [int] is [Z]; Python [float] and [numpy.float64] are the
      kernel's binary64 [float].
    - A Python exception is a value of [exn]; a call that may raise returns
      a [result].
    - [dict]s used as maps ([COMMAND_SET], [**kwargs]) are [gmap]s. *)

From Stdlib Require Import ZArith String Ascii List Bool Lia Sorted.
From Stdlib Require Import Floats Uint63.
From stdpp Require Import base option list gmap strings.
Import ListNotations.

Local Open Scope string_scope.

(** ** Exceptions and results *)

Inductive exn : Type :=
| KeyError (key : string)
| ValueError
| IndexError
| ZeroDivisionError
| OverflowError
| AttributeError
| RecursionError.

Inductive result (A : Type) : Type :=
| Return (a : A)
| Raise (e : exn).

Arguments Return {A} a.
Arguments Raise {A} e.

#[global] Instance result_ret : MRet result := fun A a => Return a.

#[global] Instance result_bind : MBind result := fun A B f m =>
  match m with
  | Return a => f a
  | Raise e => Raise e
  end.

#[global] Instance result_fmap : FMap result := fun A B f m =>
  match m with
  | Return a => Return (f a)
  | Raise e => Raise e
  end.

(** ** The Python builtins the protocol code calls *)

Module Py.

(** [ord(c)] *)
Definition ord (c : ascii) : Z := Z.of_N (N_of_ascii c).

Definition chr_eqb (a b : ascii) : bool := Ascii.eqb a b.

(** [s.startswith(p)] *)
Definition startswith (p s : string) : bool := String.prefix p s.

(** [c in s] for a one-character [c] *)
Fixpoint contains (c : ascii) (s : string) : bool :=
  match s with
  | EmptyString => false
  | String d s' => chr_eqb d c || contains c s'
  end.

(** [s[i:j]] with Python's treatment of negative and overlong bounds *)
Definition clamp_index (n k : Z) : Z :=
  if (k <? 0)%Z then Z.max 0 (k + n) else Z.min k n.

Definition slice (i j : Z) (s : string) : string :=
  let n := Z.of_nat (String.length s) in
  let i' := clamp_index n i in
  let j' := clamp_index n j in
  substring (Z.to_nat i') (Z.to_nat (j' - i')) s.

Definition cons_head (c : ascii) (l : list string) : list string :=
  match l with
  | [] => [String c EmptyString]
  | h :: t => String c h :: t
  end.

(** [s.split(sep, maxsplit)] for a one-character separator; [maxsplit]
    is [None] when the argument is left out. *)
Fixpoint split (sep : ascii) (maxsplit : option nat) (s : string) : list string :=
  match maxsplit with
  | Some O => [s]
  | _ =>
    match s with
    | EmptyString => [EmptyString]
    | String c s' =>
      if chr_eqb c sep
      then EmptyString :: split sep (Nat.pred <$> maxsplit) s'
      else cons_head c (split sep maxsplit s')
    end
  end.

(** [sum(ord(c) for c in s)] *)
Fixpoint sum_ord (s : string) : Z :=
  match s with
  | EmptyString => 0%Z
  | String c s' => (ord c + sum_ord s')%Z
  end.

(** White space as [str.strip()] sees it (code points below 256). *)
Definition isspace (c : ascii) : bool :=
  let n := ord c in
  ((9 <=? n) && (n <=? 13) || (28 <=? n) && (n <=? 32)
   || (n =? 133) || (n =? 160))%Z.

(** White space as the integer parser sees it: the ASCII blanks, and the
    two non-ASCII blanks, which [int] first rewrites to a space. *)
Definition isspace_int (c : ascii) : bool :=
  let n := ord c in
  ((9 <=? n) && (n <=? 13) || (n =? 32) || (n =? 133) || (n =? 160))%Z.

Fixpoint lstrip_with (sp : ascii -> bool) (s : string) : string :=
  match s with
  | EmptyString => EmptyString
  | String c s' => if sp c then lstrip_with sp s' else s
  end.

Fixpoint all_chars (p : ascii -> bool) (s : string) : bool :=
  match s with
  | EmptyString => true
  | String c s' => p c && all_chars p s'
  end.

Fixpoint rstrip_with (sp : ascii -> bool) (s : string) : string :=
  match s with
  | EmptyString => EmptyString
  | String c s' => if all_chars sp s then EmptyString else String c (rstrip_with sp s')
  end.

(** [s.strip()] *)
Definition strip (s : string) : string := rstrip_with isspace (lstrip_with isspace s).

(** Value of a digit character in bases up to 36, as [int] reads it. *)
Definition digit_value (c : ascii) : option Z :=
  let n := ord c in
  if ((48 <=? n) && (n <=? 57))%Z then Some (n - 48)%Z
  else if ((97 <=? n) && (n <=? 122))%Z then Some (n - 87)%Z
  else if ((65 <=? n) && (n <=? 90))%Z then Some (n - 55)%Z
  else None.

Definition digit_in (base : Z) (c : ascii) : option Z :=
  match digit_value c with
  | Some d => if (d <? base)%Z then Some d else None
  | None => None
  end.

Definition underscore : ascii := "_"%char.

(** The digit scan of [int(s, base)]: digits with single underscores
    between them. [acc] is the value read so far, [ndigits] the number of
    digits read and [prev_us] tells whether the previous character was an
    underscore. The scan stops at the first character that is neither; it
    fails on a doubled or trailing underscore. *)
Fixpoint scan_digits (base : Z) (acc : Z) (ndigits : nat) (prev_us : bool)
         (s : string) : option (Z * nat * string) :=
  match s with
  | EmptyString => if prev_us then None else Some (acc, ndigits, s)
  | String c s' =>
    if chr_eqb c underscore then
      if prev_us then None else scan_digits base acc ndigits true s'
    else
      match digit_in base c with
      | Some d => scan_digits base (acc * base + d)%Z (S ndigits) false s'
      | None => if prev_us then None else Some (acc, ndigits, s)
      end
  end.

Definition strip_sign (s : string) : bool * string :=
  match s with
  | String "+" s' => (false, s')
  | String "-" s' => (true, s')
  | _ => (false, s)
  end.

(** After the sign, base 16 accepts [0x] or [0X], then one underscore. *)
Definition strip_radix_prefix (base : Z) (s : string) : string :=
  if (base =? 16)%Z then
    match s with
    | String "0" (String "x" s') | String "0" (String "X" s') =>
      match s' with
      | String "_" s'' => s''
      | _ => s'
      end
    | _ => s
    end
  else s.

(** [int(s, base)] for base 10 and base 16 *)
Definition int (base : Z) (s : string) : result Z :=
  let s1 := lstrip_with isspace_int s in
  let '(neg, s2) := strip_sign s1 in
  let s3 := strip_radix_prefix base s2 in
  match s3 with
  | String "_" _ => Raise ValueError
  | _ =>
    match scan_digits base 0 0 false s3 with
    | Some (n, S _, rest) =>
      if all_chars isspace_int rest
      then Return (if neg then (- n)%Z else n)
      else Raise ValueError
    | _ => Raise ValueError
    end
  end.

(** [str(n)] for an [int]: decimal digits, most significant first. *)
Definition digit_char (d : Z) : ascii := ascii_of_N (Z.to_N (48 + d)).

Fixpoint str_pos_aux (fuel : nat) (n : Z) (acc : string) : string :=
  match fuel with
  | O => acc
  | S fuel' =>
    let acc' := String (digit_char (n mod 10)) acc in
    if (n <? 10)%Z then acc' else str_pos_aux fuel' (n / 10)%Z acc'
  end.

Definition str_nonneg (n : Z) : string :=
  str_pos_aux (S (Z.to_nat (Z.log2 n))) n EmptyString.

Definition str_int (n : Z) : string :=
  if (n <? 0)%Z then String "-" (str_nonneg (- n)) else str_nonneg n.

(** Upper-case hexadecimal digit, and the format [{:02X}] on a value
    below 256 (the only values the protocol formats that way). *)
Definition hex_char (d : Z) : ascii :=
  if (d <? 10)%Z then ascii_of_N (Z.to_N (48 + d)) else ascii_of_N (Z.to_N (55 + d)).

Definition format_02X (n : Z) : string :=
  String (hex_char (n / 16)) (String (hex_char (n mod 16)) EmptyString).

End Py.

(** ** Parameter values *)

(** The objects the callers pass as command parameters: [int] (spin boxes),
    [float] ([numpy.float64] scan points) and [str] (calibration mode). *)
Inductive pyval : Type :=
| VInt (n : Z)
| VFloat (x : float)
| VStr (s : string).

(** ** protocol_handler.py *)

Module ProtocolHandler.

Definition CR : ascii := ascii_of_N 13.
Definition LF : ascii := ascii_of_N 10.
Definition CRLF : string := String CR (String LF EmptyString).

(** [COMMAND_SET] *)
Definition COMMAND_SET : gmap string string :=
  list_to_map
    [ ("set_wavelength", "WL {value}");
      ("read_wavelength", "WL?");
      ("read_spectrum", "SPT?");
      ("read_intensity", "INT?");
      ("set_integration", "INTTIME {value}");
      ("read_integration", "INTTIME?");
      ("calibration", "CAL {mode}");
      ("get_status", "STAT?");
      ("set_average", "AVG {value}");
      ("read_average", "AVG?");
      ("reset_device", "RST");
      ("get_version", "VER?") ].

(** Decoded payloads: the [data] dictionary of a response. *)
Inductive payload_data : Type :=
| DValue (value : pyval)
| DSpectrum (spectrum : list float)
| DIntensity (intensity : float)
| DStatus (ready error calibrating measuring : bool)
| DVersion (version : string)
| DCalStatus (status : string)
| DRaw (raw : string)
| DError (e : exn).

(** The [error] text of an invalid response: ['Invalid frame format'],
    ['Checksum mismatch'] or ['Parsing error: ' + str(e)]. *)
Inductive error_reason : Type :=
| Invalid_frame_format
| Checksum_mismatch
| Parsing_error (e : exn).

(** The dictionary [parse_response] returns: [valid] with [command] and
    [data], or not [valid] with [error]. *)
Inductive Response : Type :=
| Valid (command : string) (data : payload_data)
| Invalid (error : error_reason).

Section WithFloatText.

(** Python's conversions between [float] and text are builtins outside
    the repository: [str(x)] and [float(s)] ([None] stands for the
    [ValueError] of an unreadable text). *)
Variable float_str : float -> string.
Variable float_parse : string -> option float.

Definition py_float (s : string) : result float :=
  match float_parse s with
  | Some x => Return x
  | None => Raise ValueError
  end.

(** [str(v)], as a replacement field renders its argument. *)
Definition str_val (v : pyval) : string :=
  match v with
  | VInt n => Py.str_int n
  | VFloat x => float_str x
  | VStr s => s
  end.

(** [str.format] applied to a template and keyword arguments, for templates whose replacement fields
    are plain names (the only ones [COMMAND_SET] has). [field] is the
    name being read while inside braces. A doubled brace is a literal
    brace; a missing keyword raises [KeyError]. *)
Fixpoint format_from (kwargs : gmap string pyval) (field : option string)
         (tpl : string) : result string :=
  match tpl with
  | EmptyString =>
    match field with
    | None => Return EmptyString
    | Some _ => Raise ValueError
    end
  | String c rest =>
    match field with
    | None =>
      if Py.chr_eqb c "{" then
        match rest with
        | String "{" rest' => String "{"%char <$> format_from kwargs None rest'
        | _ => format_from kwargs (Some EmptyString) rest
        end
      else if Py.chr_eqb c "}" then
        match rest with
        | String "}" rest' => String "}"%char <$> format_from kwargs None rest'
        | _ => Raise ValueError
        end
      else String c <$> format_from kwargs None rest
    | Some name =>
      if Py.chr_eqb c "}" then
        match kwargs !! name with
        | Some v =>
          s ← format_from kwargs None rest; Return (str_val v ++ s)
        | None => Raise (KeyError name)
        end
      else format_from kwargs (Some (name ++ String c EmptyString)) rest
    end
  end.

Definition format (tpl : string) (kwargs : gmap string pyval) : result string :=
  format_from kwargs None tpl.

(** [sum(ord(c) for c in raw_cmd) % 256] *)
Definition checksum_of (payload : string) : Z := (Py.sum_ord payload mod 256)%Z.

(** [build_command]: [cmd_type] and the keyword arguments *)
Definition build_command (cmd_type : string) (kwargs : gmap string pyval)
  : result string :=
  match COMMAND_SET !! cmd_type with
  | None => Raise (KeyError cmd_type)
  | Some tpl =>
    raw_cmd ← format tpl kwargs;
    let checksum := checksum_of raw_cmd in
    Return ("$" ++ raw_cmd ++ "*" ++ Py.format_02X checksum ++ CRLF)
  end.

(** [bool(status_code & mask)] *)
Definition flag (status_code mask : Z) : bool :=
  negb (Z.land status_code mask =? 0)%Z.

(** The body of the [try] of [_parse_payload]. *)
Definition parse_payload_body (payload : string) : result payload_data :=
  let parts := Py.split " " (Some 1%nat) payload in
  cmd ← match parts with
        | p :: _ => Return p
        | [] => Raise IndexError
        end;
  let data := match parts with
              | _ :: d :: _ => d
              | _ => EmptyString
              end in
  if bool_decide (cmd ∈ ["WL"; "INTTIME"; "AVG"]) then
    if Py.contains "." data
    then x ← py_float data; Return (DValue (VFloat x))
    else n ← Py.int 10 data; Return (DValue (VInt n))
  else if String.eqb cmd "SPT" then
    values ← mapM py_float (Py.split "," None data);
    Return (DSpectrum values)
  else if String.eqb cmd "INT" then
    x ← py_float data; Return (DIntensity x)
  else if String.eqb cmd "STAT" then
    status_code ← Py.int 16 data;
    Return (DStatus (flag status_code 1) (flag status_code 2)
                    (flag status_code 4) (flag status_code 8))
  else if String.eqb cmd "VER" then
    Return (DVersion (Py.strip data))
  else if String.eqb cmd "CAL" then
    Return (DCalStatus (if String.eqb data "OK" then "success" else "error"))
  else
    Return (DRaw payload).

(** [_parse_payload(payload)]: every exception of the body becomes the
    dictionary [{'error': 'Data parsing error: ...'}]. *)
Definition _parse_payload (payload : string) : payload_data :=
  match parse_payload_body payload with
  | Return d => d
  | Raise e => DError e
  end.

(** The body of the [try] of [parse_response]. *)
Definition parse_response_body (response : string) : result Response :=
  '(payload, checksum) ←
    match Py.split "*" None (Py.slice 1 (-3) response) with
    | [payload; checksum] => Return (payload, checksum)
    | _ => Raise ValueError
    end;
  let calculated_csum := checksum_of payload in
  received ← Py.int 16 checksum;
  if negb (calculated_csum =? received)%Z then
    Return (Invalid Checksum_mismatch)
  else
    command ← match Py.split " " None payload with
              | c :: _ => Return c
              | [] => Raise IndexError
              end;
    Return (Valid command (_parse_payload payload)).

(** [parse_response(response)] *)
Definition parse_response (response : string) : Response :=
  if negb (Py.startswith "$" response) || negb (Py.contains "*" response) then
    Invalid Invalid_frame_format
  else
    match parse_response_body response with
    | Return r => r
    | Raise e => Invalid (Parsing_error e)
    end.

End WithFloatText.

End ProtocolHandler.

(** ** Float arithmetic as Python and numpy perform it *)

Module PyFloat.

Local Open Scope float_scope.

(** [a > b] *)
Definition gt (a b : float) : bool := (b <? a).

(** [int(x)]: truncation toward zero; [nan] and the infinities raise. *)
Definition to_int (x : float) : result Z :=
  match Prim2SF x with
  | S754_zero _ => Return 0%Z
  | S754_infinity _ => Raise OverflowError
  | S754_nan => Raise ValueError
  | S754_finite s m e =>
    let magnitude := Z.shiftl (Zpos m) e in
    Return (if s then (- magnitude)%Z else magnitude)
  end.

(** [float(n)] for an [int] below 2^63 in absolute value (exact below
    2^53, which covers every index and count of a list). *)
Definition of_int (n : Z) : float :=
  if (n <? 0)%Z then - of_uint63 (Uint63.of_Z (- n)) else of_uint63 (Uint63.of_Z n).

(** [a / b] on Python floats: a zero divisor raises. *)
Definition div (a b : float) : result float :=
  if b =? 0 then Raise ZeroDivisionError else Return (a / b).

(** [numpy.maximum] on two doubles: the first when it is [nan] or at
    least the second, else the second (so [nan] propagates). *)
Definition maximum (a b : float) : float :=
  if is_nan a || (b <=? a) then a else b.

(** [numpy.max(a)]: the reduction of [maximum]; an empty array raises. *)
Definition np_max (a : list float) : result float :=
  match a with
  | [] => Raise ValueError
  | x :: rest => Return (fold_left maximum rest x)
  end.

(** [a[-1] = v] on a non-empty array *)
Fixpoint set_last (a : list float) (v : float) : list float :=
  match a with
  | [] => []
  | [_] => [v]
  | x :: rest => x :: set_last rest v
  end.

(** [numpy.linspace(start, stop, num)] with [endpoint=True] *)
Definition linspace (start stop : float) (num : Z) : result (list float) :=
  if (num <? 0)%Z then Raise ValueError
  else
    let div := (num - 1)%Z in
    let y := map (fun i => of_int (Z.of_nat i)) (seq 0 (Z.to_nat num)) in
    let delta := stop - start in
    let y :=
      if (0 <? div)%Z then
        let step := delta / of_int div in
        if step =? 0
        then map (fun v => (v / of_int div) * delta) y
        else map (fun v => v * step) y
      else map (fun v => v * delta) y in
    let y := map (fun v => v + start) y in
    Return (if (1 <? num)%Z then set_last y stop else y).

End PyFloat.

(** ** async_communication.py *)

(** The communication manager and the queue of its thread. The [run] loops
    of the threads, which talk to the serial port or the socket, follow in
    [AsyncCommunicationLoops]. *)
Module AsyncCommunication.

(** [CommunicationThread]: the flag and the queue of built frames. *)
Record CommunicationThread : Type := mkThread {
  _running : bool;
  _command_queue : list string
}.

(** [AsyncCommunicator] *)
Record AsyncCommunicator : Type := mkCommunicator {
  _comm_thread : option CommunicationThread;
  _connected : bool
}.

(** Signals of [AsyncCommunicator] *)
Inductive signal : Type :=
| connection_changed (connected : bool)
| error_occurred (error_msg : string).

(** What a method call leaves behind: the object after the call, the
    signals it emitted in order, and the value returned or exception
    raised. *)
Record outcome (A : Type) : Type := mkOutcome {
  after : AsyncCommunicator;
  emitted : list signal;
  returned : result A
}.
Arguments mkOutcome {A} after emitted returned.
Arguments after {A} o.
Arguments emitted {A} o.
Arguments returned {A} o.

Section WithFloatText.

Variable float_str : float -> string.

(** [CommunicationThread.add_command] *)
Definition add_command (thread : CommunicationThread) (cmd_type : string)
           (kwargs : gmap string pyval) : result CommunicationThread :=
  command ← ProtocolHandler.build_command float_str cmd_type kwargs;
  Return (mkThread (_running thread) (_command_queue thread ++ [command])%list).

(** [AsyncCommunicator.send_command] *)
Definition send_command (self : AsyncCommunicator) (cmd_type : string)
           (kwargs : gmap string pyval) : outcome unit :=
  match _comm_thread self with
  | Some thread =>
    if _connected self then
      match add_command thread cmd_type kwargs with
      | Return thread' =>
        mkOutcome (mkCommunicator (Some thread') (_connected self)) [] (Return tt)
      | Raise e => mkOutcome self [] (Raise e)
      end
    else mkOutcome self [] (Return tt)
  | None => mkOutcome self [] (Return tt)
  end.

End WithFloatText.

(** [AsyncCommunicator.disconnect]: the thread, if any, is stopped and
    dropped. *)
Definition disconnect (self : AsyncCommunicator) : outcome unit :=
  mkOutcome (mkCommunicator None false) [connection_changed false] (Return tt).

(** [AsyncCommunicator._handle_error] *)
Definition _handle_error (self : AsyncCommunicator) (error_msg : string) : outcome unit :=
  let o := disconnect self in
  mkOutcome (after o) (error_occurred error_msg :: emitted o) (returned o).

End AsyncCommunication.

(** ** data_acquisition.py *)

(** The communicator of a [DataAcquisition] object is any object with a
    [send_command] method; here it is the asynchronous communication
    manager. The arrays of a spectrum hold doubles, as their annotations
    say. [_handle_scan_data] is left out: no scan method calls it. *)
Module DataAcquisition.

Import AsyncCommunication.
Local Open Scope float_scope.

Inductive ScanMode : Type := SINGLE | REPEAT | AUTO.

Record ScanConfig : Type := mkScanConfig {
  start_wavelength : float;
  end_wavelength : float;
  step_size : float;
  mode : ScanMode;
  repeat_count : Z;
  interval : float
}.

Record SpectrumData : Type := mkSpectrumData {
  wavelengths : list float;
  intensities : list float;
  timestamp : float
}.

Record PeakData : Type := mkPeakData {
  wavelength : float;
  intensity : float;
  fwhm : float
}.

(** The fields of a [DataAcquisition] object. [_auto_timer] holds the
    interval in milliseconds the timer was last started with. *)
Record t : Type := mkDataAcquisition {
  _communicator : AsyncCommunicator;
  _current_scan : option ScanConfig;
  _scan_data : list float;
  _is_scanning : bool;
  _scan_state : string;
  _repeat_count : Z;
  _auto_timer : option Z
}.

(** [__init__(communicator)] *)
Definition init (communicator : AsyncCommunicator) : t :=
  mkDataAcquisition communicator None [] false "idle" 0%Z None.

(** What the object does that others can see, in order: the calls it
    makes on its communicator, and the signals emitted. *)
Inductive event : Type :=
| Send_command (cmd_type : string) (kwargs : gmap string pyval)
| Communicator_signal (s : signal)
| Scan_progress (progress : float).

(** Methods run in a state and exception monad that also records the
    events. *)
Definition M (A : Type) : Type := t -> result A * t * list event.

#[global] Instance M_ret : MRet M := fun A a self => (Return a, self, []).

#[global] Instance M_bind : MBind M := fun A B f m self =>
  match m self with
  | (Return a, self', tr) =>
    let '(r, self'', tr') := f a self' in (r, self'', (tr ++ tr')%list)
  | (Raise e, self', tr) => (Raise e, self', tr)
  end.

Definition get : M t := fun self => (Return self, self, []).
Definition put (self' : t) : M unit := fun _ => (Return tt, self', []).
Definition emit (e : event) : M unit := fun self => (Return tt, self, [e]).
Definition lift {A : Type} (r : result A) : M A := fun self => (r, self, []).

Definition set_is_scanning (b : bool) : M unit := fun self =>
  (Return tt,
   mkDataAcquisition (_communicator self) (_current_scan self) (_scan_data self)
                     b (_scan_state self) (_repeat_count self) (_auto_timer self),
   []).

Definition set_repeat_count (n : Z) : M unit := fun self =>
  (Return tt,
   mkDataAcquisition (_communicator self) (_current_scan self) (_scan_data self)
                     (_is_scanning self) (_scan_state self) n (_auto_timer self),
   []).

Definition set_auto_timer (ms : Z) : M unit := fun self =>
  (Return tt,
   mkDataAcquisition (_communicator self) (_current_scan self) (_scan_data self)
                     (_is_scanning self) (_scan_state self) (_repeat_count self) (Some ms),
   []).

(** [self._current_scan.<field>]: [None] has no attributes. *)
Definition current_scan : M ScanConfig := fun self =>
  match _current_scan self with
  | Some config => (Return config, self, [])
  | None => (Raise AttributeError, self, [])
  end.

(** [stop_scan()] *)
Definition stop_scan : M unit := set_is_scanning false.

Section WithEnvironment.

Variable float_str : float -> string.

(** Slots connected to [scan_progress] run inside [emit]; the only
    effect they can have on the scan is to call [stop_scan]. [listener p]
    tells whether some slot does so on receiving progress [p]. *)
Variable listener : float -> bool.

(** [self._communicator.send_command(cmd_type, ...)] *)
Definition communicator_send (cmd_type : string) (kwargs : gmap string pyval)
  : M unit := fun self =>
  let o := send_command float_str (_communicator self) cmd_type kwargs in
  (returned o,
   mkDataAcquisition (after o) (_current_scan self) (_scan_data self)
                     (_is_scanning self) (_scan_state self) (_repeat_count self)
                     (_auto_timer self),
   Send_command cmd_type kwargs :: map Communicator_signal (emitted o)).

(** [self.scan_progress.emit(progress)] *)
Definition emit_progress (progress : float) : M unit :=
  emit (Scan_progress progress);;
  if listener progress then stop_scan else mret tt.

(** [_handle_scan_complete()] *)
Definition _handle_scan_complete : M unit :=
  config ← current_scan;
  match mode config with
  | SINGLE => stop_scan
  | REPEAT =>
    self ← get;
    if (repeat_count config <=? _repeat_count self)%Z then stop_scan else mret tt
  | AUTO => mret tt
  end.

(** The [for i, wl in enumerate(wavelengths)] loop of
    [_execute_single_scan], from index [i] on. *)
Fixpoint scan_points (num_points : Z) (i : Z) (wavelengths : list float) : M unit :=
  match wavelengths with
  | [] => mret tt
  | wl :: rest =>
    self ← get;
    if negb (_is_scanning self) then mret tt
    else
      communicator_send "set_wavelength" {[ "value" := VFloat wl ]};;
      communicator_send "read_intensity" ∅;;
      let progress := PyFloat.of_int (i + 1) / PyFloat.of_int num_points in
      emit_progress progress;;
      scan_points num_points (i + 1)%Z rest
  end.

(** [_execute_single_scan()] *)
Definition _execute_single_scan : M unit :=
  self ← get;
  match _current_scan self with
  | None => mret tt
  | Some config =>
    q ← lift (PyFloat.div (end_wavelength config - start_wavelength config)
                          (step_size config));
    n ← lift (PyFloat.to_int q);
    let num_points := (n + 1)%Z in
    wavelengths ← lift (PyFloat.linspace (start_wavelength config)
                                         (end_wavelength config) num_points);
    scan_points num_points 0 wavelengths;;
    self ← get;
    if _is_scanning self then _handle_scan_complete else mret tt
  end.

(** [_start_repeat_scan()]. The method calls itself; [depth] is the
    number of nested calls the interpreter still allows. *)
Fixpoint _start_repeat_scan (depth : nat) : M unit :=
  match depth with
  | O => lift (Raise RecursionError)
  | S depth' =>
    self ← get;
    config ← current_scan;
    if (_repeat_count self <? repeat_count config)%Z then
      set_repeat_count (_repeat_count self + 1);;
      _execute_single_scan;;
      self ← get;
      if _is_scanning self then _start_repeat_scan depth' else mret tt
    else mret tt
  end.

(** [_start_auto_scan()]: the timer is created on first use and
    (re)started; its ticks belong to the event loop. *)
Definition _start_auto_scan : M unit :=
  config ← current_scan;
  ms ← lift (PyFloat.to_int (interval config * 1000));
  set_auto_timer ms.

(** [start_scan(config)] *)
Definition start_scan (depth : nat) (config : ScanConfig) : M unit :=
  self ← get;
  if _is_scanning self then mret tt
  else
    put (mkDataAcquisition (_communicator self) (Some config) [] true
                           "scanning" 0%Z (_auto_timer self));;
    match mode config with
    | AUTO => _start_auto_scan
    | REPEAT => _start_repeat_scan depth
    | SINGLE => _execute_single_scan
    end.

End WithEnvironment.

(** *** Peak detection *)

(** [a[i]] on an array, for an index that is not negative *)
Definition getitem (a : list float) (i : nat) : result float :=
  match a !! i with
  | Some v => Return v
  | None => Raise IndexError
  end.

(** The condition of the first loop of [detect_peaks] at index [i]; the
    conjuncts are evaluated left to right and only as far as needed. *)
Definition is_local_peak (intensities : list float) (threshold : float) (i : nat)
  : result bool :=
  xi ← getitem intensities i;
  xl ← getitem intensities (i - 1);
  if negb (PyFloat.gt xi xl) then Return false
  else
    xi ← getitem intensities i;
    xr ← getitem intensities (i + 1);
    if negb (PyFloat.gt xi xr) then Return false
    else
      xi ← getitem intensities i;
      m ← PyFloat.np_max intensities;
      Return (PyFloat.gt xi (threshold * m)).

Fixpoint select_peaks (intensities : list float) (threshold : float)
         (indices : list nat) : result (list nat) :=
  match indices with
  | [] => Return []
  | i :: rest =>
    b ← is_local_peak intensities threshold i;
    tail ← select_peaks intensities threshold rest;
    Return (if (b : bool) then i :: tail else tail)
  end.

(** [peak_indices] after the first loop: [range(1, len(intensities)-1)]
    filtered by the condition. *)
Definition peak_indices (intensities : list float) (threshold : float)
  : result (list nat) :=
  select_peaks intensities threshold (seq 1 (length intensities - 2)).

(** [while left_idx > 0 and intensities[left_idx] > half_max: left_idx -= 1] *)
Fixpoint walk_left (intensities : list float) (half_max : float) (left_idx : nat)
  : result nat :=
  match left_idx with
  | O => Return O
  | S below =>
    v ← getitem intensities left_idx;
    if PyFloat.gt v half_max then walk_left intensities half_max below
    else Return left_idx
  end.

(** [while right_idx < len(intensities)-1 and intensities[right_idx] > half_max:
    right_idx += 1]; [room] is [len(intensities) - 1 - right_idx]. *)
Fixpoint walk_right (intensities : list float) (half_max : float)
         (right_idx room : nat) : result nat :=
  match room with
  | O => Return right_idx
  | S room' =>
    v ← getitem intensities right_idx;
    if PyFloat.gt v half_max then walk_right intensities half_max (S right_idx) room'
    else Return right_idx
  end.

(** The body of the second loop for one peak index. *)
Definition measure_peak (spectrum : SpectrumData) (idx : nat) : result PeakData :=
  let x := intensities spectrum in
  let w := wavelengths spectrum in
  xi ← getitem x idx;
  let half_max := xi / 2 in
  left_idx ← walk_left x half_max idx;
  right_idx ← walk_right x half_max idx (length x - 1 - idx);
  wr ← getitem w right_idx;
  wl ← getitem w left_idx;
  let fwhm := wr - wl in
  wi ← getitem w idx;
  xi ← getitem x idx;
  Return (mkPeakData wi xi fwhm).

(** What [detect_peaks] leaves behind: the peaks emitted through
    [peak_detected], in order, and the list returned (or the exception). *)
Record detection : Type := mkDetection {
  peaks_emitted : list PeakData;
  peaks_returned : result (list PeakData)
}.

(** The second loop: [peaks] holds the peaks appended (and emitted) so far. *)
Fixpoint measure_peaks (spectrum : SpectrumData) (peaks : list PeakData)
         (indices : list nat) : detection :=
  match indices with
  | [] => mkDetection peaks (Return peaks)
  | idx :: rest =>
    match measure_peak spectrum idx with
    | Return peak => measure_peaks spectrum (peaks ++ [peak])%list rest
    | Raise e => mkDetection peaks (Raise e)
    end
  end.

(** [detect_peaks(spectrum, threshold)] *)
Definition detect_peaks (spectrum : SpectrumData) (threshold : float) : detection :=
  match peak_indices (intensities spectrum) threshold with
  | Return indices => measure_peaks spectrum [] indices
  | Raise e => mkDetection [] (Raise e)
  end.

End DataAcquisition.

(** ** async_communication.py, continued: connecting and the thread loops *)

(** [AsyncCommunicator.connect] and one turn of the [while self._running]
    loop of [SerialThread.run] and [TcpThread.run]. The port and the socket
    are the environment: what a read returns is an argument of the turn, as
    text already decoded, and what is written is part of its result, as
    text still to be encoded. A failure of the port or of the decoding ends
    the loop and is not part of a turn. *)
Module AsyncCommunicationLoops.

Import ProtocolHandler AsyncCommunication.

(** [connect(interface_type, ...)]: a connected manager disconnects first;
    the new thread starts with [_running] false and an empty queue, whatever
    the interface and its parameters. *)
Definition connect (self : AsyncCommunicator) (interface_type : string) : outcome unit :=
  let o := if _connected self then disconnect self else mkOutcome self [] (Return tt) in
  mkOutcome (mkCommunicator (Some (mkThread false [])) true)
            (emitted o ++ [connection_changed true])%list
            (Return tt).

(** What one turn of a loop leaves behind: the queue, the frames written to
    the device and the dictionaries emitted through [data_received], both in
    order. *)
Record turn : Type := mkTurn {
  queue_after : list string;
  written : list string;
  data_received : list Response
}.

Section WithFloatText.

Variable float_parse : string -> option float.

(** [response = <read>.decode().strip()], then
    [if response: self.data_received.emit(parse_response(response))] *)
Definition receive (line : string) : list Response :=
  match Py.strip line with
  | EmptyString => []
  | response => [parse_response float_parse response]
  end.

(** One turn of [SerialThread.run]: [reply] is the line read after a
    write, [waiting] the line read when [in_waiting] is not zero. *)
Definition SerialThread_turn (queue : list string) (reply : string)
           (waiting : option string) : turn :=
  let sent :=
    match queue with
    | command :: rest => mkTurn rest [command] (receive reply)
    | [] => mkTurn [] [] []
    end in
  mkTurn (queue_after sent) (written sent)
         (data_received sent ++ match waiting with
                                | Some data => receive data
                                | None => []
                                end)%list.

(** One turn of [TcpThread.run]: each of the two [recv] calls returns text
    or runs into [socket.timeout] ([None]), which is caught. *)
Definition TcpThread_turn (queue : list string) (reply : option string)
           (data : option string) : turn :=
  let sent :=
    match queue with
    | command :: rest =>
      mkTurn rest [command] match reply with
                            | Some response => receive response
                            | None => []
                            end
    | [] => mkTurn [] [] []
    end in
  mkTurn (queue_after sent) (written sent)
         (data_received sent ++ match data with
                                | Some d => receive d
                                | None => []
                                end)%list.

(** The queue is shared by the thread that runs the loop and the thread
    that calls [add_command]: between two turns any number of frames may
    be appended. *)
Inductive step : Type :=
| Add (command : string)
| Serial_turn (reply : string) (waiting : option string)
| Tcp_turn (reply data : option string).

Definition do_step (queue : list string) (s : step) : turn :=
  match s with
  | Add command => mkTurn (queue ++ [command])%list [] []
  | Serial_turn reply waiting => SerialThread_turn queue reply waiting
  | Tcp_turn reply data => TcpThread_turn queue reply data
  end.

(** A run of steps from a queue. *)
Fixpoint run_steps (queue : list string) (steps : list step) : turn :=
  match steps with
  | [] => mkTurn queue [] []
  | s :: rest =>
    let t1 := do_step queue s in
    let t2 := run_steps (queue_after t1) rest in
    mkTurn (queue_after t2) (written t1 ++ written t2)%list
           (data_received t1 ++ data_received t2)%list
  end.

End WithFloatText.

End AsyncCommunicationLoops.

(** ** communication.py *)

(** The synchronous communicators. [SerialCommunicator] and
    [TcpCommunicator] differ in the port they open and in the call that
    reads; as in the thread loops, what the read returns is an argument, as
    decoded text, and what is written is part of the result. The abstract
    [connect] and [disconnect] of the base class are left out. *)
Module Communication.

Import ProtocolHandler.

(** [_port] tells whether [_serial], respectively [_socket], holds a port
    object. *)
Record Communicator : Type := mkCommunicator {
  _is_connected : bool;
  _port : bool
}.

(** Signals: [data_received] carries a parsed response, or, from a failed
    [connect], the dictionary with nothing but a connection error text. *)
Inductive signal : Type :=
| data_received (response : Response)
| connection_failed
| connection_changed (connected : bool).

Record outcome : Type := mkOutcome {
  after : Communicator;
  written : list string;
  emitted : list signal;
  returned : result unit
}.

(** [__init__()] *)
Definition init : Communicator := mkCommunicator false false.

(** [connect(...)]: [opened] tells whether the port could be opened; the
    exception of a failure is caught and reported through [data_received]. *)
Definition connect (self : Communicator) (opened : bool) : outcome :=
  if opened
  then mkOutcome (mkCommunicator true true) [] [connection_changed true] (Return tt)
  else mkOutcome self [] [connection_failed] (Return tt).

Section WithFloatText.

Variable float_str : float -> string.
Variable float_parse : string -> option float.

(** [_raw_send(data)]: [reply] is what the read after the write returns. *)
Definition _raw_send (self : Communicator) (data reply : string) : outcome :=
  if _port self then
    let response := Py.strip reply in
    mkOutcome self [data] [data_received (parse_response float_parse response)] (Return tt)
  else mkOutcome self [] [] (Return tt).

(** [BaseCommunicator.send_command] *)
Definition send_command (self : Communicator) (cmd_type : string)
           (kwargs : gmap string pyval) (reply : string) : outcome :=
  match build_command float_str cmd_type kwargs with
  | Return command => _raw_send self command reply
  | Raise e => mkOutcome self [] [] (Raise e)
  end.

End WithFloatText.

End Communication.

(** ** data_visualization.py: the playback controller *)

(** [DataPlayback] with its timer. A frame is any object; the timer is
    either stopped or running with an interval, and its ticks come from
    the event loop. [_current_frame] is only ever set to 0 or raised by
    one, so it is a natural number here. The plot widget of the module
    is left out. *)
Module DataPlayback.

Section WithFrame.

Variable Frame : Type.

Record t : Type := mkDataPlayback {
  _timer : option Z;
  _current_frame : nat;
  _frames : list Frame;
  _interval : Z
}.

Inductive signal : Type :=
| playback_frame (frame : Frame)
| playback_finished.

(** [__init__()] *)
Definition init : t := mkDataPlayback None 0 [] 100.

(** [load_data(data_frames)] *)
Definition load_data (self : t) (data_frames : list Frame) : t :=
  mkDataPlayback (_timer self) 0 data_frames (_interval self).

(** [start(interval)]; [interval] is [None] when the argument is left
    out. The timer is started only when there are frames. *)
Definition start (self : t) (interval : option Z) : t :=
  let interval' := match interval with
                   | Some i => i
                   | None => _interval self
                   end in
  mkDataPlayback (match _frames self with
                  | [] => _timer self
                  | _ :: _ => Some interval'
                  end)
                 (_current_frame self) (_frames self) interval'.

(** [pause()] *)
Definition pause (self : t) : t :=
  mkDataPlayback None (_current_frame self) (_frames self) (_interval self).

(** [stop()] *)
Definition stop (self : t) : t :=
  mkDataPlayback None 0 (_frames self) (_interval self).

(** [_next_frame()]: the index is below the number of frames exactly when
    there is a frame at it. *)
Definition _next_frame (self : t) : t * list signal :=
  match _frames self !! _current_frame self with
  | Some frame =>
    (mkDataPlayback (_timer self) (S (_current_frame self)) (_frames self)
                    (_interval self),
     [playback_frame frame])
  | None =>
    (mkDataPlayback None (_current_frame self) (_frames self) (_interval self),
     [playback_finished])
  end.

(** A tick of the event loop: the timer, if it runs, calls the slot
    connected to its [timeout], which is [_next_frame]. *)
Definition tick (self : t) : t * list signal :=
  match _timer self with
  | Some _ => _next_frame self
  | None => (self, [])
  end.

Fixpoint ticks (k : nat) (self : t) : t * list signal :=
  match k with
  | O => (self, [])
  | S k' =>
    let '(self1, s1) := tick self in
    let '(self2, s2) := ticks k' self1 in
    (self2, (s1 ++ s2)%list)
  end.

End WithFrame.

Arguments mkDataPlayback {Frame} _ _ _ _.
Arguments _timer {Frame} _.
Arguments _current_frame {Frame} _.
Arguments _frames {Frame} _.
Arguments _interval {Frame} _.
Arguments playback_frame {Frame} _.
Arguments playback_finished {Frame}.
Arguments load_data {Frame} _ _.
Arguments start {Frame} _ _.
Arguments pause {Frame} _.
Arguments stop {Frame} _.
Arguments _next_frame {Frame} _.
Arguments tick {Frame} _.
Arguments ticks {Frame} _ _.

End DataPlayback.

(** ** Float text for closed examples *)

(** The protocol code is parametric in Python's float-to-text conversions.
    The closed examples below run it with these two, which agree with
    Python on the values the examples use: integral doubles of magnitude
    below 1e16 are written with a trailing [.0], and plain decimal notation
    of at most 15 digits is read by one correctly rounded division. Other
    values and notations (fractions to write, exponents, [inf], [nan]) are
    outside what these two cover. *)
Module FloatText.

Local Open Scope float_scope.

Definition str_integral (x : float) : string :=
  match PyFloat.to_int x with
  | Return n => Py.str_int n ++ ".0"
  | Raise OverflowError => if 0 <? x then "inf" else "-inf"
  | Raise _ => "nan"
  end.

(** Digits before and after the point: the integer they spell when the
    point is dropped, and the number of digits after the point. *)
Fixpoint read_digits (after_point : bool) (acc : Z) (ndigits nfrac : nat)
         (s : string) : option (Z * nat * nat) :=
  match s with
  | EmptyString => Some (acc, ndigits, nfrac)
  | String c s' =>
    if Py.chr_eqb c "." then
      if after_point then None else read_digits true acc ndigits nfrac s'
    else
      match Py.digit_in 10 c with
      | Some d =>
        read_digits after_point (acc * 10 + d)%Z (S ndigits)
                    (if after_point then S nfrac else nfrac) s'
      | None => None
      end
  end.

Definition parse_decimal (s : string) : option float :=
  let '(neg, body) := Py.strip_sign (Py.strip s) in
  match read_digits false 0 0 0 body with
  | Some (n, S _, nfrac) =>
    let x := PyFloat.of_int n / PyFloat.of_int (10 ^ Z.of_nat nfrac) in
    Some (if neg then - x else x)
  | _ => None
  end.

End FloatText.

(** * Vocabulary of the statements *)

Section ProtocolVocabulary.

Import ProtocolHandler.

(** [payload.split(' ')[0]] *)
Definition first_token (payload : string) : string :=
  hd EmptyString (Py.split " " None payload).

Definition is_decimal_digit (c : ascii) : bool :=
  ((48 <=? Py.ord c) && (Py.ord c <=? 57))%Z.

Definition no_brace (s : string) : Prop :=
  Py.contains "{" s = false /\ Py.contains "}" s = false.

(** The four entries of [COMMAND_SET] that take a parameter: command
    type, the text before the field, and the field's name. *)
Definition parametrised_commands : list (string * string * string) :=
  [ ("set_wavelength", "WL ", "value");
    ("set_integration", "INTTIME ", "value");
    ("calibration", "CAL ", "mode");
    ("set_average", "AVG ", "value") ].

(** The three commands that set a number, with the tag of the response
    that reports it. *)
Definition numeric_set_commands : list (string * string) :=
  [ ("set_wavelength", "WL"); ("set_integration", "INTTIME"); ("set_average", "AVG") ].

End ProtocolVocabulary.

Section ScanVocabulary.

Import AsyncCommunication DataAcquisition.
Local Open Scope float_scope.

Variable float_str : float -> string.

(** The three components of what a method call leaves behind. *)
Definition result_of {A : Type} (o : result A * t * list event) : result A := o.1.1.

Definition state_of {A : Type} (o : result A * t * list event) : t := o.1.2.

Definition trace_of {A : Type} (o : result A * t * list event) : list event := o.2.

Definition with_communicator (self : t) (communicator : AsyncCommunicator) : t :=
  mkDataAcquisition communicator (_current_scan self) (_scan_data self)
                    (_is_scanning self) (_scan_state self) (_repeat_count self)
                    (_auto_timer self).

(** The communicator after the two commands of one scan point. *)
Definition comm_after_point (communicator : AsyncCommunicator) (wl : float)
  : AsyncCommunicator :=
  after (send_command float_str
           (after (send_command float_str communicator "set_wavelength"
                                {[ "value" := VFloat wl ]}))
           "read_intensity" ∅).

Definition comm_after_pass (communicator : AsyncCommunicator) (wavelengths : list float)
  : AsyncCommunicator :=
  fold_left comm_after_point wavelengths communicator.

(** The communicator after [j] uninterrupted passes over [wavelengths]. *)
Fixpoint comm_after_passes (communicator : AsyncCommunicator) (wavelengths : list float)
         (j : nat) : AsyncCommunicator :=
  match j with
  | O => communicator
  | S j' => comm_after_passes (comm_after_pass communicator wavelengths) wavelengths j'
  end.

(** The events of one uninterrupted pass of the point loop from index [i]:
    per point, the two commands and then the progress. *)
Fixpoint pass_trace (num_points : Z) (i : Z) (wavelengths : list float) : list event :=
  match wavelengths with
  | [] => []
  | wl :: rest =>
    Send_command "set_wavelength" {[ "value" := VFloat wl ]}
    :: Send_command "read_intensity" ∅
    :: Scan_progress (PyFloat.of_int (i + 1) / PyFloat.of_int num_points)
    :: pass_trace num_points (i + 1) rest
  end.

(** The point count and the points of a configuration, as
    [_execute_single_scan] computes them. *)
Definition scan_plan (config : ScanConfig) : result (Z * list float) :=
  q ← PyFloat.div (end_wavelength config - start_wavelength config) (step_size config);
  n ← PyFloat.to_int q;
  wavelengths ← PyFloat.linspace (start_wavelength config) (end_wavelength config) (n + 1);
  Return ((n + 1)%Z, wavelengths).

(** The object after [stop_scan]. *)
Definition stopped (self : t) : t :=
  mkDataAcquisition (_communicator self) (_current_scan self) (_scan_data self)
                    false (_scan_state self) (_repeat_count self) (_auto_timer self).

(** The object right after [start_scan] has accepted a configuration. *)
Definition started (self : t) (config : ScanConfig) : t :=
  mkDataAcquisition (_communicator self) (Some config) [] true "scanning" 0%Z
                    (_auto_timer self).

(** The two fields [start_scan] sets and no other method touches. *)
Definition keeps_label {A : Type} (m : M A) : Prop :=
  forall self,
    _scan_state (state_of (m self)) = _scan_state self /\
    _current_scan (state_of (m self)) = _current_scan self.

(** A fresh object on a connected communicator with an empty queue. *)
Definition fresh_connected : t :=
  init (mkCommunicator (Some (mkThread true [])) true).

Definition queue_of (self : t) : list string :=
  match _comm_thread (_communicator self) with
  | Some thread => _command_queue thread
  | None => []
  end.

End ScanVocabulary.

Section PeakVocabulary.

Import DataAcquisition.
Local Open Scope float_scope.

(** Index [i] has both neighbours, its intensity is above each of them and
    above [threshold] times the largest intensity. *)
Definition peak_at (x : list float) (threshold : float) (i : nat) : Prop :=
  (1 <= i)%nat /\ (i + 1 < length x)%nat /\
  exists xi xl xr m,
    x !! i = Some xi /\ x !! (i - 1)%nat = Some xl /\ x !! (i + 1)%nat = Some xr /\
    PyFloat.np_max x = Return m /\
    PyFloat.gt xi xl = true /\ PyFloat.gt xi xr = true /\
    PyFloat.gt xi (threshold * m) = true.

(** Each sample is above (or each is below) the one before it. *)
Definition strictly_monotonic (x : list float) : Prop :=
  (forall i a b, x !! i = Some a -> x !! (i + 1)%nat = Some b -> PyFloat.gt b a = true) \/
  (forall i a b, x !! i = Some a -> x !! (i + 1)%nat = Some b -> PyFloat.gt a b = true).

(** Where the walk to the left has stopped: every sample passed on the way
    is above [half_max], and the walk ended either on a sample that is not,
    or at the first sample of the array. *)
Definition stops_left (x : list float) (half_max : float) (idx l : nat) : Prop :=
  (l <= idx)%nat /\
  (forall j, (l < j <= idx)%nat -> exists v, x !! j = Some v /\ PyFloat.gt v half_max = true) /\
  (l = 0%nat \/ exists v, x !! l = Some v /\ PyFloat.gt v half_max = false).

(** The same to the right, up to the last sample of the array. *)
Definition stops_right (x : list float) (half_max : float) (idx r : nat) : Prop :=
  (idx <= r < length x)%nat /\
  (forall j, (idx <= j < r)%nat -> exists v, x !! j = Some v /\ PyFloat.gt v half_max = true) /\
  (r = (length x - 1)%nat \/ exists v, x !! r = Some v /\ PyFloat.gt v half_max = false).

(** The spectrum of the specification's example. *)
Definition example_spectrum : SpectrumData :=
  mkSpectrumData [400; 401; 402; 403; 404] [0; 1; 5; 1; 0] 0.

(** A peak between two samples that are both above half its height. *)
Definition plateau_spectrum : SpectrumData :=
  mkSpectrumData [400; 401; 402] [4; 5; 4] 0.

End PeakVocabulary.

(** ** More vocabulary: the whole catalogue, sequences of sends *)

Section CatalogueVocabulary.

Import ProtocolHandler AsyncCommunication.

(** The eight entries of [COMMAND_SET] without a replacement field: command
    type and payload. *)
Definition parameterless_commands : list (string * string) :=
  [ ("read_wavelength", "WL?");
    ("read_spectrum", "SPT?");
    ("read_intensity", "INT?");
    ("read_integration", "INTTIME?");
    ("get_status", "STAT?");
    ("read_average", "AVG?");
    ("reset_device", "RST");
    ("get_version", "VER?") ].

(** The frame [build_command] makes of a payload. *)
Definition frame_of (raw_cmd : string) : string :=
  "$" ++ raw_cmd ++ "*" ++ Py.format_02X (checksum_of raw_cmd) ++ CRLF.

(** The tags whose payload [_parse_payload] decodes with [int] or [float]. *)
Definition decoding_tags : list string :=
  ["WL"; "INTTIME"; "AVG"; "SPT"; "INT"; "STAT"].

(** A caller that sends commands one after the other; the first exception
    ends the sequence. *)
Fixpoint send_commands (float_str : float -> string) (self : AsyncCommunicator)
         (commands : list (string * gmap string pyval)) : outcome unit :=
  match commands with
  | [] => mkOutcome self [] (Return tt)
  | (cmd_type, kwargs) :: rest =>
    let o := send_command float_str self cmd_type kwargs in
    match returned o with
    | Return _ =>
      let o' := send_commands float_str (after o) rest in
      mkOutcome (after o') (emitted o ++ emitted o')%list (returned o')
    | Raise e => o
    end
  end.

End CatalogueVocabulary.

(** ** More vocabulary: what callers and the loops see *)

Section LoopVocabulary.

Import ProtocolHandler AsyncCommunication AsyncCommunicationLoops.

(** Each command of a list builds, to the frame at the same position. *)
Definition builds (float_str : float -> string)
           (commands : list (string * gmap string pyval)) (frames : list string) : Prop :=
  Forall2 (fun c frame => build_command float_str c.1 c.2 = Return frame) commands frames.

(** The frames a run of steps appends to the queue, in order. *)
Definition added (steps : list step) : list string :=
  flat_map (fun s => match s with Add command => [command] | _ => [] end) steps.

(** The number of loop turns in a run of steps. *)
Definition turns (steps : list step) : nat :=
  length (List.filter (fun s => match s with Add _ => false | _ => true end) steps).

End LoopVocabulary.

(** ** More vocabulary: scans under a listener, traces and queues *)

Section ScanTraceVocabulary.

Import AsyncCommunication DataAcquisition.
Local Open Scope float_scope.

Variable float_str : float -> string.

(** The points the loop of [_execute_single_scan] reaches under a
    listener, from index [i]: all of them up to and including the first one
    at whose progress a slot stops the scan. *)
Fixpoint issued_points (listener : float -> bool) (num_points i : Z)
         (wavelengths : list float) : list float :=
  match wavelengths with
  | [] => []
  | wl :: rest =>
    wl :: if listener (PyFloat.of_int (i + 1) / PyFloat.of_int num_points)
          then []
          else issued_points listener num_points (i + 1) rest
  end.

(** Whether some slot stops the scan during a pass from index [i]. *)
Fixpoint stop_requested (listener : float -> bool) (num_points i : Z)
         (wavelengths : list float) : bool :=
  match wavelengths with
  | [] => false
  | _ :: rest =>
    listener (PyFloat.of_int (i + 1) / PyFloat.of_int num_points)
    || stop_requested listener num_points (i + 1) rest
  end.

(** The events of one point with its progress value. *)
Definition point_events (p : float * float) : list event :=
  [ Send_command "set_wavelength" {[ "value" := VFloat p.1 ]};
    Send_command "read_intensity" ∅;
    Scan_progress p.2 ].

(** A trace made of whole points only. *)
Definition whole_points (tr : list event) : Prop :=
  exists points : list (float * float), tr = flat_map point_events points.

(** The frames of the commands in a trace, in order. *)
Definition trace_frames (tr : list event) : list string :=
  flat_map (fun e => match e with
                     | Send_command cmd_type kwargs =>
                       match ProtocolHandler.build_command float_str cmd_type kwargs with
                       | Return frame => [frame]
                       | Raise _ => []
                       end
                     | _ => []
                     end) tr.

(** A communicator with frames appended to its queue, if it has a thread
    and is connected, and as it is otherwise. *)
Definition enqueue (frames : list string) (communicator : AsyncCommunicator)
  : AsyncCommunicator :=
  match _comm_thread communicator with
  | Some thread =>
    if _connected communicator
    then mkCommunicator
           (Some (mkThread (_running thread) (_command_queue thread ++ frames)%list))
           true
    else communicator
  | None => communicator
  end.

(** A tick of the timer that [_start_auto_scan] has started: the slot
    connected to its [timeout] is [_execute_single_scan]. No method stops
    the timer. *)
Definition timer_tick (listener : float -> bool) : M unit :=
  self ← get;
  match _auto_timer self with
  | Some _ => _execute_single_scan float_str listener
  | None => mret tt
  end.

Fixpoint timer_ticks (listener : float -> bool) (k : nat) : M unit :=
  match k with
  | O => mret tt
  | S k' => timer_tick listener;; timer_ticks listener k'
  end.

(** A relation between the object before a method, the object after it
    and the events in between holds for a method from every object. *)
Definition respects {A : Type} (I : t -> t -> list event -> Prop) (m : M A) : Prop :=
  forall self, I self (state_of (m self)) (trace_of (m self)).

(** The object with a started timer. *)
Definition with_timer (self : t) (ms : Z) : t :=
  mkDataAcquisition (_communicator self) (_current_scan self) (_scan_data self)
                    (_is_scanning self) (_scan_state self) (_repeat_count self) (Some ms).

(** The object with its repeat counter set. *)
Definition with_repeat_count (self : t) (n : Z) : t :=
  mkDataAcquisition (_communicator self) (_current_scan self) (_scan_data self)
                    (_is_scanning self) (_scan_state self) n (_auto_timer self).

End ScanTraceVocabulary.

(** * Properties *)

(** ** Strings: slices and splits of a frame *)

Section StringFacts.

Lemma substring_0_app (a b : string) :
  substring 0 (String.length a) (a ++ b) = a.
Proof.
  induction a as [|c a IH]; simpl.
  - destruct b; reflexivity.
  - now rewrite IH.
Qed.

Lemma string_length_app (a b : string) :
  String.length (a ++ b) = (String.length a + String.length b)%nat.
Proof. induction a as [|c a IH]; simpl; [reflexivity | now rewrite IH]. Qed.

(** [response[1:-3]] removes the first character and the last three. *)
Lemma slice_frame (c : ascii) (body tail : string) :
  String.length tail = 3%nat ->
  Py.slice 1 (-3) (String c (body ++ tail)) = body.
Proof.
  intros Htail. unfold Py.slice, Py.clamp_index.
  cbn [String.length]. rewrite string_length_app, Htail.
  replace (1 <? 0)%Z with false by reflexivity.
  replace (-3 <? 0)%Z with true by reflexivity.
  set (n := String.length body).
  replace (Z.min 1 (Z.of_nat (S (n + 3)))) with 1%Z by lia.
  replace (Z.max 0 (-3 + Z.of_nat (S (n + 3))) - 1)%Z with (Z.of_nat n) by lia.
  rewrite Nat2Z.id. change (Z.to_nat 1) with 1%nat. cbn [substring].
  apply substring_0_app.
Qed.

Lemma contains_app (c : ascii) (a b : string) :
  Py.contains c (a ++ b) = Py.contains c a || Py.contains c b.
Proof.
  induction a as [|d a IH]; simpl; [reflexivity|].
  rewrite IH. now rewrite orb_assoc.
Qed.

Lemma split_absent (sep : ascii) (s : string) :
  Py.contains sep s = false -> Py.split sep None s = [s].
Proof.
  induction s as [|c s IH]; simpl; [reflexivity|].
  intros H. apply orb_false_iff in H as [Hc Hs].
  rewrite Hc, (IH Hs). reflexivity.
Qed.

Lemma split_at_first (sep : ascii) (a b : string) :
  Py.contains sep a = false ->
  Py.split sep None (a ++ String sep b) = a :: Py.split sep None b.
Proof.
  induction a as [|c a IH]; simpl; intros H.
  - unfold Py.chr_eqb. now rewrite Ascii.eqb_refl.
  - apply orb_false_iff in H as [Hc Ha].
    rewrite Hc, (IH Ha). reflexivity.
Qed.

(** [split(sep, 1)] cuts at the first separator only. *)
Lemma split1_at_first (sep : ascii) (a b : string) :
  Py.contains sep a = false ->
  Py.split sep (Some 1%nat) (a ++ String sep b) = [a; b].
Proof.
  induction a as [|c a IH]; simpl; intros H.
  - unfold Py.chr_eqb. rewrite Ascii.eqb_refl. now destruct b.
  - apply orb_false_iff in H as [Hc Ha].
    rewrite Hc, (IH Ha). reflexivity.
Qed.

Lemma split1_absent (sep : ascii) (s : string) :
  Py.contains sep s = false -> Py.split sep (Some 1%nat) s = [s].
Proof.
  induction s as [|c s IH]; simpl; [reflexivity|].
  intros H. apply orb_false_iff in H as [Hc Hs].
  rewrite Hc, (IH Hs). reflexivity.
Qed.

Lemma split_nonempty (sep : ascii) (m : option nat) (s : string) :
  Py.split sep m s <> [].
Proof.
  revert m. induction s as [|c s IH]; intros m.
  - destruct m as [[|k]|]; discriminate.
  - destruct m as [[|k]|]; simpl; try discriminate.
    + destruct (Py.chr_eqb c sep); [discriminate|].
      specialize (IH (Some (S k))). destruct (Py.split sep (Some (S k)) s); [contradiction | discriminate].
    + destruct (Py.chr_eqb c sep); [discriminate|].
      specialize (IH None). destruct (Py.split sep None s); [contradiction | discriminate].
Qed.

End StringFacts.

(** ** Integers and their decimal text *)

Section IntText.

Lemma digit_char_cases (d : Z) :
  (0 <= d < 10)%Z ->
  d = 0%Z \/ d = 1%Z \/ d = 2%Z \/ d = 3%Z \/ d = 4%Z \/
  d = 5%Z \/ d = 6%Z \/ d = 7%Z \/ d = 8%Z \/ d = 9%Z.
Proof. lia. Qed.

Ltac each_digit d H :=
  destruct (digit_char_cases d H) as [->|[->|[->|[->|[->|[->|[->|[->|[->| ->]]]]]]]]].

Lemma digit_char_is_digit (d : Z) :
  (0 <= d < 10)%Z -> is_decimal_digit (Py.digit_char d) = true.
Proof. intros H. each_digit d H; reflexivity. Qed.

Lemma digit_in_digit_char (d : Z) :
  (0 <= d < 10)%Z -> Py.digit_in 10 (Py.digit_char d) = Some d.
Proof. intros H. each_digit d H; reflexivity. Qed.

Lemma digit_char_not_underscore (d : Z) :
  (0 <= d < 10)%Z -> Py.chr_eqb (Py.digit_char d) Py.underscore = false.
Proof. intros H. each_digit d H; reflexivity. Qed.

Lemma str_pos_aux_S (fuel : nat) (n : Z) (acc : string) :
  Py.str_pos_aux (S fuel) n acc
  = if (n <? 10)%Z then String (Py.digit_char (n mod 10)) acc
    else Py.str_pos_aux fuel (n / 10) (String (Py.digit_char (n mod 10)) acc).
Proof. reflexivity. Qed.

(** One digit in front of [tail] is read as one more decimal place. *)
Lemma scan_digit_step (acc : Z) (k : nat) (d : Z) (tail : string) :
  (0 <= d < 10)%Z ->
  Py.scan_digits 10 acc k false (String (Py.digit_char d) tail)
  = Py.scan_digits 10 (acc * 10 + d) (S k) false tail.
Proof.
  intros H. cbn [Py.scan_digits].
  now rewrite (digit_char_not_underscore d H), (digit_in_digit_char d H).
Qed.

(** The digits written for [n], followed by [tail], are read back as
    [n] before the scan goes on into [tail]. *)
Lemma scan_str_pos_aux (fuel : nat) :
  forall (n : Z) (tail : string),
    (0 <= n < 2 ^ Z.of_nat (S fuel))%Z ->
    exists k,
      Py.scan_digits 10 0 0 false (Py.str_pos_aux (S fuel) n tail)
      = Py.scan_digits 10 n (S k) false tail.
Proof.
  induction fuel as [|fuel IH]; intros n tail Hn.
  - exists 0%nat. rewrite str_pos_aux_S.
    assert (Hd : (0 <= n < 10)%Z) by (change (2 ^ Z.of_nat 1)%Z with 2%Z in Hn; lia).
    rewrite (Z.mod_small n 10) by lia.
    replace (n <? 10)%Z with true by (symmetry; apply Z.ltb_lt; lia).
    rewrite scan_digit_step by lia. f_equal.
  - rewrite str_pos_aux_S.
    destruct (n <? 10)%Z eqn:Hlt.
    + apply Z.ltb_lt in Hlt. exists 0%nat.
      rewrite (Z.mod_small n 10) by lia.
      rewrite scan_digit_step by lia. f_equal.
    + apply Z.ltb_ge in Hlt.
      assert (Hq : (0 <= n / 10 < 2 ^ Z.of_nat (S fuel))%Z).
      { split; [apply Z.div_pos; lia|].
        apply Z.div_lt_upper_bound; [lia|].
        replace (Z.of_nat (S (S fuel))) with (Z.succ (Z.of_nat (S fuel))) in Hn by lia.
        rewrite Z.pow_succ_r in Hn by lia. lia. }
      destruct (IH (n / 10)%Z (String (Py.digit_char (n mod 10)) tail) Hq) as [k Hk].
      exists (S k). rewrite Hk.
      rewrite scan_digit_step by (apply Z.mod_pos_bound; lia).
      f_equal. pose proof (Z.div_mod n 10). lia.
Qed.

Lemma str_pos_aux_head (fuel : nat) :
  forall (n : Z) (tail : string),
    (0 <= n)%Z ->
    exists d rest, (0 <= d < 10)%Z /\
      Py.str_pos_aux (S fuel) n tail = String (Py.digit_char d) rest.
Proof.
  induction fuel as [|fuel IH]; intros n tail Hn.
  - rewrite str_pos_aux_S. exists (n mod 10)%Z.
    destruct (n <? 10)%Z; eexists; (split; [apply Z.mod_pos_bound; lia | reflexivity]).
  - rewrite str_pos_aux_S.
    destruct (n <? 10)%Z.
    + exists (n mod 10)%Z. eexists. split; [apply Z.mod_pos_bound; lia | reflexivity].
    + apply IH. apply Z.div_pos; lia.
Qed.

Lemma str_pos_aux_chars (p : ascii -> bool) (fuel : nat) :
  (forall d, (0 <= d < 10)%Z -> p (Py.digit_char d) = true) ->
  forall (n : Z) (tail : string),
    Py.all_chars p tail = true ->
    Py.all_chars p (Py.str_pos_aux fuel n tail) = true.
Proof.
  intros Hp. induction fuel as [|fuel IH]; intros n tail Ht; [exact Ht|].
  rewrite str_pos_aux_S.
  assert (Hc : Py.all_chars p (String (Py.digit_char (n mod 10)) tail) = true).
  { cbn [Py.all_chars]. rewrite Hp by (apply Z.mod_pos_bound; lia). exact Ht. }
  destruct (n <? 10)%Z; [exact Hc | now apply IH].
Qed.

Lemma log2_fuel (n : Z) : (0 <= n)%Z -> (n < 2 ^ Z.of_nat (S (Z.to_nat (Z.log2 n))))%Z.
Proof.
  intros Hn. pose proof (Z.log2_nonneg n).
  replace (Z.of_nat (S (Z.to_nat (Z.log2 n)))) with (Z.succ (Z.log2 n)) by lia.
  destruct (Z.eq_dec n 0%Z) as [->|Hne]; [reflexivity|].
  apply Z.log2_spec. lia.
Qed.

(** [int(str(n)) == n] on non-negative integers, at the level of the scan *)
Lemma scan_str_nonneg (n : Z) :
  (0 <= n)%Z ->
  exists k, Py.scan_digits 10 0 0 false (Py.str_nonneg n) = Some (n, S k, EmptyString).
Proof.
  intros Hn. unfold Py.str_nonneg.
  destruct (scan_str_pos_aux (Z.to_nat (Z.log2 n)) n EmptyString) as [k Hk].
  { split; [exact Hn | now apply log2_fuel]. }
  exists k. rewrite Hk. reflexivity.
Qed.

Lemma int_str_nonneg (n : Z) (neg : bool) :
  (0 <= n)%Z ->
  match Py.strip_radix_prefix 10 (Py.str_nonneg n) with
  | String "_" _ => Raise ValueError
  | _ =>
    match Py.scan_digits 10 0 0 false (Py.strip_radix_prefix 10 (Py.str_nonneg n)) with
    | Some (m, S _, rest) =>
      if Py.all_chars Py.isspace_int rest
      then Return (if neg then (- m)%Z else m)
      else Raise ValueError
    | _ => Raise ValueError
    end
  end = Return (if neg then (- n)%Z else n).
Proof.
  intros Hn. change (Py.strip_radix_prefix 10 (Py.str_nonneg n)) with (Py.str_nonneg n).
  destruct (scan_str_nonneg n Hn) as [k Hk]. rewrite Hk.
  unfold Py.str_nonneg in *.
  destruct (str_pos_aux_head (Z.to_nat (Z.log2 n)) n EmptyString Hn) as (d & rest & Hd & ->).
  each_digit d Hd; reflexivity.
Qed.

(** [int(str(n)) == n] *)
Lemma int_str_int (n : Z) : Py.int 10 (Py.str_int n) = Return n.
Proof.
  unfold Py.int, Py.str_int.
  destruct (n <? 0)%Z eqn:Hneg.
  - apply Z.ltb_lt in Hneg.
    cbn [Py.lstrip_with]. replace (Py.isspace_int "-") with false by reflexivity.
    cbn [Py.strip_sign].
    rewrite (int_str_nonneg (- n) true) by lia. f_equal. lia.
  - apply Z.ltb_ge in Hneg.
    destruct (str_pos_aux_head (Z.to_nat (Z.log2 n)) n EmptyString Hneg)
      as (d & rest & Hd & Hhead).
    assert (Hs1 : Py.lstrip_with Py.isspace_int (Py.str_nonneg n) = Py.str_nonneg n).
    { unfold Py.str_nonneg. rewrite Hhead. each_digit d Hd; reflexivity. }
    rewrite Hs1.
    assert (Hs2 : Py.strip_sign (Py.str_nonneg n) = (false, Py.str_nonneg n)).
    { unfold Py.str_nonneg. rewrite Hhead. each_digit d Hd; reflexivity. }
    rewrite Hs2. exact (int_str_nonneg n false Hneg).
Qed.

(** The text of an integer is made of digits and, at most, a sign. *)
Lemma str_int_chars (p : ascii -> bool) (n : Z) :
  (forall d, (0 <= d < 10)%Z -> p (Py.digit_char d) = true) ->
  p "-"%char = true ->
  Py.all_chars p (Py.str_int n) = true.
Proof.
  intros Hp Hminus. unfold Py.str_int, Py.str_nonneg.
  destruct (n <? 0)%Z; cbn [Py.all_chars]; [rewrite Hminus; cbn [andb]|];
    now apply str_pos_aux_chars.
Qed.

Lemma all_chars_not_contains (p : ascii -> bool) (c : ascii) (s : string) :
  p c = false -> Py.all_chars p s = true -> Py.contains c s = false.
Proof.
  intros Hc. induction s as [|d s IH]; cbn; [reflexivity|].
  intros H. apply andb_true_iff in H as [Hd Hs].
  rewrite (IH Hs), orb_false_r. unfold Py.chr_eqb.
  destruct (Ascii.eqb_spec d c) as [->|]; [congruence | reflexivity].
Qed.

Lemma str_int_lacks (c : ascii) (n : Z) :
  is_decimal_digit c = false -> Py.chr_eqb c "-" = false ->
  Py.contains c (Py.str_int n) = false.
Proof.
  intros Hdig Hminus.
  apply (all_chars_not_contains (fun a => is_decimal_digit a || Py.chr_eqb a "-")).
  - now rewrite Hdig, Hminus.
  - apply str_int_chars; [|reflexivity].
    intros d Hd. now rewrite digit_char_is_digit.
Qed.

End IntText.

(** ** Frames *)

Section FrameFacts.

Import ProtocolHandler.

Variable float_parse : string -> option float.

Lemma string_app_assoc (a b c : string) : (a ++ b) ++ c = a ++ (b ++ c).
Proof.
  induction a as [|x a IH]; [reflexivity|].
  change (String x ((a ++ b) ++ c) = String x (a ++ (b ++ c))). now rewrite IH.
Qed.

Lemma string_app_nil_r (a : string) : a ++ "" = a.
Proof.
  induction a as [|x a IH]; [reflexivity|].
  change (String x (a ++ "") = String x a). now rewrite IH.
Qed.

(** What the [try] of [parse_response] does once the slice has split in
    two. *)
Lemma parse_response_body_split (response payload checksum : string) :
  Py.split "*" None (Py.slice 1 (-3) response) = [payload; checksum] ->
  parse_response_body float_parse response =
  match Py.int 16 checksum with
  | Raise e => Raise e
  | Return received =>
    if (checksum_of payload =? received)%Z
    then Return (Valid (first_token payload) (_parse_payload float_parse payload))
    else Return (Invalid Checksum_mismatch)
  end.
Proof.
  intros Hsplit. unfold parse_response_body. rewrite Hsplit. cbn.
  destruct (Py.int 16 checksum) as [received|e]; cbn; [|reflexivity].
  destruct (checksum_of payload =? received)%Z; cbn; [|reflexivity].
  unfold first_token.
  destruct (Py.split " " None payload) eqn:Htok; [|reflexivity].
  now apply split_nonempty in Htok.
Qed.

Lemma startswith_head (c : ascii) (s : string) :
  Py.startswith (String c EmptyString) (String c s) = true.
Proof.
  unfold Py.startswith. cbn [String.prefix].
  destruct (ascii_dec c c); [now destruct s | congruence].
Qed.

(** A line [$payload*checksum] followed by three more characters. *)
Lemma parse_response_frame (payload checksum tail : string) :
  String.length tail = 3%nat ->
  Py.contains "*" payload = false ->
  Py.contains "*" checksum = false ->
  parse_response float_parse (String "$" (payload ++ String "*" (checksum ++ tail))) =
  match Py.int 16 checksum with
  | Raise e => Invalid (Parsing_error e)
  | Return received =>
    if (checksum_of payload =? received)%Z
    then Valid (first_token payload) (_parse_payload float_parse payload)
    else Invalid Checksum_mismatch
  end.
Proof.
  intros Htail Hp Hc. unfold parse_response.
  rewrite startswith_head.
  assert (Hstar : Py.contains "*" (String "$" (payload ++ String "*" (checksum ++ tail))) = true).
  { cbn [Py.contains]. rewrite contains_app. cbn [Py.contains].
    replace (Py.chr_eqb "*" "*") with true by reflexivity.
    now rewrite !orb_true_r. }
  rewrite Hstar. cbn [negb orb].
  rewrite (parse_response_body_split _ payload checksum).
  - destruct (Py.int 16 checksum) as [received|e]; [|reflexivity].
    now destruct (checksum_of payload =? received)%Z.
  - change (payload ++ String "*" (checksum ++ tail))
      with (payload ++ (String "*" checksum ++ tail)).
    rewrite <- string_app_assoc, (slice_frame _ _ _ Htail).
    rewrite (split_at_first _ _ _ Hp), (split_absent _ _ Hc). reflexivity.
Qed.

(** A valid response is only ever produced from a line that passed every
    check. *)
Lemma parse_response_valid_inv (response command : string) (data : payload_data) :
  parse_response float_parse response = Valid command data ->
  Py.startswith "$" response = true /\
  Py.contains "*" response = true /\
  exists payload checksum,
    Py.split "*" None (Py.slice 1 (-3) response) = [payload; checksum] /\
    Py.int 16 checksum = Return (checksum_of payload) /\
    command = first_token payload /\
    data = _parse_payload float_parse payload.
Proof.
  unfold parse_response.
  destruct (Py.startswith "$" response); [|discriminate].
  destruct (Py.contains "*" response); [|discriminate].
  cbn [negb orb]. intros H. split; [reflexivity|]. split; [reflexivity|].
  destruct (Py.split "*" None (Py.slice 1 (-3) response)) as [|payload [|checksum [|x l]]] eqn:Hs;
    try (unfold parse_response_body in H; rewrite Hs in H; discriminate).
  exists payload, checksum. split; [reflexivity|].
  rewrite (parse_response_body_split _ _ _ Hs) in H.
  destruct (Py.int 16 checksum) as [received|e]; [|discriminate].
  destruct (checksum_of payload =? received)%Z eqn:Heq; [|discriminate].
  apply Z.eqb_eq in Heq. subst received. now inversion H.
Qed.

(** A recognised numeric command whose field is not a number decodes to
    the error dictionary. *)
Lemma parse_payload_numeric (cmd data : string) :
  cmd ∈ ["WL"; "INTTIME"; "AVG"] ->
  _parse_payload float_parse (cmd ++ String " " data) =
  if Py.contains "." data then
    match float_parse data with
    | Some x => DValue (VFloat x)
    | None => DError ValueError
    end
  else
    match Py.int 10 data with
    | Return n => DValue (VInt n)
    | Raise e => DError e
    end.
Proof.
  intros Hcmd.
  assert (Hsp : Py.split " " (Some 1%nat) (cmd ++ String " " data) = [cmd; data]).
  { apply split1_at_first.
    repeat (apply elem_of_cons in Hcmd as [->|Hcmd]; [reflexivity|]).
    now apply elem_of_nil in Hcmd. }
  unfold _parse_payload, parse_payload_body. rewrite Hsp. cbn [mbind result_bind].
  rewrite bool_decide_eq_true_2 by exact Hcmd.
  destruct (Py.contains "." data).
  - unfold py_float. now destruct (float_parse data).
  - now destruct (Py.int 10 data).
Qed.

End FrameFacts.

(** ** Building commands *)

Section BuildFacts.

Import ProtocolHandler.

Variable float_str : float -> string.

Lemma format_field_name (kwargs : gmap string pyval) (key acc : string) :
  Py.contains "}" key = false ->
  format_from float_str kwargs (Some acc) (key ++ "}") =
  match kwargs !! (acc ++ key) with
  | Some v => Return (str_val float_str v ++ "")
  | None => Raise (KeyError (acc ++ key))
  end.
Proof.
  revert acc. induction key as [|c key IH]; intros acc Hkey.
  - change ("" ++ "}") with "}". rewrite string_app_nil_r.
    cbn [format_from]. replace (Py.chr_eqb "}" "}") with true by reflexivity.
    now destruct (kwargs !! acc).
  - cbn in Hkey. apply orb_false_iff in Hkey as [Hc Hkey].
    change (String c key ++ "}") with (String c (key ++ "}")).
    cbn [format_from]. rewrite Hc, (IH _ Hkey).
    now rewrite string_app_assoc.
Qed.

(** A template with one replacement field at its end, as the four
    parametrised entries of [COMMAND_SET] are. *)
Lemma format_trailing_field (kwargs : gmap string pyval) (prefix key : string) :
  no_brace prefix -> Py.contains "}" key = false -> key <> "" ->
  (forall rest, key <> String "{" rest) ->
  format float_str (prefix ++ String "{" (key ++ "}")) kwargs =
  match kwargs !! key with
  | Some v => Return (prefix ++ str_val float_str v)
  | None => Raise (KeyError key)
  end.
Proof.
  intros [Hopen Hclose] Hkey Hne Hnb. unfold format.
  induction prefix as [|c prefix IH].
  - change ("" ++ String "{" (key ++ "}")) with (String "{" (key ++ "}")).
    cbn [format_from]. replace (Py.chr_eqb "{" "{") with true by reflexivity.
    destruct key as [|k key]; [congruence|].
    change (String k key ++ "}") with (String k (key ++ "}")).
    destruct (Ascii.eqb_spec k "{") as [->|Hk]; [now destruct (Hnb key)|].
    assert (Hgo : format_from float_str kwargs (Some "") (String k (key ++ "}"))
                  = match kwargs !! String k key with
                    | Some v => Return (str_val float_str v ++ "")
                    | None => Raise (KeyError (String k key))
                    end) by exact (format_field_name kwargs (String k key) "" Hkey).
    replace (match String k (key ++ "}") with
             | String "{" rest' => String "{"%char <$> format_from float_str kwargs None rest'
             | _ => format_from float_str kwargs (Some "") (String k (key ++ "}"))
             end)
      with (format_from float_str kwargs (Some "") (String k (key ++ "}"))).
    + rewrite Hgo. destruct (kwargs !! String k key) as [v|]; [|reflexivity].
      now rewrite string_app_nil_r.
    + destruct k as [[] [] [] [] [] [] [] []]; try reflexivity. congruence.
  - cbn in Hopen, Hclose.
    apply orb_false_iff in Hopen as [Ho Hopen], Hclose as [Hc Hclose].
    change (String c prefix ++ String "{" (key ++ "}"))
      with (String c (prefix ++ String "{" (key ++ "}"))).
    cbn [format_from]. rewrite Ho, Hc, (IH Hopen Hclose).
    now destruct (kwargs !! key).
Qed.

Lemma build_command_parametrised (cmd_type prefix key : string)
      (kwargs : gmap string pyval) :
  (cmd_type, prefix, key) ∈ parametrised_commands ->
  build_command float_str cmd_type kwargs =
  match kwargs !! key with
  | Some v =>
    let raw_cmd := prefix ++ str_val float_str v in
    Return ("$" ++ raw_cmd ++ "*" ++ Py.format_02X (checksum_of raw_cmd) ++ CRLF)
  | None => Raise (KeyError key)
  end.
Proof.
  intros Hin. unfold parametrised_commands in Hin.
  repeat (apply elem_of_cons in Hin as [Heq|Hin];
          [inversion Heq; subst; clear Heq|]);
    [| | | | now apply elem_of_nil in Hin];
    unfold build_command.
  - replace (COMMAND_SET !! "set_wavelength") with (Some "WL {value}") by reflexivity.
    change "WL {value}" with ("WL " ++ String "{" ("value" ++ "}")).
    rewrite (format_trailing_field kwargs "WL " "value");
      [now destruct (kwargs !! "value") | now split | reflexivity | discriminate | discriminate].
  - replace (COMMAND_SET !! "set_integration") with (Some "INTTIME {value}") by reflexivity.
    change "INTTIME {value}" with ("INTTIME " ++ String "{" ("value" ++ "}")).
    rewrite (format_trailing_field kwargs "INTTIME " "value");
      [now destruct (kwargs !! "value") | now split | reflexivity | discriminate | discriminate].
  - replace (COMMAND_SET !! "calibration") with (Some "CAL {mode}") by reflexivity.
    change "CAL {mode}" with ("CAL " ++ String "{" ("mode" ++ "}")).
    rewrite (format_trailing_field kwargs "CAL " "mode");
      [now destruct (kwargs !! "mode") | now split | reflexivity | discriminate | discriminate].
  - replace (COMMAND_SET !! "set_average") with (Some "AVG {value}") by reflexivity.
    change "AVG {value}" with ("AVG " ++ String "{" ("value" ++ "}")).
    rewrite (format_trailing_field kwargs "AVG " "value");
      [now destruct (kwargs !! "value") | now split | reflexivity | discriminate | discriminate].
Qed.

End BuildFacts.

(** ** The protocol layer against its specification *)

Section ProtocolClaims.

Import ProtocolHandler.

Variable float_str : float -> string.
Variable float_parse : string -> option float.

Lemma numeric_set_command_facts (cmd_type tag : string) :
  (cmd_type, tag) ∈ numeric_set_commands ->
  (cmd_type, tag ++ " ", "value") ∈ parametrised_commands /\
  tag ∈ ["WL"; "INTTIME"; "AVG"] /\
  Py.contains " " tag = false /\ Py.contains "*" tag = false.
Proof.
  intros Hin. unfold numeric_set_commands in Hin.
  repeat (apply elem_of_cons in Hin as [Heq|Hin];
          [inversion Heq; subst; clear Heq|]);
    [| | | now apply elem_of_nil in Hin];
    (split; [|split; [|split; reflexivity]]);
    unfold parametrised_commands;
    repeat constructor.
Qed.


(** C2, as amended. [parse_response] never raises and fails closed on the
    frame itself: a line without the leading dollar sign or without a
    star, a slice that does not split in two at the star, check digits that
    are not hexadecimal and a checksum that does not match all give an
    invalid response with a reason, and a valid response only comes from a
    line that passed all of these. A numeric field that cannot be read in
    the payload of [WL], [INTTIME] or [AVG] does not invalidate the
    response: the response stays valid and its data is the error
    dictionary, with no value in it. *)
Theorem parse_response_fails_closed (response : string) :
  (Py.startswith "$" response = false ->
   parse_response float_parse response = Invalid Invalid_frame_format) /\
  (Py.contains "*" response = false ->
   parse_response float_parse response = Invalid Invalid_frame_format) /\
  (Py.startswith "$" response = true -> Py.contains "*" response = true ->
   match Py.split "*" None (Py.slice 1 (-3) response) with
   | [payload; checksum] =>
     match Py.int 16 checksum with
     | Raise e => parse_response float_parse response = Invalid (Parsing_error e)
     | Return received =>
       if (checksum_of payload =? received)%Z
       then parse_response float_parse response
            = Valid (first_token payload) (_parse_payload float_parse payload)
       else parse_response float_parse response = Invalid Checksum_mismatch
     end
   | _ => parse_response float_parse response = Invalid (Parsing_error ValueError)
   end) /\
  (forall command data,
     parse_response float_parse response = Valid command data ->
     exists payload checksum,
       Py.split "*" None (Py.slice 1 (-3) response) = [payload; checksum] /\
       Py.int 16 checksum = Return (checksum_of payload) /\
       command = first_token payload /\
       data = _parse_payload float_parse payload) /\
  (forall cmd data e,
     cmd ∈ ["WL"; "INTTIME"; "AVG"] ->
     Py.contains "." data = false ->
     Py.int 10 data = Raise e ->
     _parse_payload float_parse (cmd ++ String " " data) = DError e).
Proof.
  split; [|split; [|split; [|split]]].
  - intros H. unfold parse_response. now rewrite H.
  - intros H. unfold parse_response. rewrite H. now rewrite orb_true_r.
  - intros H1 H2. unfold parse_response. rewrite H1, H2. cbn [negb orb].
    destruct (Py.split "*" None (Py.slice 1 (-3) response))
      as [|payload [|checksum [|x l]]] eqn:Hs;
      try (unfold parse_response_body; now rewrite Hs).
    rewrite (parse_response_body_split _ _ _ _ Hs).
    destruct (Py.int 16 checksum) as [received|e]; [|reflexivity].
    now destruct (checksum_of payload =? received)%Z.
  - intros command data H.
    apply parse_response_valid_inv in H as (_ & _ & p & c & H).
    now exists p, c.
  - intros cmd data e Hcmd Hdot Hint.
    rewrite parse_payload_numeric by exact Hcmd. now rewrite Hdot, Hint.
Qed.


Lemma flag_testbit (status_code : Z) (k : Z) :
  (0 <= k)%Z -> flag status_code (2 ^ k) = Z.testbit status_code k.
Proof.
  intros Hk. unfold flag.
  destruct (Z.testbit status_code k) eqn:Hbit.
  - apply negb_true_iff, Z.eqb_neq. intros H0.
    assert (Hb : Z.testbit (Z.land status_code (2 ^ k)) k = true)
      by (rewrite Z.land_spec, Hbit, Z.pow2_bits_true by lia; reflexivity).
    rewrite H0, Z.bits_0 in Hb. discriminate.
  - apply negb_false_iff, Z.eqb_eq, Z.bits_inj'. intros i Hi.
    rewrite Z.land_spec, Z.bits_0.
    destruct (Z.eq_dec i k) as [->|Hne]; [now rewrite Hbit|].
    rewrite (Z.pow2_bits_false k i) by lia. apply andb_false_r.
Qed.

(** C4. A [STAT] payload is read as a hexadecimal bit mask: bit 0 is
    [ready], bit 1 [error], bit 2 [calibrating] and bit 3 [measuring].
    Payload [0F] sets all four and payload [01] only [ready]. *)
Theorem stat_payload_bits :
  (forall data status_code,
     Py.int 16 data = Return status_code ->
     _parse_payload float_parse ("STAT " ++ data)
     = DStatus (Z.testbit status_code 0) (Z.testbit status_code 1)
               (Z.testbit status_code 2) (Z.testbit status_code 3)) /\
  _parse_payload float_parse "STAT 0F" = DStatus true true true true /\
  _parse_payload float_parse "STAT 01" = DStatus true false false false.
Proof.
  split; [|split; reflexivity].
  intros data status_code Hint.
  change ("STAT " ++ data) with ("STAT" ++ String " " data).
  unfold _parse_payload, parse_payload_body.
  rewrite split1_at_first by reflexivity. cbn [mbind result_bind].
  rewrite bool_decide_eq_false_2
    by (intros H; repeat (apply elem_of_cons in H as [H|H]; [discriminate|]);
        now apply elem_of_nil in H).
  replace (String.eqb "STAT" "SPT") with false by reflexivity.
  replace (String.eqb "STAT" "INT") with false by reflexivity.
  replace (String.eqb "STAT" "STAT") with true by reflexivity.
  rewrite Hint. cbn [mbind result_bind].
  now rewrite <- (flag_testbit _ 0), <- (flag_testbit _ 1),
    <- (flag_testbit _ 2), <- (flag_testbit _ 3) by lia.
Qed.

End ProtocolClaims.

(** *** Closed instances for the protocol layer *)

Section ProtocolInstances.

Import ProtocolHandler FloatText.



(** C2, counterexample: a correctly framed line (payload [WL =], checksum
    00) whose numeric field cannot be read is answered with a valid
    response, not an invalid one. *)
Lemma malformed_numeric_field_stays_valid :
  "$WL =*00" ++ CRLF
  = "$" ++ "WL =" ++ "*" ++ Py.format_02X (checksum_of "WL =") ++ CRLF /\
  Py.int 10 "=" = Raise ValueError /\
  parse_response parse_decimal ("$WL =*00" ++ CRLF) = Valid "WL" (DError ValueError).
Proof. repeat split; vm_compute; reflexivity. Qed.

(** C2, witness: a line without the leading dollar sign. *)
Lemma parse_response_fails_closed_witness :
  Py.startswith "$" "WL 500*58" = false /\
  parse_response parse_decimal "WL 500*58" = Invalid Invalid_frame_format.
Proof.
  split; [reflexivity|].
  apply (proj1 (parse_response_fails_closed parse_decimal "WL 500*58")).
  reflexivity.
Defined.



(** C4, witness: the mask [0A] sets [error] and [measuring] only. *)
Lemma stat_payload_bits_witness :
  Py.int 16 "0A" = Return 10%Z /\
  _parse_payload parse_decimal "STAT 0A" = DStatus false true false true.
Proof.
  split; [reflexivity|].
  exact (proj1 (stat_payload_bits parse_decimal) "0A" 10%Z eq_refl).
Defined.

End ProtocolInstances.

(** ** The communication manager *)

Section CommunicatorClaims.

Import AsyncCommunication.

(** C10. While no connection is established, that is, with no
    communication thread or with [_connected] false, [send_command]
    changes nothing: the communicator, queue included, is as before, no
    signal is emitted and nothing is raised, whatever the command. *)
Theorem send_command_disconnected_noop (float_str : float -> string)
        (self : AsyncCommunicator) (cmd_type : string) (kwargs : gmap string pyval) :
  _comm_thread self = None \/ _connected self = false ->
  send_command float_str self cmd_type kwargs = mkOutcome self [] (Return tt).
Proof.
  intros [Hthread | Hconn]; unfold send_command.
  - now rewrite Hthread.
  - rewrite Hconn. now destruct (_comm_thread self).
Qed.

(** C10, witness: a thread with a queued frame, but not connected; even
    an unknown command type passes silently. *)
Lemma send_command_disconnected_noop_witness :
  let self := mkCommunicator (Some (mkThread true ["$WL?*E2"])) false in
  (_comm_thread self = None \/ _connected self = false) /\
  send_command FloatText.str_integral self "no_such_command" ∅
  = mkOutcome self [] (Return tt).
Proof.
  intros self. split; [right; reflexivity|].
  apply send_command_disconnected_noop. right. reflexivity.
Defined.

End CommunicatorClaims.

(** ** Scans *)

Section ScanFacts.

Import AsyncCommunication DataAcquisition.
Local Open Scope float_scope.

Variable float_str : float -> string.

Lemma send_command_built (communicator : AsyncCommunicator) (cmd_type frame : string)
      (kwargs : gmap string pyval) :
  ProtocolHandler.build_command float_str cmd_type kwargs = Return frame ->
  returned (send_command float_str communicator cmd_type kwargs) = Return tt /\
  emitted (send_command float_str communicator cmd_type kwargs) = [].
Proof.
  intros Hbuild. unfold send_command, add_command. rewrite Hbuild.
  destruct (_comm_thread communicator), (_connected communicator); now split.
Qed.

Lemma communicator_send_built (self : t)
      (cmd_type frame : string) (kwargs : gmap string pyval) :
  ProtocolHandler.build_command float_str cmd_type kwargs = Return frame ->
  communicator_send float_str cmd_type kwargs self
  = (Return tt,
     with_communicator self
       (after (send_command float_str (_communicator self) cmd_type kwargs)),
     [Send_command cmd_type kwargs]).
Proof.
  intros Hbuild. unfold communicator_send.
  destruct (send_command_built (_communicator self) _ _ _ Hbuild) as [-> ->].
  reflexivity.
Qed.

Lemma build_set_wavelength (wl : float) :
  exists frame,
    ProtocolHandler.build_command float_str "set_wavelength" {[ "value" := VFloat wl ]}
    = Return frame.
Proof.
  rewrite (build_command_parametrised float_str "set_wavelength" "WL " "value")
    by (unfold parametrised_commands; repeat constructor).
  rewrite lookup_singleton_eq. eexists. reflexivity.
Qed.

Lemma build_read_intensity :
  exists frame,
    ProtocolHandler.build_command float_str "read_intensity" ∅ = Return frame.
Proof. eexists. vm_compute. reflexivity. Qed.

(** One point of the loop when no slot stops the scan. *)
Lemma scan_points_cons (num_points i : Z) (wl : float) (rest : list float) (self : t) :
  _is_scanning self = true ->
  scan_points float_str (fun _ => false) num_points i (wl :: rest) self
  = let '(r, self', tr) :=
        scan_points float_str (fun _ => false) num_points (i + 1) rest
                    (with_communicator self (comm_after_point float_str (_communicator self) wl)) in
    (r, self',
     Send_command "set_wavelength" {[ "value" := VFloat wl ]}
     :: Send_command "read_intensity" ∅
     :: Scan_progress (PyFloat.of_int (i + 1) / PyFloat.of_int num_points)
     :: tr).
Proof.
  intros Hscan. destruct (build_set_wavelength wl) as [f1 Hf1].
  destruct build_read_intensity as [f2 Hf2].
  cbn [scan_points]. unfold mbind at 1. unfold M_bind at 1. unfold get at 1.
  rewrite Hscan. cbn [negb].
  unfold mbind at 1. unfold M_bind at 1.
  rewrite (communicator_send_built _ _ _ _ Hf1).
  unfold mbind at 1. unfold M_bind at 1.
  rewrite (communicator_send_built _ _ _ _ Hf2).
  unfold mbind at 1. unfold M_bind at 1.
  unfold emit_progress. unfold mbind at 1. unfold M_bind at 1. unfold emit at 1.
  unfold mret at 1. unfold M_ret at 1.
  unfold comm_after_point, with_communicator. cbn.
  destruct (scan_points _ _ _ _ _ _) as [[r self'] tr]. reflexivity.
Qed.

(** An uninterrupted pass over [wavelengths]. *)
Lemma scan_points_pass (num_points : Z) (wavelengths : list float) :
  forall (i : Z) (self : t),
    _is_scanning self = true ->
    scan_points float_str (fun _ => false) num_points i wavelengths self
    = (Return tt,
       with_communicator self (comm_after_pass float_str (_communicator self) wavelengths),
       pass_trace num_points i wavelengths).
Proof.
  induction wavelengths as [|wl rest IH]; intros i self Hscan.
  - destruct self. reflexivity.
  - rewrite scan_points_cons by exact Hscan.
    rewrite IH by exact Hscan. reflexivity.
Qed.

(** [_handle_scan_complete] on an object that holds a configuration. *)
Lemma handle_scan_complete_eq (config : ScanConfig) (self : t) :
  _current_scan self = Some config ->
  _handle_scan_complete self
  = match mode config with
    | SINGLE => stop_scan self
    | REPEAT =>
      if (repeat_count config <=? _repeat_count self)%Z
      then stop_scan self else (Return tt, self, [])
    | AUTO => (Return tt, self, [])
    end.
Proof.
  intros Hcfg. unfold _handle_scan_complete, current_scan.
  unfold mbind at 1. unfold M_bind at 1. rewrite Hcfg.
  unfold mbind, M_bind, get, mret, M_ret, stop_scan, set_is_scanning.
  destruct (mode config); [reflexivity| |reflexivity].
  now destruct (repeat_count config <=? _repeat_count self)%Z.
Qed.

(** [_execute_single_scan] when the plan cannot be computed: the exception
    leaves the method before any command. *)
Lemma execute_single_scan_raise (listener : float -> bool) (config : ScanConfig)
      (self : t) (e : exn) :
  _current_scan self = Some config ->
  scan_plan config = Raise e ->
  _execute_single_scan float_str listener self = (Raise e, self, []).
Proof.
  intros Hcfg Hplan. unfold _execute_single_scan, scan_plan in *.
  unfold mbind at 1. unfold M_bind at 1. unfold get at 1. rewrite Hcfg.
  unfold mbind at 1. unfold M_bind at 1. unfold lift at 1.
  destruct (PyFloat.div _ _) as [q|e1]; cbn in Hplan; [|inversion Hplan; subst; reflexivity].
  unfold mbind at 1. unfold M_bind at 1. unfold lift at 1.
  destruct (PyFloat.to_int q) as [n|e2]; cbn in Hplan; [|inversion Hplan; subst; reflexivity].
  unfold mbind at 1. unfold M_bind at 1. unfold lift at 1.
  destruct (PyFloat.linspace _ _ _) as [wls|e3]; cbn in Hplan;
    inversion Hplan; subst; reflexivity.
Qed.

(** [_execute_single_scan] when the plan is computed: the point loop, then
    the completion handler if the scan is still on. *)
Lemma execute_single_scan_plan (listener : float -> bool) (config : ScanConfig)
      (self : t) (num_points : Z) (wavelengths : list float) :
  _current_scan self = Some config ->
  scan_plan config = Return (num_points, wavelengths) ->
  _execute_single_scan float_str listener self
  = match scan_points float_str listener num_points 0 wavelengths self with
    | (Return _, self1, tr1) =>
      if _is_scanning self1 then
        let '(r, self2, tr2) := _handle_scan_complete self1 in (r, self2, (tr1 ++ tr2)%list)
      else (Return tt, self1, tr1)
    | (Raise e, self1, tr1) => (Raise e, self1, tr1)
    end.
Proof.
  intros Hcfg Hplan. unfold _execute_single_scan, scan_plan in *.
  unfold mbind at 1. unfold M_bind at 1. unfold get at 1. rewrite Hcfg.
  unfold mbind at 1. unfold M_bind at 1. unfold lift at 1.
  destruct (PyFloat.div _ _) as [q|e1]; cbn in Hplan; [|discriminate].
  unfold mbind at 1. unfold M_bind at 1. unfold lift at 1.
  destruct (PyFloat.to_int q) as [n|e2]; cbn in Hplan; [|discriminate].
  unfold mbind at 1. unfold M_bind at 1. unfold lift at 1.
  destruct (PyFloat.linspace _ _ _) as [wls|e3]; cbn in Hplan; [|discriminate].
  inversion Hplan; subst; clear Hplan. cbn [app].
  unfold mbind at 1. unfold M_bind at 1.
  destruct (scan_points _ _ _ _ _ _) as [[[u|e] self1] tr1]; [|reflexivity].
  unfold mbind at 1. unfold M_bind at 1. unfold get at 1.
  destruct (_is_scanning self1).
  - destruct (_handle_scan_complete self1) as [[r self2] tr2]. reflexivity.
  - cbn. now rewrite app_nil_r.
Qed.

(** One point of the loop under any listener: the two commands, the
    progress, and the stop a slot may ask for. *)
Lemma scan_points_cons_listener (listener : float -> bool) (num_points i : Z)
      (wl : float) (rest : list float) (self : t) :
  _is_scanning self = true ->
  scan_points float_str listener num_points i (wl :: rest) self
  = let progress := PyFloat.of_int (i + 1) / PyFloat.of_int num_points in
    let self1 := with_communicator self (comm_after_point float_str (_communicator self) wl) in
    let '(r, self', tr) :=
        scan_points float_str listener num_points (i + 1) rest
                    (if listener progress then stopped self1 else self1) in
    (r, self',
     Send_command "set_wavelength" {[ "value" := VFloat wl ]}
     :: Send_command "read_intensity" ∅
     :: Scan_progress progress
     :: tr).
Proof.
  intros Hscan. destruct (build_set_wavelength wl) as [f1 Hf1].
  destruct build_read_intensity as [f2 Hf2].
  cbn [scan_points]. unfold mbind at 1. unfold M_bind at 1. unfold get at 1.
  rewrite Hscan. cbn [negb].
  unfold mbind at 1. unfold M_bind at 1.
  rewrite (communicator_send_built _ _ _ _ Hf1).
  unfold mbind at 1. unfold M_bind at 1.
  rewrite (communicator_send_built _ _ _ _ Hf2).
  unfold mbind at 1. unfold M_bind at 1.
  unfold emit_progress. unfold mbind at 1. unfold M_bind at 1. unfold emit at 1.
  unfold mret at 1. unfold M_ret at 1. unfold stop_scan, set_is_scanning.
  unfold comm_after_point, with_communicator, stopped. cbn.
  destruct (listener _); cbn;
    destruct (scan_points _ _ _ _ _ _) as [[r self'] tr]; reflexivity.
Qed.

Lemma keeps_label_bind {A B : Type} (m : M A) (f : A -> M B) :
  keeps_label m -> (forall a, keeps_label (f a)) -> keeps_label (m ≫= f).
Proof.
  intros Hm Hf self. unfold mbind, M_bind.
  specialize (Hm self). destruct (m self) as [[[a|e] self1] tr1]; cbn in *; [|exact Hm].
  specialize (Hf a self1). destruct (f a self1) as [[r self2] tr2]; cbn in *.
  destruct Hm as [H1 H2], Hf as [H3 H4]. split; congruence.
Qed.

Lemma keeps_label_ret {A : Type} (a : A) : keeps_label (mret a).
Proof. intros self. now split. Qed.

Lemma keeps_label_lift {A : Type} (r : result A) : keeps_label (lift r).
Proof. intros self. now split. Qed.

Lemma keeps_label_stop_scan : keeps_label stop_scan.
Proof. intros self. now split. Qed.

Lemma keeps_label_current_scan : keeps_label current_scan.
Proof.
  intros self. unfold current_scan.
  destruct (_current_scan self) eqn:E; (split; [reflexivity | exact E]).
Qed.

Lemma keeps_label_send (cmd_type : string) (kwargs : gmap string pyval) :
  keeps_label (communicator_send float_str cmd_type kwargs).
Proof. intros self. now split. Qed.

Lemma keeps_label_handle_scan_complete : keeps_label _handle_scan_complete.
Proof.
  apply keeps_label_bind; [apply keeps_label_current_scan|]. intros config.
  destruct (mode config); [apply keeps_label_stop_scan | | apply keeps_label_ret].
  apply keeps_label_bind; [intros self; now split|]. intros self.
  destruct (_ <=? _)%Z; [apply keeps_label_stop_scan | apply keeps_label_ret].
Qed.

Lemma keeps_label_scan_points (listener : float -> bool) (num_points : Z)
      (wavelengths : list float) :
  forall i, keeps_label (scan_points float_str listener num_points i wavelengths).
Proof.
  induction wavelengths as [|wl rest IH]; intros i; [apply keeps_label_ret|].
  cbn [scan_points]. apply keeps_label_bind; [intros self; now split|]. intros self.
  destruct (negb (_is_scanning self)); [apply keeps_label_ret|].
  apply keeps_label_bind; [apply keeps_label_send|]. intros _.
  apply keeps_label_bind; [apply keeps_label_send|]. intros _.
  apply keeps_label_bind; [|intros _; apply IH].
  apply keeps_label_bind; [intros s; now split|]. intros _.
  destruct (listener _); [apply keeps_label_stop_scan | apply keeps_label_ret].
Qed.

Lemma keeps_label_execute_single_scan (listener : float -> bool) :
  keeps_label (_execute_single_scan float_str listener).
Proof.
  apply keeps_label_bind; [intros self; now split|]. intros self.
  destruct (_current_scan self) as [config|]; [|apply keeps_label_ret].
  apply keeps_label_bind; [apply keeps_label_lift|]. intros q.
  apply keeps_label_bind; [apply keeps_label_lift|]. intros n.
  apply keeps_label_bind; [apply keeps_label_lift|]. intros wls.
  apply keeps_label_bind; [apply keeps_label_scan_points|]. intros _.
  apply keeps_label_bind; [intros s; now split|]. intros s.
  destruct (_is_scanning s); [apply keeps_label_handle_scan_complete | apply keeps_label_ret].
Qed.

Lemma keeps_label_start_repeat_scan (listener : float -> bool) (depth : nat) :
  keeps_label (_start_repeat_scan float_str listener depth).
Proof.
  induction depth as [|depth IH]; [apply keeps_label_lift|].
  cbn [_start_repeat_scan].
  apply keeps_label_bind; [intros self; now split|]. intros self.
  apply keeps_label_bind; [apply keeps_label_current_scan|]. intros config.
  destruct (_ <? _)%Z; [|apply keeps_label_ret].
  apply keeps_label_bind; [intros s; now split|]. intros _.
  apply keeps_label_bind; [apply keeps_label_execute_single_scan|]. intros _.
  apply keeps_label_bind; [intros s; now split|]. intros s.
  destruct (_is_scanning s); [apply IH | apply keeps_label_ret].
Qed.

Lemma keeps_label_start_auto_scan : keeps_label _start_auto_scan.
Proof.
  apply keeps_label_bind; [apply keeps_label_current_scan|]. intros config.
  apply keeps_label_bind; [apply keeps_label_lift|]. intros ms.
  intros self. now split.
Qed.

(** [_start_repeat_scan] with [S j] runs still to go and room for as many
    nested calls: the point loop runs [S j] times, then the scan stops. *)
Lemma start_repeat_scan_runs (config : ScanConfig) (num_points : Z)
      (wavelengths : list float) :
  mode config = REPEAT ->
  scan_plan config = Return (num_points, wavelengths) ->
  forall (j depth : nat) (self : t),
    _current_scan self = Some config ->
    _is_scanning self = true ->
    (_repeat_count self + Z.of_nat (S j) = repeat_count config)%Z ->
    (S j <= depth)%nat ->
    _start_repeat_scan float_str (fun _ => false) depth self
    = (Return tt,
       mkDataAcquisition (comm_after_passes float_str (_communicator self) wavelengths (S j))
                         (Some config) (_scan_data self) false (_scan_state self)
                         (repeat_count config) (_auto_timer self),
       concat (replicate (S j) (pass_trace num_points 0 wavelengths))).
Proof.
  intros Hmode Hplan. induction j as [|j IH]; intros depth self Hcfg Hscan Hcount Hdepth;
    (destruct depth as [|depth]; [lia|]);
    destruct self as [comm cs sd sc st rc timer]; cbn in Hcfg, Hscan, Hcount; subst cs sc;
    cbn [_start_repeat_scan];
    unfold mbind at 1; unfold M_bind at 1; unfold get at 1;
    unfold mbind at 1; unfold M_bind at 1; unfold current_scan at 1;
    cbn [_current_scan _repeat_count];
    (replace (rc <? repeat_count config)%Z with true by (symmetry; apply Z.ltb_lt; lia));
    unfold mbind at 1; unfold M_bind at 1; unfold set_repeat_count at 1;
    cbn [_communicator _current_scan _scan_data _is_scanning _scan_state
         _repeat_count _auto_timer];
    unfold mbind at 1; unfold M_bind at 1;
    rewrite (execute_single_scan_plan _ config _ num_points wavelengths)
      by first [exact Hplan | reflexivity];
    rewrite scan_points_pass by reflexivity;
    unfold with_communicator;
    cbn [_is_scanning _communicator _current_scan _scan_data
         _scan_state _repeat_count _auto_timer];
    rewrite (handle_scan_complete_eq config) by reflexivity;
    rewrite Hmode; cbn [_repeat_count].
  - replace (repeat_count config <=? rc + 1)%Z with true
      by (symmetry; apply Z.leb_le; lia).
    replace (rc + 1)%Z with (repeat_count config) by lia.
    unfold stop_scan, set_is_scanning, mbind, M_bind, get, mret, M_ret. cbn.
    now rewrite !app_nil_r.
  - replace (repeat_count config <=? rc + 1)%Z with false
      by (symmetry; apply Z.leb_gt; lia).
    unfold mbind at 1. unfold M_bind at 1. unfold get at 1.
    cbn [_is_scanning].
    rewrite (IH depth) by (cbn; first [reflexivity | lia]).
    cbn. rewrite !app_nil_r. reflexivity.
Qed.

Lemma start_scan_idle (listener : float -> bool) (depth : nat) (config : ScanConfig)
      (self : t) :
  _is_scanning self = false ->
  start_scan float_str listener depth config self
  = match mode config with
    | AUTO => _start_auto_scan (started self config)
    | REPEAT => _start_repeat_scan float_str listener depth (started self config)
    | SINGLE => _execute_single_scan float_str listener (started self config)
    end.
Proof.
  intros Hidle. unfold start_scan.
  unfold mbind at 1. unfold M_bind at 1. unfold get at 1. rewrite Hidle.
  unfold mbind at 1. unfold M_bind at 1. unfold put at 1. fold (started self config).
  destruct (mode config);
    match goal with |- context [?m (started self config)] =>
      destruct (m (started self config)) as [[r s] tr] end; reflexivity.
Qed.

End ScanFacts.

(** ** Scan sequencing against its specification *)

Section ScanClaims.

Import AsyncCommunication DataAcquisition.
Local Open Scope float_scope.

Variable float_str : float -> string.

(** C5. A single-mode scan from 500 to 510 in steps of 5, started on an
    object that is not scanning and with no slot stopping it, issues the
    set-wavelength commands for 500, 505 and 510 in that order, each
    followed by a read command, emits the progress values 1/3, 2/3 and 1
    after the respective pair, and returns with the scanning flag cleared. *)
Theorem single_scan_500_510_5 (depth : nat) (repeats : Z) (seconds : float) (self : t) :
  _is_scanning self = false ->
  let o := start_scan float_str (fun _ => false) depth
                      (mkScanConfig 500 510 5 SINGLE repeats seconds) self in
  result_of o = Return tt /\
  trace_of o =
    [ Send_command "set_wavelength" {[ "value" := VFloat 500 ]};
      Send_command "read_intensity" ∅;
      Scan_progress (1 / 3);
      Send_command "set_wavelength" {[ "value" := VFloat 505 ]};
      Send_command "read_intensity" ∅;
      Scan_progress (2 / 3);
      Send_command "set_wavelength" {[ "value" := VFloat 510 ]};
      Send_command "read_intensity" ∅;
      Scan_progress 1 ] /\
  _is_scanning (state_of o) = false.
Proof.
  intros Hidle o.
  set (config := mkScanConfig 500 510 5 SINGLE repeats seconds) in *.
  assert (Hplan : scan_plan config = Return (3%Z, [500; 505; 510]))
    by (vm_compute; reflexivity).
  assert (Ho : o = (Return tt,
                    mkDataAcquisition
                      (comm_after_pass float_str (_communicator self) [500; 505; 510])
                      (Some config) [] false "scanning" 0%Z (_auto_timer self),
                    pass_trace 3 0 [500; 505; 510])).
  { subst o. rewrite start_scan_idle by exact Hidle.
    change (mode config) with SINGLE. cbn iota.
    rewrite (execute_single_scan_plan float_str _ config _ 3%Z [500; 505; 510])
      by first [exact Hplan | reflexivity].
    rewrite (scan_points_pass float_str) by reflexivity.
    cbn [_is_scanning with_communicator started].
    rewrite (handle_scan_complete_eq config) by reflexivity.
    change (mode config) with SINGLE. cbn iota.
    unfold stop_scan, set_is_scanning. reflexivity. }
  rewrite Ho. repeat split.
Qed.

(** C6, as amended. [start_scan] does not compare the start wavelength with
    the end wavelength and knows no configuration error. Called on an object
    that is not scanning, it stores the configuration and enters the
    scanning state whatever the configuration. In single mode the number of
    points is the quotient (end - start) / step truncated toward zero, plus
    one: when that number is negative, [numpy.linspace] raises [ValueError]
    before any command and the scanning flag stays set; when it is 0, no
    command is issued and the scan completes; when it is 1, the
    set-wavelength command for the start wavelength and its read command
    are issued, progress 1 is emitted, and the scan completes. *)
Theorem start_scan_without_validation (listener : float -> bool) (depth : nat)
        (config : ScanConfig) (self : t) :
  _is_scanning self = false ->
  let o := start_scan float_str listener depth config self in
  (_scan_state (state_of o) = "scanning" /\ _current_scan (state_of o) = Some config) /\
  forall q n,
    mode config = SINGLE ->
    PyFloat.div (end_wavelength config - start_wavelength config) (step_size config)
    = Return q ->
    PyFloat.to_int q = Return n ->
    ((n + 1 < 0)%Z ->
     result_of o = Raise ValueError /\ trace_of o = [] /\
     _is_scanning (state_of o) = true) /\
    ((n + 1 = 0)%Z ->
     result_of o = Return tt /\ trace_of o = [] /\
     _is_scanning (state_of o) = false) /\
    ((n + 1 = 1)%Z ->
     result_of o = Return tt /\
     trace_of o =
       [ Send_command "set_wavelength"
           {[ "value" := VFloat (0 * (end_wavelength config - start_wavelength config)
                                 + start_wavelength config) ]};
         Send_command "read_intensity" ∅;
         Scan_progress 1 ] /\
     _is_scanning (state_of o) = false).
Proof.
  intros Hidle o. split.
  - subst o. rewrite start_scan_idle by exact Hidle.
    destruct (mode config).
    + apply (keeps_label_execute_single_scan float_str listener (started self config)).
    + apply (keeps_label_start_repeat_scan float_str listener depth (started self config)).
    + apply (keeps_label_start_auto_scan (started self config)).
  - intros q n Hmode Hdiv Hint.
    assert (Ho : o = _execute_single_scan float_str listener (started self config)).
    { subst o. rewrite start_scan_idle by exact Hidle. now rewrite Hmode. }
    assert (Hplan : scan_plan config
                    = (wavelengths ← PyFloat.linspace (start_wavelength config)
                                      (end_wavelength config) (n + 1);
                       Return ((n + 1)%Z, wavelengths))).
    { unfold scan_plan. rewrite Hdiv. cbn [mbind result_bind]. now rewrite Hint. }
    split; [|split]; intros Hn.
    + assert (Hrun : o = (Raise ValueError, started self config, [])).
      { rewrite Ho. apply (execute_single_scan_raise float_str listener config);
          [reflexivity|].
        rewrite Hplan. unfold PyFloat.linspace.
        replace (n + 1 <? 0)%Z with true by (symmetry; apply Z.ltb_lt; lia).
        reflexivity. }
      rewrite Hrun. now repeat split.
    + rewrite Hn in Hplan.
      assert (Hrun : o = (Return tt, stopped (started self config), [])).
      { rewrite Ho.
        rewrite (execute_single_scan_plan float_str listener config _ 0%Z [])
          by first [exact Hplan | reflexivity].
        cbn [scan_points]. unfold mret at 1. unfold M_ret at 1.
        cbn [_is_scanning started].
        rewrite (handle_scan_complete_eq config) by reflexivity.
        now rewrite Hmode. }
      rewrite Hrun. now repeat split.
    + rewrite Hn in Hplan.
      set (wl := 0 * (end_wavelength config - start_wavelength config)
                 + start_wavelength config) in *.
      assert (Hrun : o = (Return tt,
                          stopped (with_communicator (started self config)
                                     (comm_after_point float_str (_communicator self) wl)),
                          [ Send_command "set_wavelength" {[ "value" := VFloat wl ]};
                            Send_command "read_intensity" ∅;
                            Scan_progress 1 ])).
      { rewrite Ho.
        rewrite (execute_single_scan_plan float_str listener config _ 1%Z [wl])
          by first [exact Hplan | reflexivity].
        rewrite scan_points_cons_listener by reflexivity. cbn zeta.
        change (PyFloat.of_int (0 + 1) / PyFloat.of_int 1) with 1.
        cbn [scan_points]. unfold mret at 1. unfold M_ret at 1.
        destruct (listener 1); [reflexivity|].
        cbn [_is_scanning with_communicator started].
        rewrite (handle_scan_complete_eq config) by reflexivity.
        now rewrite Hmode. }
      rewrite Hrun. now repeat split.
Qed.


End ScanClaims.


(** *** Closed instances for scan sequencing *)

Section ScanInstances.

Import AsyncCommunication DataAcquisition FloatText.
Local Open Scope float_scope.

(** C5, witness: the scan of the claim on a fresh, connected object; the
    six frames reach the queue in order. *)
Lemma single_scan_500_510_5_witness :
  _is_scanning fresh_connected = false /\
  let o := start_scan str_integral (fun _ => false) 0
                      (mkScanConfig 500 510 5 SINGLE 1 1) fresh_connected in
  (result_of o = Return tt /\
   trace_of o =
     [ Send_command "set_wavelength" {[ "value" := VFloat 500 ]};
       Send_command "read_intensity" ∅;
       Scan_progress (1 / 3);
       Send_command "set_wavelength" {[ "value" := VFloat 505 ]};
       Send_command "read_intensity" ∅;
       Scan_progress (2 / 3);
       Send_command "set_wavelength" {[ "value" := VFloat 510 ]};
       Send_command "read_intensity" ∅;
       Scan_progress 1 ] /\
   _is_scanning (state_of o) = false) /\
  queue_of (state_of o) =
    [ "$WL 500.0*B6" ++ ProtocolHandler.CRLF; "$INT?*2A" ++ ProtocolHandler.CRLF;
      "$WL 505.0*BB" ++ ProtocolHandler.CRLF; "$INT?*2A" ++ ProtocolHandler.CRLF;
      "$WL 510.0*B7" ++ ProtocolHandler.CRLF; "$INT?*2A" ++ ProtocolHandler.CRLF ].
Proof.
  split; [reflexivity|]. intros o. split.
  - exact (single_scan_500_510_5 str_integral 0 1 1 fresh_connected eq_refl).
  - vm_compute. reflexivity.
Defined.

(** C6, counterexample: with start = end = 500 the configuration is not
    rejected. [start_scan] returns normally, the set-wavelength command for
    500 and its read command are issued and their frames reach the queue of
    the communicator, and the object has been through the scanning state
    (its state label still reads so). *)
Lemma start_scan_equal_bounds_not_rejected :
  let o := start_scan str_integral (fun _ => false) 0
                      (mkScanConfig 500 500 5 SINGLE 1 1) fresh_connected in
  result_of o = Return tt /\
  trace_of o =
    [ Send_command "set_wavelength" {[ "value" := VFloat 500 ]};
      Send_command "read_intensity" ∅;
      Scan_progress 1 ] /\
  queue_of (state_of o) =
    [ "$WL 500.0*B6" ++ ProtocolHandler.CRLF; "$INT?*2A" ++ ProtocolHandler.CRLF ] /\
  _scan_state (state_of o) = "scanning".
Proof. vm_compute. repeat split. Qed.

(** C6, witness: start above end. With 510 to 508 in steps of 5 the point
    count is 1 and the pair for 510 is issued. *)
Lemma start_scan_without_validation_witness :
  _is_scanning fresh_connected = false /\
  let config := mkScanConfig 510 508 5 SINGLE 1 1 in
  let o := start_scan str_integral (fun _ => false) 0 config fresh_connected in
  PyFloat.div (508 - 510) 5 = Return (-2 / 5) /\
  PyFloat.to_int (-2 / 5) = Return 0%Z /\
  _scan_state (state_of o) = "scanning" /\
  result_of o = Return tt /\
  trace_of o =
    [ Send_command "set_wavelength" {[ "value" := VFloat 510 ]};
      Send_command "read_intensity" ∅;
      Scan_progress 1 ] /\
  _is_scanning (state_of o) = false.
Proof.
  split; [reflexivity|]. intros config o.
  assert (Hdiv : PyFloat.div (508 - 510) 5 = Return (-2 / 5)) by reflexivity.
  assert (Hint : PyFloat.to_int (-2 / 5) = Return 0%Z) by reflexivity.
  destruct (start_scan_without_validation str_integral (fun _ => false) 0 config
              fresh_connected eq_refl) as [[Hlabel _] Hcases].
  destruct (Hcases (-2 / 5) 0%Z eq_refl Hdiv Hint) as (_ & _ & Hone).
  destruct (Hone eq_refl) as (Hres & Htrace & Hflag).
  repeat split; assumption.
Defined.


End ScanInstances.

(** ** Comparisons of doubles *)

Section FloatFacts.

Local Open Scope float_scope.

Lemma SFcompare_antisym (a b : spec_float) :
  SFcompare b a = option_map CompOpp (SFcompare a b).
Proof.
  destruct a as [sa|sa| |sa ma ea], b as [sb|sb| |sb mb eb]; cbn;
    try reflexivity; try (destruct sa; reflexivity); try (destruct sb; reflexivity);
    try (destruct sa, sb; reflexivity).
  destruct sa, sb; cbn; try reflexivity;
    rewrite (Z.compare_antisym ea eb); destruct (ea ?= eb)%Z; cbn; try reflexivity;
    pose proof (Pos.compare_cont_antisym ma mb Eq) as Hpos; cbn in Hpos;
    now rewrite <- Hpos.
Qed.

(** [a > b] and [b > a] never hold together. *)
Lemma gt_asym (a b : float) : PyFloat.gt a b = true -> PyFloat.gt b a = false.
Proof.
  unfold PyFloat.gt. rewrite !FloatAxioms.ltb_spec. unfold SFltb.
  rewrite (SFcompare_antisym (Prim2SF b) (Prim2SF a)).
  destruct (SFcompare (Prim2SF b) (Prim2SF a)) as [[]|]; cbn; congruence.
Qed.

Lemma is_nan_spec (a : float) : is_nan a = false -> SFcompare (Prim2SF a) (Prim2SF a) = Some Eq.
Proof.
  unfold is_nan. rewrite FloatAxioms.eqb_spec. unfold SFeqb.
  destruct (SFcompare (Prim2SF a) (Prim2SF a)) as [[]|]; cbn; try discriminate.
  reflexivity.
Qed.

Lemma compare_defined (a b : float) :
  is_nan a = false -> is_nan b = false ->
  exists c, SFcompare (Prim2SF a) (Prim2SF b) = Some c.
Proof.
  intros Ha Hb. apply is_nan_spec in Ha, Hb.
  destruct (Prim2SF a), (Prim2SF b); cbn in *; try discriminate; eauto.
Qed.

(** Between two numbers, "not above" is "at or below". *)
Lemma not_gt_le (a b : float) :
  is_nan a = false -> is_nan b = false ->
  PyFloat.gt a b = false -> (a <=? b) = true.
Proof.
  intros Ha Hb. unfold PyFloat.gt. rewrite FloatAxioms.ltb_spec, FloatAxioms.leb_spec. unfold SFltb, SFleb.
  destruct (compare_defined a b Ha Hb) as [c Hc].
  rewrite (SFcompare_antisym (Prim2SF a) (Prim2SF b)), Hc.
  destruct c; cbn; congruence.
Qed.

End FloatFacts.

(** ** Peak detection *)

Section PeakFacts.

Import DataAcquisition.
Local Open Scope float_scope.

Lemma getitem_Some (a : list float) (i : nat) (v : float) :
  a !! i = Some v -> getitem a i = Return v.
Proof. intros H. unfold getitem. now rewrite H. Qed.

Lemma getitem_lt (a : list float) (i : nat) :
  (i < length a)%nat -> exists v, a !! i = Some v /\ getitem a i = Return v.
Proof.
  intros H. destruct (lookup_lt_is_Some_2 a i H) as [v Hv].
  exists v. split; [exact Hv | now apply getitem_Some].
Qed.

Lemma is_local_peak_interior (x : list float) (threshold : float) (i : nat) :
  (1 <= i)%nat -> (i + 1 < length x)%nat ->
  exists b, is_local_peak x threshold i = Return b /\ (b = true <-> peak_at x threshold i).
Proof.
  intros Hlo Hhi.
  destruct (getitem_lt x i) as (xi & Hi & Gi); [lia|].
  destruct (getitem_lt x (i - 1)) as (xl & Hl & Gl); [lia|].
  destruct (getitem_lt x (i + 1)) as (xr & Hr & Gr); [lia|].
  assert (Hmax : exists m, PyFloat.np_max x = Return m).
  { destruct x; [cbn in Hhi; lia | eexists; reflexivity]. }
  destruct Hmax as [m Hm].
  assert (Hunique : forall P : Prop,
             peak_at x threshold i ->
             (PyFloat.gt xi xl = true -> PyFloat.gt xi xr = true ->
              PyFloat.gt xi (threshold * m) = true -> P) -> P).
  { intros P (_ & _ & xi' & xl' & xr' & m' & Hi' & Hl' & Hr' & Hm' & G1 & G2 & G3) HP.
    rewrite Hi in Hi'. rewrite Hl in Hl'. rewrite Hr in Hr'. rewrite Hm in Hm'.
    inversion Hi'; inversion Hl'; inversion Hr'; inversion Hm'; subst. now apply HP. }
  unfold is_local_peak. rewrite Gi, Gl, Gr, Hm. cbn [mbind result_bind].
  destruct (PyFloat.gt xi xl) eqn:G1; cbn [negb].
  2:{ exists false. split; [reflexivity|]. split; [discriminate|].
      intros Hp. apply (Hunique _ Hp). congruence. }
  destruct (PyFloat.gt xi xr) eqn:G2; cbn [negb].
  2:{ exists false. split; [reflexivity|]. split; [discriminate|].
      intros Hp. apply (Hunique _ Hp). congruence. }
  exists (PyFloat.gt xi (threshold * m)). split; [reflexivity|]. split.
  - intros G3. split; [exact Hlo|]. split; [exact Hhi|].
    exists xi, xl, xr, m. repeat split; assumption.
  - intros Hp. apply (Hunique _ Hp). congruence.
Qed.

(** The first loop over [range(a, a + n)] inside the array. *)
Lemma select_peaks_seq (x : list float) (threshold : float) :
  forall (n a : nat),
    (1 <= a)%nat ->
    (n = 0%nat \/ a + n < length x)%nat ->
    exists sel,
      select_peaks x threshold (seq a n) = Return sel /\
      (forall i, i ∈ sel <-> (a <= i < a + n)%nat /\ peak_at x threshold i) /\
      StronglySorted lt sel /\
      Forall (fun i => (a <= i)%nat) sel.
Proof.
  induction n as [|n IH]; intros a Ha Hn.
  - exists []. cbn. split; [reflexivity|]. split; [|split; constructor].
    intros i. split; [intros H; now apply elem_of_nil in H | lia].
  - destruct Hn as [Hn|Hn]; [discriminate|].
    destruct (is_local_peak_interior x threshold a) as (b & Hb & Hiff); [lia|lia|].
    destruct (IH (S a)) as (tail & Htail & Hmem & Hsorted & Hge); [lia | right; lia |].
    exists (if b then a :: tail else tail).
    cbn [seq select_peaks]. rewrite Hb. cbn [mbind result_bind]. rewrite Htail.
    cbn [mbind result_bind]. split; [reflexivity|].
    assert (Hlt : Forall (lt a) tail).
    { eapply Forall_impl; [exact Hge|]. cbn. intros; lia. }
    split; [|split].
    + intros i. destruct b.
      * rewrite elem_of_cons, Hmem. split.
        -- intros [->|[Hr Hp]]; [split; [lia | now apply Hiff] | split; [lia | exact Hp]].
        -- intros [Hr Hp]. destruct (decide (i = a)) as [->|Hne]; [now left|].
           right. split; [lia | exact Hp].
      * rewrite Hmem. split.
        -- intros [Hr Hp]. split; [lia | exact Hp].
        -- intros [Hr Hp]. destruct (decide (i = a)) as [->|Hne].
           ++ apply Hiff in Hp. discriminate.
           ++ split; [lia | exact Hp].
    + destruct b; [constructor; assumption | exact Hsorted].
    + destruct b; [constructor; [lia|] |]; (eapply Forall_impl; [exact Hge|]);
        cbn; intros; lia.
Qed.

(** The first loop of [detect_peaks] always returns; it selects exactly the
    indices that satisfy [peak_at], in ascending order. *)
Lemma peak_indices_spec (x : list float) (threshold : float) :
  exists indices,
    peak_indices x threshold = Return indices /\
    (forall i, i ∈ indices <-> peak_at x threshold i) /\
    StronglySorted lt indices.
Proof.
  destruct (select_peaks_seq x threshold (length x - 2) 1) as (sel & Hsel & Hmem & Hs & _);
    [lia | lia |].
  exists sel. split; [exact Hsel|]. split; [|exact Hs].
  intros i. rewrite Hmem. split; [now intros [_ Hp]|].
  intros Hp. split; [|exact Hp]. destruct Hp as (Hlo & Hhi & _). lia.
Qed.

Lemma walk_left_spec (x : list float) (half_max : float) :
  forall idx, (idx < length x)%nat ->
    exists l, walk_left x half_max idx = Return l /\ stops_left x half_max idx l.
Proof.
  induction idx as [|k IH]; intros Hlen.
  - exists 0%nat. split; [reflexivity|]. split; [lia|]. split; [lia | now left].
  - destruct (getitem_lt x (S k) Hlen) as (v & Hv & Gv).
    cbn [walk_left]. rewrite Gv. cbn [mbind result_bind].
    destruct (PyFloat.gt v half_max) eqn:Hgt.
    + destruct IH as (l & Hl & Hle & Habove & Hstop); [lia|].
      exists l. split; [exact Hl|]. split; [lia|]. split; [|exact Hstop].
      intros j Hj. destruct (decide (j = S k)) as [->|Hne]; [now exists v|].
      apply Habove. lia.
    + exists (S k). split; [reflexivity|]. split; [lia|]. split; [lia|].
      right. now exists v.
Qed.

Lemma walk_right_spec (x : list float) (half_max : float) :
  forall room idx, (idx + room + 1 = length x)%nat ->
    exists r, walk_right x half_max idx room = Return r /\ stops_right x half_max idx r.
Proof.
  induction room as [|room IH]; intros idx Hlen.
  - exists idx. split; [reflexivity|]. split; [lia|]. split; [lia | left; lia].
  - destruct (getitem_lt x idx) as (v & Hv & Gv); [lia|].
    cbn [walk_right]. rewrite Gv. cbn [mbind result_bind].
    destruct (PyFloat.gt v half_max) eqn:Hgt.
    + destruct (IH (S idx)) as (r & Hr & Hle & Habove & Hstop); [lia|].
      exists r. split; [exact Hr|]. split; [lia|]. split; [|exact Hstop].
      intros j Hj. destruct (decide (j = idx)) as [->|Hne]; [now exists v|].
      apply Habove. lia.
    + exists idx. split; [reflexivity|]. split; [lia|]. split; [lia|].
      right. now exists v.
Qed.

(** The body of the second loop at an index inside both arrays. *)
Lemma measure_peak_spec (spectrum : SpectrumData) (idx : nat) :
  length (wavelengths spectrum) = length (intensities spectrum) ->
  (idx < length (intensities spectrum))%nat ->
  exists xi wi l r wl wr,
    intensities spectrum !! idx = Some xi /\
    wavelengths spectrum !! idx = Some wi /\
    wavelengths spectrum !! l = Some wl /\
    wavelengths spectrum !! r = Some wr /\
    walk_left (intensities spectrum) (xi / 2) idx = Return l /\
    walk_right (intensities spectrum) (xi / 2) idx
               (length (intensities spectrum) - 1 - idx) = Return r /\
    stops_left (intensities spectrum) (xi / 2) idx l /\
    stops_right (intensities spectrum) (xi / 2) idx r /\
    measure_peak spectrum idx = Return (mkPeakData wi xi (wr - wl)).
Proof.
  intros Hlen Hidx.
  destruct (getitem_lt (intensities spectrum) idx Hidx) as (xi & Hxi & Gxi).
  destruct (walk_left_spec (intensities spectrum) (xi / 2) idx Hidx) as (l & Hl & Sl).
  destruct (walk_right_spec (intensities spectrum) (xi / 2)
              (length (intensities spectrum) - 1 - idx) idx) as (r & Hr & Sr); [lia|].
  destruct (getitem_lt (wavelengths spectrum) idx) as (wi & Hwi & Gwi); [lia|].
  destruct (getitem_lt (wavelengths spectrum) l) as (wl & Hwl & Gwl);
    [destruct Sl as (? & _); lia|].
  destruct (getitem_lt (wavelengths spectrum) r) as (wr & Hwr & Gwr);
    [destruct Sr as (? & _); lia|].
  exists xi, wi, l, r, wl, wr. repeat (split; [assumption|]).
  unfold measure_peak. rewrite Gxi. cbn [mbind result_bind].
  rewrite Hl. cbn [mbind result_bind]. rewrite Hr. cbn [mbind result_bind].
  rewrite Gwr, Gwl, Gwi. reflexivity.
Qed.

(** The second loop over indices inside both arrays. *)
Lemma measure_peaks_spec (spectrum : SpectrumData) :
  length (wavelengths spectrum) = length (intensities spectrum) ->
  forall indices acc,
    Forall (fun i => (i < length (intensities spectrum))%nat) indices ->
    exists peaks,
      measure_peaks spectrum acc indices
      = mkDetection (acc ++ peaks)%list (Return (acc ++ peaks)%list) /\
      Forall2 (fun i p => measure_peak spectrum i = Return p) indices peaks.
Proof.
  intros Hlen. induction indices as [|idx rest IH]; intros acc Hin.
  - exists []. rewrite app_nil_r. split; [reflexivity | constructor].
  - inversion Hin as [|? ? Hidx Hrest]; subst.
    destruct (measure_peak_spec spectrum idx Hlen Hidx)
      as (xi & wi & l & r & wl & wr & _ & _ & _ & _ & _ & _ & _ & _ & Hm).
    destruct (IH (acc ++ [mkPeakData wi xi (wr - wl)])%list Hrest) as (peaks & Hp & Hall).
    exists (mkPeakData wi xi (wr - wl) :: peaks).
    cbn [measure_peaks]. rewrite Hm, Hp, <- app_assoc. split; [reflexivity|].
    now constructor.
Qed.

(** [detect_peaks] on a spectrum whose two arrays have equal length. *)
Lemma detect_peaks_spec (spectrum : SpectrumData) (threshold : float) :
  length (wavelengths spectrum) = length (intensities spectrum) ->
  exists indices peaks,
    peak_indices (intensities spectrum) threshold = Return indices /\
    detect_peaks spectrum threshold = mkDetection peaks (Return peaks) /\
    Forall2 (fun i p => measure_peak spectrum i = Return p) indices peaks.
Proof.
  intros Hlen.
  destruct (peak_indices_spec (intensities spectrum) threshold) as (indices & Hi & Hmem & _).
  destruct (measure_peaks_spec spectrum Hlen indices []) as (peaks & Hp & Hall).
  { apply Forall_forall. intros i Hin. apply Hmem in Hin as (_ & Hhi & _). lia. }
  exists indices, peaks. split; [exact Hi|]. split; [|exact Hall].
  unfold detect_peaks. now rewrite Hi.
Qed.

Lemma monotonic_no_peak (x : list float) (threshold : float) (i : nat) :
  strictly_monotonic x -> ~ peak_at x threshold i.
Proof.
  intros Hmono (Hlo & Hhi & xi & xl & xr & m & Hi & Hl & Hr & _ & G1 & G2 & _).
  destruct Hmono as [Hinc|Hdec].
  - specialize (Hinc i xi xr Hi Hr). apply gt_asym in G2. congruence.
  - replace i with (i - 1 + 1)%nat in Hi by lia.
    specialize (Hdec (i - 1)%nat xl xi Hl Hi). apply gt_asym in G1. congruence.
Qed.

End PeakFacts.

(** ** Peak detection against its specification *)

Section PeakClaims.

Import DataAcquisition.
Local Open Scope float_scope.


(** C9, as amended. For every detected peak, the reported width is the
    wavelength at the right stopping index minus the wavelength at the left
    stopping index of the two walks outward from the peak. Each walk passes
    only samples strictly above half the peak intensity and stops at the
    first sample that is not above it (at or below it, for numbers), or at
    the first, respectively last, sample of the spectrum when every sample
    on that side is above half the peak intensity. *)
Theorem fwhm_between_walk_stops (spectrum : SpectrumData) (threshold : float)
        (indices : list nat) (idx : nat) :
  length (wavelengths spectrum) = length (intensities spectrum) ->
  peak_indices (intensities spectrum) threshold = Return indices ->
  idx ∈ indices ->
  exists xi wi l r wl wr,
    intensities spectrum !! idx = Some xi /\
    wavelengths spectrum !! idx = Some wi /\
    wavelengths spectrum !! l = Some wl /\
    wavelengths spectrum !! r = Some wr /\
    walk_left (intensities spectrum) (xi / 2) idx = Return l /\
    walk_right (intensities spectrum) (xi / 2) idx
               (length (intensities spectrum) - 1 - idx) = Return r /\
    stops_left (intensities spectrum) (xi / 2) idx l /\
    stops_right (intensities spectrum) (xi / 2) idx r /\
    mkPeakData wi xi (wr - wl) ∈ peaks_emitted (detect_peaks spectrum threshold) /\
    peaks_returned (detect_peaks spectrum threshold)
    = Return (peaks_emitted (detect_peaks spectrum threshold)) /\
    (forall v, is_nan v = false -> is_nan (xi / 2) = false ->
               PyFloat.gt v (xi / 2) = false -> (v <=? xi / 2) = true).
Proof.
  intros Hlen Hi Hin.
  destruct (peak_indices_spec (intensities spectrum) threshold) as (indices' & Hi' & Hmem & _).
  rewrite Hi in Hi'. inversion Hi'; subst indices'.
  assert (Hidx : (idx < length (intensities spectrum))%nat)
    by (apply Hmem in Hin as (_ & Hhi & _); lia).
  destruct (measure_peak_spec spectrum idx Hlen Hidx)
    as (xi & wi & l & r & wl & wr & Hxi & Hwi & Hwl & Hwr & Hl & Hr & Sl & Sr & Hm).
  exists xi, wi, l, r, wl, wr. repeat (split; [assumption|]).
  destruct (detect_peaks_spec spectrum threshold Hlen)
    as (indices' & peaks & Hi'' & Hd & Hall).
  rewrite Hi in Hi''. inversion Hi''; subst indices'.
  rewrite Hd. cbn [peaks_emitted peaks_returned]. split; [|split; [reflexivity|]].
  - apply list_elem_of_lookup_1 in Hin as [k Hk].
    destruct (Forall2_lookup_l _ _ _ _ _ Hall Hk) as (p & Hp & Hmp).
    rewrite Hm in Hmp. inversion Hmp; subst p.
    now apply list_elem_of_lookup_2 with k.
  - intros v Hv Hh. now apply not_gt_le.
Qed.

End PeakClaims.

(** *** Closed instances for peak detection *)

Section PeakInstances.

Import DataAcquisition.
Local Open Scope float_scope.


(** C9, counterexample: in the spectrum 4, 5, 4 the peak 5 is detected and
    reported with width 402 - 400, although no sample is at or below half
    its intensity: both walks stop at the ends of the array, on samples of
    intensity 4, above 2.5. *)
Lemma fwhm_walk_stops_above_half :
  detect_peaks plateau_spectrum (1 / 10)
  = mkDetection [mkPeakData 401 5 2] (Return [mkPeakData 401 5 2]) /\
  walk_left (intensities plateau_spectrum) (5 / 2) 1 = Return 0%nat /\
  walk_right (intensities plateau_spectrum) (5 / 2) 1 1 = Return 2%nat /\
  intensities plateau_spectrum !! 0%nat = Some 4 /\
  intensities plateau_spectrum !! 2%nat = Some 4 /\
  (4 <=? 5 / 2) = false /\
  ~ exists j v, intensities plateau_spectrum !! j = Some v /\ (v <=? 5 / 2) = true.
Proof.
  repeat split.
  intros (j & v & Hv & Hle).
  do 3 (destruct j as [|j]; [cbn in Hv; inversion Hv; subst; discriminate|]).
  discriminate.
Qed.

(** C9, witness: the example of the specification. The peak at 402 with
    intensity 5 has half height 2.5; the walks stop at indices 1 and 3, the
    first samples at or below it, and the width is 403 - 401. *)
Lemma fwhm_between_walk_stops_witness :
  peak_indices (intensities example_spectrum) (1 / 10) = Return [2%nat] /\
  walk_left (intensities example_spectrum) (5 / 2) 2 = Return 1%nat /\
  walk_right (intensities example_spectrum) (5 / 2) 2 2 = Return 3%nat /\
  (1 <=? 5 / 2) = true /\
  mkPeakData 402 5 (403 - 401) ∈ peaks_emitted (detect_peaks example_spectrum (1 / 10)).
Proof.
  assert (Hi : peak_indices (intensities example_spectrum) (1 / 10) = Return [2%nat])
    by reflexivity.
  assert (Hin : 2%nat ∈ [2%nat]) by now left.
  destruct (fwhm_between_walk_stops example_spectrum (1 / 10) [2%nat] 2 eq_refl Hi Hin)
    as (xi & wi & l & r & wl & wr & Hxi & Hwi & Hwl & Hwr & Hl & Hr & _ & _ & Hp & _).
  cbn in Hxi, Hwi. inversion Hxi; inversion Hwi; subst xi wi.
  vm_compute in Hl. vm_compute in Hr. inversion Hl; inversion Hr; subst l r.
  cbn in Hwl, Hwr. inversion Hwl; inversion Hwr; subst wl wr.
  repeat split; assumption || reflexivity.
Defined.

End PeakInstances.

(** * Further properties of the code *)

(** ** Frames: shape, check digits, corruption *)

Section FrameProperties.

Import ProtocolHandler.

Variable float_str : float -> string.
Variable float_parse : string -> option float.

Lemma checksum_range (payload : string) : (0 <= checksum_of payload < 256)%Z.
Proof. unfold checksum_of. apply Z.mod_pos_bound. lia. Qed.

(** The two digits of [{:02X}] are read back by [int(.., 16)]. *)
Lemma int16_format_02X (n : Z) :
  (0 <= n < 256)%Z -> Py.int 16 (Py.format_02X n) = Return n.
Proof.
  intros Hn.
  assert (Hall : forallb (fun k => match Py.int 16 (Py.format_02X (Z.of_nat k)) with
                                   | Return m => (m =? Z.of_nat k)%Z
                                   | Raise _ => false
                                   end) (seq 0 256) = true) by (vm_compute; reflexivity).
  rewrite forallb_forall in Hall. specialize (Hall (Z.to_nat n)).
  rewrite Z2Nat.id in Hall by lia.
  destruct (Py.int 16 (Py.format_02X n)) as [m|e].
  - f_equal. apply Z.eqb_eq, Hall, in_seq. lia.
  - exfalso. assert (false = true); [|discriminate]. apply Hall, in_seq. lia.
Qed.

(** The first digit alone is read back as the high half of the value. *)
Lemma int16_high_digit (n : Z) :
  (0 <= n < 256)%Z ->
  Py.int 16 (String (Py.hex_char (n / 16)) EmptyString) = Return (n / 16)%Z /\
  Py.contains "*" (String (Py.hex_char (n / 16)) EmptyString) = false.
Proof.
  intros Hn.
  assert (Hall : forallb (fun k =>
                   match Py.int 16 (String (Py.hex_char (Z.of_nat k)) EmptyString) with
                   | Return m => (m =? Z.of_nat k)%Z
                   | Raise _ => false
                   end
                   && negb (Py.contains "*" (String (Py.hex_char (Z.of_nat k)) EmptyString)))
                 (seq 0 16) = true) by (vm_compute; reflexivity).
  rewrite forallb_forall in Hall. specialize (Hall (Z.to_nat (n / 16))).
  assert (Hh : (0 <= n / 16 < 16)%Z)
    by (split; [apply Z.div_pos; lia | apply Z.div_lt_upper_bound; lia]).
  rewrite Z2Nat.id in Hall by lia.
  assert (Hin : In (Z.to_nat (n / 16)) (seq 0 16)) by (apply in_seq; lia).
  apply Hall, andb_true_iff in Hin as [H1 H2].
  destruct (Py.int 16 _) as [m|e]; [|discriminate].
  apply Z.eqb_eq in H1. subst m. split; [reflexivity|].
  now apply negb_true_iff in H2.
Qed.

Lemma sum_ord_app (a b : string) : Py.sum_ord (a ++ b) = (Py.sum_ord a + Py.sum_ord b)%Z.
Proof.
  induction a as [|c a IH]; [reflexivity|].
  change (String c a ++ b) with (String c (a ++ b)). cbn [Py.sum_ord]. rewrite IH. lia.
Qed.

Lemma ord_range (c : ascii) : (0 <= Py.ord c < 256)%Z.
Proof.
  unfold Py.ord. pose proof (N_ascii_bounded c). lia.
Qed.

Lemma ord_inj (c1 c2 : ascii) : Py.ord c1 = Py.ord c2 -> c1 = c2.
Proof.
  unfold Py.ord. intros H. apply N2Z.inj in H.
  rewrite <- (ascii_N_embedding c1), <- (ascii_N_embedding c2). now rewrite H.
Qed.

(** Changing one character of a payload changes its checksum. *)
Lemma checksum_single_char (a b : string) (c1 c2 : ascii) :
  c1 <> c2 -> checksum_of (a ++ String c1 b) <> checksum_of (a ++ String c2 b).
Proof.
  intros Hne Heq. apply Hne, ord_inj. unfold checksum_of in Heq.
  rewrite !sum_ord_app in Heq. cbn [Py.sum_ord] in Heq.
  pose proof (ord_range c1). pose proof (ord_range c2).
  set (x := (Py.sum_ord a + Py.sum_ord b)%Z) in *.
  replace (Py.sum_ord a + (Py.ord c1 + Py.sum_ord b))%Z with (x + Py.ord c1)%Z in Heq by lia.
  replace (Py.sum_ord a + (Py.ord c2 + Py.sum_ord b))%Z with (x + Py.ord c2)%Z in Heq by lia.
  assert (Hd : ((Py.ord c1 - Py.ord c2) mod 256 = 0)%Z).
  { replace (Py.ord c1 - Py.ord c2)%Z with ((x + Py.ord c1) - (x + Py.ord c2))%Z by lia.
    rewrite Zminus_mod, Heq, Z.sub_diag. reflexivity. }
  apply Z.mod_divide in Hd; [|lia]. destruct Hd as [k Hk]. lia.
Qed.

(** X1. Every frame [build_command] returns is the dollar sign, the
    formatted payload, a star, two check digits and CR LF, six characters
    more than the payload; the check digits, read back with [int(.., 16)],
    are the sum of the payload's character codes modulo 256. *)
Theorem build_command_frame (cmd_type : string) (kwargs : gmap string pyval)
        (frame : string) :
  build_command float_str cmd_type kwargs = Return frame ->
  exists tpl raw_cmd,
    COMMAND_SET !! cmd_type = Some tpl /\
    format float_str tpl kwargs = Return raw_cmd /\
    frame = frame_of raw_cmd /\
    Py.int 16 (Py.format_02X (checksum_of raw_cmd)) = Return (Py.sum_ord raw_cmd mod 256)%Z /\
    String.length frame = (String.length raw_cmd + 6)%nat /\
    Py.startswith "$" frame = true.
Proof.
  unfold build_command. intros Hbuild.
  destruct (COMMAND_SET !! cmd_type) as [tpl|]; [|discriminate].
  destruct (format float_str tpl kwargs) as [raw_cmd|e] eqn:Hfmt; [|discriminate].
  cbn in Hbuild. inversion Hbuild as [Hframe]. clear Hbuild. subst frame.
  exists tpl, raw_cmd. split; [reflexivity|]. split; [exact Hfmt|].
  split; [reflexivity|]. split; [apply int16_format_02X, checksum_range|].
  split; [|apply startswith_head].
  change ("$" ++ raw_cmd ++ "*" ++ Py.format_02X (checksum_of raw_cmd) ++ CRLF)
    with (String "$" (raw_cmd ++ String "*" (Py.format_02X (checksum_of raw_cmd) ++ CRLF))).
  cbn [String.length]. rewrite string_length_app. cbn [String.length].
  rewrite string_length_app. change (String.length (Py.format_02X _)) with 2%nat.
  change (String.length CRLF) with 2%nat. lia.
Qed.


(** X3. A line in the wire format without its terminator, that is the
    dollar sign, a payload without a star, a star and two check digits, is
    never accepted, whatever the digits: the slice [[1:-3]] removes the star
    with them, and the response is the parsing error of the failed
    unpacking. The threads and the communicators strip the terminator
    before they parse. *)
Theorem stripped_frame_never_accepted (payload : string) (d1 d2 : ascii) :
  Py.contains "*" payload = false ->
  parse_response float_parse
    ("$" ++ payload ++ "*" ++ String d1 (String d2 EmptyString))
  = Invalid (Parsing_error ValueError).
Proof.
  intros Hp.
  change ("$" ++ payload ++ "*" ++ String d1 (String d2 EmptyString))
    with (String "$" (payload ++ String "*" (String d1 (String d2 EmptyString)))).
  unfold parse_response. rewrite startswith_head.
  assert (Hstar : Py.contains "*"
            (String "$" (payload ++ String "*" (String d1 (String d2 EmptyString)))) = true).
  { cbn [Py.contains]. rewrite contains_app. cbn [Py.contains].
    replace (Py.chr_eqb "*" "*") with true by reflexivity.
    now rewrite !orb_true_r. }
  rewrite Hstar. cbn [negb orb]. unfold parse_response_body.
  rewrite slice_frame by reflexivity. now rewrite split_absent.
Qed.

(** X4. A frame as [build_command] makes it, terminator included, with a
    payload that holds no star, is accepted by [parse_response] exactly when
    the checksum of the payload is zero: of the two check digits only the
    first is compared. Otherwise the response is a checksum mismatch. *)
Theorem built_frame_accepted_iff_checksum_zero (payload : string) :
  Py.contains "*" payload = false ->
  parse_response float_parse (frame_of payload)
  = if (checksum_of payload =? 0)%Z
    then Valid (first_token payload) (_parse_payload float_parse payload)
    else Invalid Checksum_mismatch.
Proof.
  intros Hp. unfold frame_of, Py.format_02X.
  set (c := checksum_of payload). pose proof (checksum_range payload) as Hc. fold c in Hc.
  destruct (int16_high_digit c Hc) as [Hint Hstar].
  change ("$" ++ payload ++ "*"
          ++ String (Py.hex_char (c / 16)) (String (Py.hex_char (c mod 16)) EmptyString)
          ++ CRLF)
    with (String "$" (payload ++ String "*"
            (String (Py.hex_char (c / 16)) EmptyString
             ++ String (Py.hex_char (c mod 16)) CRLF))).
  rewrite (parse_response_frame float_parse payload
             (String (Py.hex_char (c / 16)) EmptyString)
             (String (Py.hex_char (c mod 16)) CRLF) eq_refl Hp Hstar), Hint.
  fold c.
  destruct (c =? 0)%Z eqn:Hz.
  - apply Z.eqb_eq in Hz. rewrite Hz. reflexivity.
  - apply Z.eqb_neq in Hz.
    replace (c =? c / 16)%Z with false; [reflexivity|].
    symmetry. apply Z.eqb_neq. intros Heq.
    pose proof (Z.div_mod c 16). pose proof (Z.mod_pos_bound c 16). lia.
Qed.

End FrameProperties.

(** ** The catalogue and the decoder *)

Section CatalogueProperties.

Import ProtocolHandler.

Variable float_str : float -> string.
Variable float_parse : string -> option float.

(** Text without braces is left as it is by [format]. *)
Lemma format_no_brace (tpl : string) (kwargs : gmap string pyval) :
  no_brace tpl -> format float_str tpl kwargs = Return tpl.
Proof.
  unfold format. intros [Hopen Hclose].
  induction tpl as [|c tpl IH]; [reflexivity|].
  cbn in Hopen, Hclose.
  apply orb_false_iff in Hopen as [Ho Hopen], Hclose as [Hc Hclose].
  cbn [format_from]. rewrite Ho, Hc, (IH Hopen Hclose). reflexivity.
Qed.

(** Every entry of [COMMAND_SET] is one of the four with a field or one of
    the eight without. *)
Lemma catalogue_cases (cmd_type tpl : string) :
  COMMAND_SET !! cmd_type = Some tpl ->
  (exists prefix key, (cmd_type, prefix, key) ∈ parametrised_commands) \/
  ((cmd_type, tpl) ∈ parameterless_commands /\ no_brace tpl).
Proof.
  intros Hlook. unfold COMMAND_SET in Hlook.
  apply elem_of_list_to_map_2 in Hlook.
  unfold parametrised_commands, parameterless_commands.
  repeat (apply elem_of_cons in Hlook as [Heq|Hlook];
          [inversion Heq; subst; clear Heq;
           first [ left; eexists _, _; repeat constructor; fail
                 | right; split; [repeat constructor | split; reflexivity] ] |]).
  now apply elem_of_nil in Hlook.
Qed.


(** X6. The eight commands without a field always build, and to the same
    frame: keyword arguments they do not name are ignored. *)
Theorem parameterless_command_frame (cmd_type payload : string)
        (kwargs : gmap string pyval) :
  (cmd_type, payload) ∈ parameterless_commands ->
  build_command float_str cmd_type kwargs = Return (frame_of payload).
Proof.
  intros Hin. unfold parameterless_commands in Hin.
  repeat (apply elem_of_cons in Hin as [Heq|Hin];
          [inversion Heq; subst; clear Heq; unfold build_command;
           match goal with |- context [COMMAND_SET !! ?c] =>
             let v := eval vm_compute in (COMMAND_SET !! c) in
             replace (COMMAND_SET !! c) with v by (vm_compute; reflexivity)
           end;
           rewrite format_no_brace by (split; reflexivity); reflexivity |]).
  now apply elem_of_nil in Hin.
Qed.

Lemma int_raises_value_error (base : Z) (s : string) (e : exn) :
  Py.int base s = Raise e -> e = ValueError.
Proof.
  unfold Py.int.
  destruct (Py.strip_sign _) as [neg s2].
  destruct (Py.strip_radix_prefix base s2) as [|c s3] eqn:Hs3.
  - destruct (Py.scan_digits _ _ _ _ _) as [[[n [|k]] rest]|];
      try destruct (Py.all_chars _ _); intros H; now inversion H.
  - destruct (Ascii.eqb_spec c "_") as [->|Hc]; [intros H; now inversion H|].
    assert (Hgo : forall r : result Z,
               match String c s3 with
               | String "_" _ => Raise ValueError
               | _ => r
               end = r).
    { intros r. destruct c as [[] [] [] [] [] [] [] []]; try reflexivity. congruence. }
    rewrite Hgo.
    destruct (Py.scan_digits _ _ _ _ _) as [[[n [|k]] rest]|];
      try destruct (Py.all_chars _ _); intros H; now inversion H.
Qed.

Lemma mapM_py_float_cons (f : string) (fields : list string) :
  mapM (py_float float_parse) (f :: fields)
  = match float_parse f with
    | None => Raise ValueError
    | Some v =>
        match mapM (py_float float_parse) fields with
        | Return vs => Return (v :: vs)
        | Raise e => Raise e
        end
    end.
Proof.
  change (mapM (py_float float_parse) (f :: fields))
    with (py_float float_parse f ≫= fun y =>
          mapM (py_float float_parse) fields ≫= fun k => mret (y :: k)).
  unfold py_float. destruct (float_parse f); [|reflexivity].
  cbn [mbind result_bind].
  now destruct (mapM _ fields).
Qed.

Lemma mapM_py_float_Forall2 (fields : list string) (values : list float) :
  mapM (py_float float_parse) fields = Return values <->
  Forall2 (fun f v => float_parse f = Some v) fields values.
Proof.
  revert values. induction fields as [|f fields IH]; intros values.
  - split.
    + intros H. inversion H. constructor.
    + intros H. inversion H. reflexivity.
  - rewrite mapM_py_float_cons.
    destruct (float_parse f) as [v|] eqn:Hf.
    + destruct (mapM (py_float float_parse) fields) as [vs|e] eqn:Hm.
      * split.
        -- intros H. inversion H; subst. constructor; [exact Hf | now apply IH].
        -- intros H. inversion H as [|? v' ? vs' Hv Hrest]; subst.
           rewrite Hf in Hv. inversion Hv; subst.
           apply IH in Hrest. now inversion Hrest.
      * split; [discriminate|].
        intros H. inversion H as [|? v' ? vs' Hv Hrest]; subst.
        apply IH in Hrest. discriminate.
    + split; [discriminate|].
      intros H. inversion H as [|? v' ? vs' Hv Hrest]; subst. congruence.
Qed.

Lemma mapM_py_float_raises (fields : list string) (e : exn) :
  mapM (py_float float_parse) fields = Raise e ->
  e = ValueError /\ Exists (fun f => float_parse f = None) fields.
Proof.
  induction fields as [|f fields IH]; [discriminate|].
  rewrite mapM_py_float_cons.
  destruct (float_parse f) as [v|] eqn:Hf.
  - destruct (mapM (py_float float_parse) fields) as [vs|e'] eqn:Hm; [discriminate|].
    intros H. inversion H; subst. destruct (IH eq_refl) as [_ Hex].
    split; [now destruct (IH eq_refl) | now right].
  - intros H. inversion H. split; [reflexivity | now left].
Qed.

(** X7. The error dictionary comes only from the six tags whose data is
    read as a number: [WL], [INTTIME], [AVG], [SPT], [INT] and [STAT], and
    the exception behind it is always [ValueError]. A [VER] or [CAL]
    payload and a payload with an unknown tag never decode to an error. *)
Theorem parse_payload_error_only_when_decoding (payload : string) (e : exn) :
  _parse_payload float_parse payload = DError e ->
  e = ValueError /\
  exists cmd rest,
    Py.split " " (Some 1%nat) payload = cmd :: rest /\ cmd ∈ decoding_tags.
Proof.
  unfold _parse_payload, parse_payload_body.
  destruct (Py.split " " (Some 1%nat) payload) as [|cmd rest] eqn:Hs;
    [now apply split_nonempty in Hs|].
  cbn [mbind result_bind].
  set (data := match rest with d :: _ => d | [] => EmptyString end).
  assert (Hin : forall tag, tag ∈ decoding_tags -> cmd = tag ->
                exists cmd' rest', cmd :: rest = cmd' :: rest' /\ cmd' ∈ decoding_tags).
  { intros tag Htag ->. now exists tag, rest. }
  destruct (bool_decide (cmd ∈ ["WL"; "INTTIME"; "AVG"])) eqn:Hnum.
  - apply bool_decide_eq_true_1 in Hnum.
    assert (Hdec : cmd ∈ decoding_tags).
    { unfold decoding_tags.
      repeat (apply elem_of_cons in Hnum as [->|Hnum]; [repeat constructor|]).
      now apply elem_of_nil in Hnum. }
    destruct (Py.contains "." data).
    + unfold py_float. destruct (float_parse data); cbn; intros H; inversion H.
      split; [reflexivity | now exists cmd, rest].
    + destruct (Py.int 10 data) as [n|e'] eqn:Hi; cbn; intros H; inversion H; subst.
      split; [now apply int_raises_value_error in Hi | now exists cmd, rest].
  - destruct (String.eqb_spec cmd "SPT") as [->|_].
    { destruct (mapM (py_float float_parse) (Py.split "," None data)) as [vs|e'] eqn:Hm;
        cbn; intros H; inversion H; subst.
      split; [now apply mapM_py_float_raises in Hm|].
      apply (Hin "SPT"); [unfold decoding_tags; repeat constructor | reflexivity]. }
    destruct (String.eqb_spec cmd "INT") as [->|_].
    { unfold py_float. destruct (float_parse data); cbn; intros H; inversion H.
      split; [reflexivity|].
      apply (Hin "INT"); [unfold decoding_tags; repeat constructor | reflexivity]. }
    destruct (String.eqb_spec cmd "STAT") as [->|_].
    { destruct (Py.int 16 data) as [n|e'] eqn:Hi; cbn; intros H; inversion H; subst.
      split; [now apply int_raises_value_error in Hi|].
      apply (Hin "STAT"); [unfold decoding_tags; repeat constructor | reflexivity]. }
    destruct (String.eqb cmd "VER"); [discriminate|].
    destruct (String.eqb cmd "CAL"); discriminate.
Qed.

(** X8. An [SPT] payload decodes all or nothing: to the spectrum with one
    value per comma-separated field, in the order of the fields, when every
    field can be read as a float, and to the error dictionary, with no
    value at all, as soon as one field cannot. *)
Theorem spectrum_payload_all_or_nothing (data : string) :
  let fields := Py.split "," None data in
  (forall values,
      _parse_payload float_parse ("SPT " ++ data) = DSpectrum values <->
      Forall2 (fun f v => float_parse f = Some v) fields values) /\
  (_parse_payload float_parse ("SPT " ++ data) = DError ValueError <->
   Exists (fun f => float_parse f = None) fields).
Proof.
  intros fields.
  assert (Heq : _parse_payload float_parse ("SPT " ++ data)
                = match mapM (py_float float_parse) fields with
                  | Return values => DSpectrum values
                  | Raise e => DError e
                  end).
  { change ("SPT " ++ data) with ("SPT" ++ String " " data).
    unfold _parse_payload, parse_payload_body.
    rewrite split1_at_first by reflexivity. cbn [mbind result_bind].
    rewrite bool_decide_eq_false_2
      by (intros H; repeat (apply elem_of_cons in H as [H|H]; [discriminate|]);
          now apply elem_of_nil in H).
    replace (String.eqb "SPT" "SPT") with true by reflexivity.
    fold fields. now destruct (mapM (py_float float_parse) fields). }
  rewrite Heq. split.
  - intros values. rewrite <- mapM_py_float_Forall2.
    destruct (mapM (py_float float_parse) fields) as [vs|e]; split; intros H;
      inversion H; subst; reflexivity.
  - destruct (mapM (py_float float_parse) fields) as [vs|e] eqn:Hm; split; intros H.
    + discriminate.
    + exfalso. apply mapM_py_float_Forall2 in Hm.
      apply Exists_exists in H as (f & Hf & Hnone).
      apply list_elem_of_lookup_1 in Hf as [k Hk].
      destruct (Forall2_lookup_l _ _ _ _ _ Hm Hk) as (v & _ & Hv). congruence.
    + now apply mapM_py_float_raises in Hm.
    + apply mapM_py_float_raises in Hm as [-> _]. reflexivity.
Qed.

End CatalogueProperties.

(** *** Closed instances for frames and the catalogue *)

Section FrameInstances.

Import ProtocolHandler FloatText.

(** X1, witness: the frame of [set_wavelength] with the integer 500. *)
Lemma build_command_frame_witness :
  let frame := "$WL 500*58" ++ CRLF in
  build_command str_integral "set_wavelength" {[ "value" := VInt 500 ]} = Return frame /\
  exists tpl raw_cmd,
    COMMAND_SET !! "set_wavelength" = Some tpl /\
    format str_integral tpl {[ "value" := VInt 500 ]} = Return raw_cmd /\
    frame = frame_of raw_cmd /\
    Py.int 16 (Py.format_02X (checksum_of raw_cmd)) = Return (Py.sum_ord raw_cmd mod 256)%Z /\
    String.length frame = (String.length raw_cmd + 6)%nat /\
    Py.startswith "$" frame = true.
Proof.
  intros frame.
  assert (Hbuild : build_command str_integral "set_wavelength" {[ "value" := VInt 500 ]}
                   = Return frame) by (vm_compute; reflexivity).
  split; [exact Hbuild|].
  exact (build_command_frame str_integral "set_wavelength" {[ "value" := VInt 500 ]}
                             frame Hbuild).
Defined.


(** X3, witness: [$WL 500*58], the correct frame for the payload, without
    its terminator. *)
Lemma stripped_frame_never_accepted_witness :
  Py.contains "*" "WL 500" = false /\
  Py.format_02X (checksum_of "WL 500") = "58" /\
  parse_response parse_decimal ("$" ++ "WL 500" ++ "*" ++ "58")
  = Invalid (Parsing_error ValueError).
Proof.
  split; [reflexivity|]. split; [reflexivity|].
  exact (stripped_frame_never_accepted parse_decimal "WL 500" "5" "8" eq_refl).
Defined.

(** X4, witness: the payload [INTTIME 1005] has checksum 0 and its frame is
    accepted. *)
Lemma built_frame_accepted_iff_checksum_zero_witness :
  Py.contains "*" "INTTIME 1005" = false /\
  checksum_of "INTTIME 1005" = 0%Z /\
  parse_response parse_decimal (frame_of "INTTIME 1005")
  = Valid "INTTIME" (DValue (VInt 1005)).
Proof.
  split; [reflexivity|]. split; [reflexivity|].
  etransitivity;
    [exact (built_frame_accepted_iff_checksum_zero parse_decimal "INTTIME 1005" eq_refl)|].
  vm_compute. reflexivity.
Defined.


(** X6, witness: [get_status] called with a keyword it does not name. *)
Lemma parameterless_command_frame_witness :
  ("get_status", "STAT?") ∈ parameterless_commands /\
  build_command str_integral "get_status" {[ "value" := VInt 7 ]}
  = Return ("$STAT?*7B" ++ CRLF).
Proof.
  assert (Hin : ("get_status", "STAT?") ∈ parameterless_commands)
    by (unfold parameterless_commands; repeat constructor).
  split; [exact Hin|].
  etransitivity;
    [exact (parameterless_command_frame str_integral "get_status" "STAT?"
              {[ "value" := VInt 7 ]} Hin)|].
  vm_compute. reflexivity.
Defined.

(** X7, witness: a [WL] payload whose number cannot be read. *)
Lemma parse_payload_error_only_when_decoding_witness :
  _parse_payload parse_decimal "WL =" = DError ValueError /\
  exists cmd rest,
    Py.split " " (Some 1%nat) "WL =" = cmd :: rest /\ cmd ∈ decoding_tags.
Proof.
  assert (Herr : _parse_payload parse_decimal "WL =" = DError ValueError)
    by (vm_compute; reflexivity).
  split; [exact Herr|].
  exact (proj2 (parse_payload_error_only_when_decoding parse_decimal "WL =" ValueError Herr)).
Defined.

End FrameInstances.

(** ** The command queue and the receive paths *)

Section QueueProperties.

Import ProtocolHandler AsyncCommunication AsyncCommunicationLoops.

Variable float_str : float -> string.
Variable float_parse : string -> option float.

(** Commands that build are queued one by one; the sequence goes on with
    what follows them. *)
Lemma send_commands_app (commands rest : list (string * gmap string pyval))
      (frames : list string) :
  builds float_str commands frames ->
  forall thread,
    send_commands float_str (mkCommunicator (Some thread) true) (commands ++ rest)%list
    = send_commands float_str
        (mkCommunicator
           (Some (mkThread (_running thread) (_command_queue thread ++ frames)%list)) true)
        rest.
Proof.
  induction 1 as [|[cmd_type kwargs] frame commands frames Hbuild _ IH]; intros thread.
  - cbn [app]. rewrite app_nil_r. now destruct thread.
  - cbn [app send_commands]. cbn in Hbuild.
    assert (Hsend : send_command float_str (mkCommunicator (Some thread) true) cmd_type kwargs
                    = mkOutcome
                        (mkCommunicator
                           (Some (mkThread (_running thread)
                                           (_command_queue thread ++ [frame])%list)) true)
                        [] (Return tt)).
    { unfold send_command, add_command. cbn [_comm_thread _connected].
      now rewrite Hbuild. }
    rewrite Hsend. cbn [returned after emitted app].
    rewrite IH. cbn [_running _command_queue]. rewrite <- app_assoc. cbn [app].
    now destruct (send_commands _ _ rest).
Qed.

(** X9. On a connected manager, commands that all build are queued in the
    order of the calls, behind what the queue held: the queue afterwards is
    the queue before followed by their frames; no signal is emitted and the
    thread's flag is untouched. *)
Theorem send_commands_queue_in_order (thread : CommunicationThread)
        (commands : list (string * gmap string pyval)) (frames : list string) :
  builds float_str commands frames ->
  send_commands float_str (mkCommunicator (Some thread) true) commands
  = mkOutcome
      (mkCommunicator
         (Some (mkThread (_running thread) (_command_queue thread ++ frames)%list)) true)
      [] (Return tt).
Proof.
  intros Hbuilds.
  rewrite <- (app_nil_r commands), (send_commands_app _ [] _ Hbuilds). reflexivity.
Qed.

(** X10. The first command that does not build ends the sequence with its
    exception: the frames of the commands before it are in the queue, in
    order, and nothing of what follows it is queued. *)
Theorem send_commands_stop_at_first_failure (thread : CommunicationThread)
        (commands rest : list (string * gmap string pyval)) (frames : list string)
        (cmd_type : string) (kwargs : gmap string pyval) (e : exn) :
  builds float_str commands frames ->
  build_command float_str cmd_type kwargs = Raise e ->
  send_commands float_str (mkCommunicator (Some thread) true)
                (commands ++ (cmd_type, kwargs) :: rest)%list
  = mkOutcome
      (mkCommunicator
         (Some (mkThread (_running thread) (_command_queue thread ++ frames)%list)) true)
      [] (Raise e).
Proof.
  intros Hbuilds Hraise.
  rewrite (send_commands_app _ _ _ Hbuilds). cbn [send_commands].
  unfold send_command, add_command. cbn [_comm_thread _connected].
  rewrite Hraise. reflexivity.
Qed.

(** X11. [_handle_error] reports the error, then the disconnection, and
    leaves a manager on which every later [send_command] is silent:
    nothing is queued, emitted or raised, not even for a command that
    does not build. *)
Theorem handle_error_silences_sends (self : AsyncCommunicator) (error_msg : string)
        (commands : list (string * gmap string pyval)) :
  let o := _handle_error self error_msg in
  emitted o = [error_occurred error_msg; connection_changed false] /\
  send_commands float_str (after o) commands
  = mkOutcome (mkCommunicator None false) [] (Return tt).
Proof.
  intros o. split; [reflexivity|].
  subst o. cbn [_handle_error disconnect after].
  induction commands as [|[cmd_type kwargs] rest IH]; [reflexivity|].
  cbn [send_commands].
  change (send_command float_str (mkCommunicator None false) cmd_type kwargs)
    with (mkOutcome (mkCommunicator None false) [] (Return tt)).
  cbn [returned after emitted]. rewrite IH. reflexivity.
Qed.

(** X12. [connect] leaves a connected manager whose queue is empty,
    whatever the manager was before: frames still queued at that moment are
    gone, and the commands sent afterwards are exactly what the new queue
    holds. A manager that was connected announces the disconnection first. *)
Theorem connect_starts_with_empty_queue (self : AsyncCommunicator) (interface_type : string)
        (commands : list (string * gmap string pyval)) (frames : list string) :
  builds float_str commands frames ->
  let o := connect self interface_type in
  emitted o = ((if _connected self then [connection_changed false] else [])
               ++ [connection_changed true])%list /\
  send_commands float_str (after o) commands
  = mkOutcome (mkCommunicator (Some (mkThread false frames)) true) [] (Return tt).
Proof.
  intros Hbuilds o. split.
  - subst o. unfold connect. now destruct (_connected self).
  - subst o. cbn [connect after].
    rewrite <- (app_nil_r commands), (send_commands_app _ [] _ Hbuilds). reflexivity.
Qed.

Lemma do_step_conserves (queue : list string) (s : step) :
  (written (do_step float_parse queue s) ++ queue_after (do_step float_parse queue s)
   = queue ++ added [s])%list /\
  (length (written (do_step float_parse queue s)) <= turns [s])%nat.
Proof.
  destruct s as [command|reply waiting|reply data]; cbn.
  - split; [reflexivity | lia].
  - destruct queue; cbn; rewrite ?app_nil_r; split; (reflexivity || lia).
  - destruct queue; cbn; rewrite ?app_nil_r; split; (reflexivity || lia).
Qed.

Lemma added_cons (s : step) (steps : list step) :
  added (s :: steps) = (added [s] ++ added steps)%list.
Proof. unfold added. cbn [flat_map]. now rewrite app_nil_r. Qed.

Lemma turns_cons (s : step) (steps : list step) :
  turns (s :: steps) = (turns [s] + turns steps)%nat.
Proof. unfold turns. cbn [List.filter]. destruct s; reflexivity. Qed.

(** X13. The queue between [add_command] and the loops is first in, first
    out, and nothing is lost or doubled: after any interleaving of appends
    and loop turns, the frames written to the device, followed by the
    frames still queued, are the frames the queue held at the start
    followed by the frames appended, in that order. A turn writes at most
    one frame. *)
Theorem queue_first_in_first_out (queue : list string) (steps : list step) :
  let t := run_steps float_parse queue steps in
  (written t ++ queue_after t = queue ++ added steps)%list /\
  (length (written t) <= turns steps)%nat.
Proof.
  cbn zeta. revert queue. induction steps as [|s steps IH]; intros queue.
  - cbn. rewrite app_nil_r. split; [reflexivity | lia].
  - cbn [run_steps written queue_after].
    destruct (do_step_conserves queue s) as [Hq Hn].
    destruct (IH (queue_after (do_step float_parse queue s))) as [Hq' Hn'].
    rewrite added_cons, turns_cons, length_app. split; [|lia].
    rewrite <- app_assoc, Hq', app_assoc, Hq, <- app_assoc. reflexivity.
Qed.

Lemma all_chars_app (p : ascii -> bool) (a b : string) :
  Py.all_chars p (a ++ b) = Py.all_chars p a && Py.all_chars p b.
Proof.
  induction a as [|c a IH]; [reflexivity|].
  change (String c a ++ b) with (String c (a ++ b)). cbn [Py.all_chars].
  now rewrite IH, andb_assoc.
Qed.

Lemma rstrip_all (p : ascii -> bool) (s : string) :
  Py.all_chars p s = true -> Py.rstrip_with p s = EmptyString.
Proof. intros H. destruct s; [reflexivity|]. cbn [Py.rstrip_with]. now rewrite H. Qed.

Lemma lstrip_all (p : ascii -> bool) (s : string) :
  Py.all_chars p s = true -> Py.lstrip_with p s = EmptyString.
Proof.
  induction s as [|c s IH]; [reflexivity|]. cbn [Py.all_chars Py.lstrip_with].
  intros H. apply andb_true_iff in H as [Hc Hs]. rewrite Hc. now apply IH.
Qed.

(** Text that ends in a character that is not white space keeps it, and
    loses the white space behind it. *)
Lemma rstrip_keep (p : ascii -> bool) (body t : string) (d : ascii) :
  p d = false -> Py.all_chars p t = true ->
  Py.rstrip_with p (body ++ String d t) = body ++ String d EmptyString.
Proof.
  intros Hd Ht. induction body as [|c body IH].
  - change (EmptyString ++ String d t) with (String d t).
    cbn [Py.rstrip_with Py.all_chars]. rewrite Hd. cbn [andb].
    now rewrite (rstrip_all _ _ Ht).
  - change (String c body ++ String d t) with (String c (body ++ String d t)).
    cbn [Py.rstrip_with Py.all_chars]. rewrite all_chars_app. cbn [Py.all_chars].
    rewrite Hd. cbn [andb]. rewrite !andb_false_r. now rewrite IH.
Qed.

(** A line that is white space only, or empty, strips to the empty text. *)
Lemma strip_blank (line : string) :
  Py.all_chars Py.isspace line = true -> Py.strip line = EmptyString.
Proof. intros H. unfold Py.strip. now rewrite (lstrip_all _ _ H). Qed.

(** A line in the wire format loses its terminator and nothing else. *)
Lemma strip_wire_format (payload : string) (d1 d2 : ascii) :
  Py.isspace d2 = false ->
  Py.strip ("$" ++ payload ++ "*" ++ String d1 (String d2 CRLF))
  = String "$" (payload ++ String "*" (String d1 (String d2 EmptyString))).
Proof.
  intros Hd2. unfold Py.strip.
  change ("$" ++ payload ++ "*" ++ String d1 (String d2 CRLF))
    with (String "$" (payload ++ String "*" (String d1 (String d2 CRLF)))).
  cbn [Py.lstrip_with]. replace (Py.isspace "$") with false by reflexivity.
  replace (String "$" (payload ++ String "*" (String d1 (String d2 CRLF))))
    with (String "$" (payload ++ String "*" (String d1 EmptyString)) ++ String d2 CRLF).
  - rewrite (rstrip_keep Py.isspace _ CRLF d2 Hd2 eq_refl).
    change (String "$" (payload ++ String "*" (String d1 EmptyString)) ++ String d2 EmptyString)
      with (String "$" ((payload ++ String "*" (String d1 EmptyString))
                        ++ String d2 EmptyString)).
    now rewrite string_app_assoc.
  - change (String "$" (payload ++ String "*" (String d1 EmptyString)) ++ String d2 CRLF)
      with (String "$" ((payload ++ String "*" (String d1 EmptyString)) ++ String d2 CRLF)).
    now rewrite string_app_assoc.
Qed.

(** The parse of a line in the wire format, terminator stripped. *)
Lemma parse_stripped (payload : string) (d1 d2 : ascii) :
  Py.contains "*" payload = false ->
  parse_response float_parse
    (String "$" (payload ++ String "*" (String d1 (String d2 EmptyString))))
  = Invalid (Parsing_error ValueError).
Proof.
  intros Hp. unfold parse_response. rewrite startswith_head.
  assert (Hstar : Py.contains "*"
            (String "$" (payload ++ String "*" (String d1 (String d2 EmptyString)))) = true).
  { cbn [Py.contains]. rewrite contains_app. cbn [Py.contains].
    replace (Py.chr_eqb "*" "*") with true by reflexivity.
    now rewrite !orb_true_r. }
  rewrite Hstar. cbn [negb orb]. unfold parse_response_body.
  rewrite slice_frame by reflexivity. now rewrite split_absent.
Qed.

(** X14. No reply in the host's own wire format is ever accepted, on any
    of the three receive paths. A line made of the dollar sign, a payload
    without a star, a star, two check digits and CR LF, read after a write
    by the serial loop, the TCP loop or the synchronous communicator, is
    stripped of its terminator and then reported through [data_received]
    as invalid, with the parsing error of the failed unpacking, whatever
    the check digits are. *)
Theorem wire_format_reply_rejected (payload : string) (d1 d2 : ascii)
        (command : string) (queue : list string) (cmd_type : string)
        (kwargs : gmap string pyval) :
  Py.contains "*" payload = false ->
  Py.isspace d2 = false ->
  build_command float_str cmd_type kwargs = Return command ->
  let line := "$" ++ payload ++ "*" ++ String d1 (String d2 CRLF) in
  SerialThread_turn float_parse (command :: queue) line None
  = mkTurn queue [command] [Invalid (Parsing_error ValueError)] /\
  TcpThread_turn float_parse (command :: queue) (Some line) None
  = mkTurn queue [command] [Invalid (Parsing_error ValueError)] /\
  Communication.send_command float_str float_parse
    (Communication.mkCommunicator true true) cmd_type kwargs line
  = Communication.mkOutcome (Communication.mkCommunicator true true) [command]
      [Communication.data_received (Invalid (Parsing_error ValueError))] (Return tt).
Proof.
  intros Hp Hd2 Hbuild line.
  assert (Hrecv : receive float_parse line = [Invalid (Parsing_error ValueError)]).
  { unfold receive, line. rewrite (strip_wire_format payload d1 d2 Hd2).
    now rewrite parse_stripped. }
  split; [|split].
  - unfold SerialThread_turn. cbn [queue_after written data_received].
    now rewrite Hrecv.
  - unfold TcpThread_turn. cbn [queue_after written data_received].
    now rewrite Hrecv.
  - unfold Communication.send_command, Communication._raw_send. rewrite Hbuild.
    cbn [Communication._port]. unfold line.
    rewrite (strip_wire_format payload d1 d2 Hd2). now rewrite parse_stripped.
Qed.

(** X15. A read that returns nothing (a timeout of the serial port, a
    closed socket) or white space only is treated differently by the two
    kinds of communicator: the thread loops emit nothing for it, the
    synchronous communicator parses the empty text and reports an invalid
    frame format. In each case the frame has been written. *)
Theorem blank_reply_paths (reply command : string) (queue : list string)
        (cmd_type : string) (kwargs : gmap string pyval) :
  Py.all_chars Py.isspace reply = true ->
  build_command float_str cmd_type kwargs = Return command ->
  SerialThread_turn float_parse (command :: queue) reply None = mkTurn queue [command] [] /\
  TcpThread_turn float_parse (command :: queue) (Some reply) None
  = mkTurn queue [command] [] /\
  Communication.send_command float_str float_parse
    (Communication.mkCommunicator true true) cmd_type kwargs reply
  = Communication.mkOutcome (Communication.mkCommunicator true true) [command]
      [Communication.data_received (Invalid Invalid_frame_format)] (Return tt).
Proof.
  intros Hblank Hbuild.
  assert (Hrecv : receive float_parse reply = []).
  { unfold receive. now rewrite (strip_blank _ Hblank). }
  split; [|split].
  - unfold SerialThread_turn. cbn [queue_after written data_received].
    now rewrite Hrecv.
  - unfold TcpThread_turn. cbn [queue_after written data_received].
    now rewrite Hrecv.
  - unfold Communication.send_command, Communication._raw_send. rewrite Hbuild.
    cbn [Communication._port]. now rewrite (strip_blank _ Hblank).
Qed.

End QueueProperties.

(** ** Scans: cancellation, invariants, modes *)

Section ScanProperties.

Import AsyncCommunication DataAcquisition.
Local Open Scope float_scope.

Variable float_str : float -> string.

(** The loop on an object that is not scanning breaks at once. *)
Lemma scan_points_idle (listener : float -> bool) (num_points i : Z)
      (wavelengths : list float) (self : t) :
  _is_scanning self = false ->
  scan_points float_str listener num_points i wavelengths self = (Return tt, self, []).
Proof.
  intros Hidle. destruct wavelengths as [|wl rest]; [reflexivity|].
  cbn [scan_points]. unfold mbind at 1. unfold M_bind at 1. unfold get at 1.
  rewrite Hidle. reflexivity.
Qed.

Lemma stopped_idem (self : t) : stopped (stopped self) = stopped self.
Proof. reflexivity. Qed.

(** The loop under a listener: the points issued, and whether the loop
    ended by a stop. *)
Lemma scan_points_listener (listener : float -> bool) (num_points : Z)
      (wavelengths : list float) :
  forall (i : Z) (self : t),
    _is_scanning self = true ->
    exists self',
      scan_points float_str listener num_points i wavelengths self
      = (Return tt, self', pass_trace num_points i
                             (issued_points listener num_points i wavelengths)) /\
      stopped self'
      = stopped (with_communicator self
                   (comm_after_pass float_str (_communicator self)
                      (issued_points listener num_points i wavelengths))) /\
      (_is_scanning self' = true ->
       issued_points listener num_points i wavelengths = wavelengths).
Proof.
  induction wavelengths as [|wl rest IH]; intros i self Hscan.
  - exists self. split; [reflexivity|]. split; [now destruct self | reflexivity].
  - rewrite scan_points_cons_listener by exact Hscan. cbn zeta.
    cbn [issued_points].
    destruct (listener (PyFloat.of_int (i + 1) / PyFloat.of_int num_points)) eqn:Hl.
    + rewrite scan_points_idle by reflexivity.
      eexists. split; [reflexivity|]. split; [reflexivity|]. discriminate.
    + destruct (IH (i + 1)%Z
                  (with_communicator self (comm_after_point float_str (_communicator self) wl)))
        as (self' & Hrun & Hstate & Hall); [exact Hscan|].
      rewrite Hrun. exists self'. split; [reflexivity|]. split.
      * rewrite Hstate. reflexivity.
      * intros Hs. now rewrite (Hall Hs).
Qed.

(** X16. A stop asked for by a slot of [scan_progress] takes effect at the
    next point: a single-mode scan with a computable plan issues the
    complete events of every point up to and including the one at whose
    progress the stop was asked for, and nothing after it. With or without
    a stop it returns normally with the scanning flag cleared, the
    configuration stored and the frames of the issued points sent. *)
Theorem single_scan_stops_at_point_boundary (listener : float -> bool) (depth : nat)
        (config : ScanConfig) (self : t) (num_points : Z) (wavelengths : list float) :
  _is_scanning self = false ->
  mode config = SINGLE ->
  scan_plan config = Return (num_points, wavelengths) ->
  let issued := issued_points listener num_points 0 wavelengths in
  start_scan float_str listener depth config self
  = (Return tt,
     stopped (with_communicator (started self config)
                (comm_after_pass float_str (_communicator self) issued)),
     pass_trace num_points 0 issued).
Proof.
  intros Hidle Hmode Hplan issued.
  rewrite start_scan_idle by exact Hidle. rewrite Hmode.
  rewrite (execute_single_scan_plan float_str listener config _ num_points wavelengths)
    by first [exact Hplan | reflexivity].
  destruct (scan_points_listener listener num_points wavelengths 0 (started self config)
              eq_refl) as (self' & Hrun & Hstate & _).
  rewrite Hrun. change (_communicator (started self config)) with (_communicator self) in Hstate.
  fold issued in Hstate |- *.
  destruct (_is_scanning self') eqn:Hs.
  - assert (Hcfg : _current_scan self' = Some config).
    { pose proof (keeps_label_scan_points float_str listener num_points wavelengths 0
                    (started self config)) as [_ Hk].
      rewrite Hrun in Hk. exact Hk. }
    rewrite (handle_scan_complete_eq config) by exact Hcfg. rewrite Hmode.
    unfold stop_scan, set_is_scanning. fold (stopped self').
    rewrite Hstate, app_nil_r. reflexivity.
  - rewrite <- Hstate. f_equal. f_equal. destruct self'. cbn in Hs. now subst.
Qed.

(** *** Relations every scan method keeps *)

Section ScanInvariants.

Variable I : t -> t -> list event -> Prop.

Hypothesis I_silent :
  forall self self', _communicator self' = _communicator self -> I self self' [].

Hypothesis I_trans :
  forall s1 s2 s3 tr1 tr2, I s1 s2 tr1 -> I s2 s3 tr2 -> I s1 s3 (tr1 ++ tr2)%list.

Hypothesis I_scan_points :
  forall listener num_points i wavelengths,
    respects I (scan_points float_str listener num_points i wavelengths).

Lemma respects_bind {A B : Type} (m : M A) (f : A -> M B) :
  respects I m -> (forall a, respects I (f a)) -> respects I (m ≫= f).
Proof.
  intros Hm Hf self. unfold mbind, M_bind.
  specialize (Hm self). destruct (m self) as [[[a|e] s1] tr1]; cbn in *; [|exact Hm].
  specialize (Hf a s1). destruct (f a s1) as [[r s2] tr2]; cbn in *.
  eapply I_trans; eassumption.
Qed.

Lemma respects_silent {A : Type} (m : M A) :
  (forall self, _communicator (state_of (m self)) = _communicator self /\
                trace_of (m self) = []) ->
  respects I m.
Proof.
  intros H self. destruct (H self) as [Hc Ht]. rewrite Ht. now apply I_silent.
Qed.

Lemma respects_ret {A : Type} (a : A) : respects I (mret a).
Proof. apply respects_silent. intros self. now split. Qed.

Lemma respects_lift {A : Type} (r : result A) : respects I (lift r).
Proof. apply respects_silent. intros self. now split. Qed.

Lemma respects_get : respects I get.
Proof. apply respects_silent. intros self. now split. Qed.

Lemma respects_stop_scan : respects I stop_scan.
Proof. apply respects_silent. intros self. now split. Qed.

Lemma respects_current_scan : respects I current_scan.
Proof.
  apply respects_silent. intros self. unfold current_scan.
  now destruct (_current_scan self).
Qed.

Lemma respects_handle_scan_complete : respects I _handle_scan_complete.
Proof.
  apply respects_bind; [apply respects_current_scan|]. intros config.
  destruct (mode config); [apply respects_stop_scan | | apply respects_ret].
  apply respects_bind; [apply respects_get|]. intros self.
  destruct (_ <=? _)%Z; [apply respects_stop_scan | apply respects_ret].
Qed.

Lemma respects_execute_single_scan (listener : float -> bool) :
  respects I (_execute_single_scan float_str listener).
Proof.
  apply respects_bind; [apply respects_get|]. intros self.
  destruct (_current_scan self) as [config|]; [|apply respects_ret].
  apply respects_bind; [apply respects_lift|]. intros q.
  apply respects_bind; [apply respects_lift|]. intros n.
  apply respects_bind; [apply respects_lift|]. intros wls.
  apply respects_bind; [apply I_scan_points|]. intros _.
  apply respects_bind; [apply respects_get|]. intros s.
  destruct (_is_scanning s); [apply respects_handle_scan_complete | apply respects_ret].
Qed.

Lemma respects_start_repeat_scan (listener : float -> bool) (depth : nat) :
  respects I (_start_repeat_scan float_str listener depth).
Proof.
  induction depth as [|depth IH]; [apply respects_lift|].
  cbn [_start_repeat_scan].
  apply respects_bind; [apply respects_get|]. intros self.
  apply respects_bind; [apply respects_current_scan|]. intros config.
  destruct (_ <? _)%Z; [|apply respects_ret].
  apply respects_bind; [apply respects_silent; intros s; now split|]. intros _.
  apply respects_bind; [apply respects_execute_single_scan|]. intros _.
  apply respects_bind; [apply respects_get|]. intros s.
  destruct (_is_scanning s); [apply IH | apply respects_ret].
Qed.

Lemma respects_start_auto_scan : respects I _start_auto_scan.
Proof.
  apply respects_bind; [apply respects_current_scan|]. intros config.
  apply respects_bind; [apply respects_lift|]. intros ms.
  apply respects_silent. intros self. now split.
Qed.

Lemma respects_start_scan (listener : float -> bool) (depth : nat) (config : ScanConfig) :
  respects I (start_scan float_str listener depth config).
Proof.
  intros self. destruct (_is_scanning self) eqn:Hs.
  - unfold start_scan, mbind, M_bind, get. rewrite Hs. now apply I_silent.
  - rewrite start_scan_idle by exact Hs.
    assert (Hgo : forall m : M unit, respects I m ->
              I self (state_of (m (started self config))) (trace_of (m (started self config)))).
    { intros m Hm. change (trace_of (m (started self config)))
        with ([] ++ trace_of (m (started self config)))%list.
      eapply I_trans; [|apply Hm]. now apply I_silent. }
    destruct (mode config); apply Hgo.
    + apply respects_execute_single_scan.
    + apply respects_start_repeat_scan.
    + apply respects_start_auto_scan.
Qed.

End ScanInvariants.

Lemma whole_points_app (tr1 tr2 : list event) :
  whole_points tr1 -> whole_points tr2 -> whole_points (tr1 ++ tr2).
Proof.
  intros [p1 ->] [p2 ->]. exists (p1 ++ p2)%list. now rewrite flat_map_app.
Qed.

Lemma whole_points_scan_points (listener : float -> bool) (num_points : Z)
      (wavelengths : list float) :
  forall i, respects (fun _ _ tr => whole_points tr)
                     (scan_points float_str listener num_points i wavelengths).
Proof.
  induction wavelengths as [|wl rest IH]; intros i self.
  - now exists [].
  - destruct (_is_scanning self) eqn:Hs.
    + rewrite scan_points_cons_listener by exact Hs. cbn zeta.
      match goal with |- context [scan_points _ _ _ _ rest ?s] =>
        specialize (IH (i + 1)%Z s);
        destruct (scan_points float_str listener num_points (i + 1) rest s)
          as [[r self'] tr] end.
      unfold trace_of in IH |- *. cbn [snd] in IH |- *. destruct IH as [points ->].
      exists ((wl, PyFloat.of_int (i + 1) / PyFloat.of_int num_points) :: points).
      reflexivity.
    + rewrite scan_points_idle by exact Hs. now exists [].
Qed.


Lemma enqueue_nil (communicator : AsyncCommunicator) :
  enqueue [] communicator = communicator.
Proof.
  unfold enqueue. destruct communicator as [[[running queue]|] []]; cbn;
    rewrite ?app_nil_r; reflexivity.
Qed.

Lemma enqueue_app (f1 f2 : list string) (communicator : AsyncCommunicator) :
  enqueue (f1 ++ f2) communicator = enqueue f2 (enqueue f1 communicator).
Proof.
  unfold enqueue. destruct communicator as [[[running queue]|] []]; cbn;
    rewrite ?app_assoc; reflexivity.
Qed.

Lemma trace_frames_app (tr1 tr2 : list event) :
  trace_frames float_str (tr1 ++ tr2)
  = (trace_frames float_str tr1 ++ trace_frames float_str tr2)%list.
Proof. unfold trace_frames. apply flat_map_app. Qed.

Lemma send_command_enqueue (communicator : AsyncCommunicator) (cmd_type frame : string)
      (kwargs : gmap string pyval) :
  ProtocolHandler.build_command float_str cmd_type kwargs = Return frame ->
  after (send_command float_str communicator cmd_type kwargs) = enqueue [frame] communicator.
Proof.
  intros Hbuild. unfold send_command, add_command, enqueue. rewrite Hbuild.
  destruct communicator as [[[running queue]|] []]; reflexivity.
Qed.

(** The communicator after one point, by the frames of its two commands. *)
Lemma comm_after_point_enqueue (communicator : AsyncCommunicator) (wl progress : float) :
  comm_after_point float_str communicator wl
  = enqueue (trace_frames float_str (point_events (wl, progress))) communicator.
Proof.
  destruct (build_set_wavelength float_str wl) as [f1 Hf1].
  destruct (build_read_intensity float_str) as [f2 Hf2].
  unfold comm_after_point, trace_frames, point_events. cbn [flat_map fst snd].
  rewrite (send_command_enqueue _ _ _ _ Hf2), (send_command_enqueue _ _ _ _ Hf1).
  rewrite Hf1, Hf2. cbn [app]. now rewrite <- enqueue_app.
Qed.

Lemma enqueue_scan_points (listener : float -> bool) (num_points : Z)
      (wavelengths : list float) :
  forall i,
    respects (fun s s' tr =>
                _communicator s' = enqueue (trace_frames float_str tr) (_communicator s))
             (scan_points float_str listener num_points i wavelengths).
Proof.
  induction wavelengths as [|wl rest IH]; intros i self.
  - cbn. now rewrite enqueue_nil.
  - destruct (_is_scanning self) eqn:Hs.
    + rewrite scan_points_cons_listener by exact Hs. cbn zeta.
      set (progress := PyFloat.of_int (i + 1) / PyFloat.of_int num_points).
      match goal with |- context [scan_points _ _ _ _ rest ?s] =>
        specialize (IH (i + 1)%Z s);
        assert (Hc : _communicator s
                     = comm_after_point float_str (_communicator self) wl)
          by (now destruct (listener progress));
        destruct (scan_points float_str listener num_points (i + 1) rest s)
          as [[r self'] tr] end.
      cbn [state_of trace_of fst snd] in IH |- *.
      rewrite IH, Hc, (comm_after_point_enqueue _ wl progress).
      rewrite <- enqueue_app, <- trace_frames_app. reflexivity.
    + rewrite scan_points_idle by exact Hs. cbn. now rewrite enqueue_nil.
Qed.


(** A call of [start_scan] on an object that is scanning is ignored. *)
Lemma start_scan_busy (listener : float -> bool) (depth : nat) (config : ScanConfig)
      (self : t) :
  _is_scanning self = true ->
  start_scan float_str listener depth config self = (Return tt, self, []).
Proof.
  intros Hbusy. unfold start_scan, mbind, M_bind, get. now rewrite Hbusy.
Qed.

(** X19. A repeat-mode scan whose repeat count is zero or negative runs
    no pass and issues no command, but the scanning flag it has set stays
    set: the call returns normally and every later [start_scan], whatever
    its configuration, is ignored until [stop_scan] is called. *)
Theorem repeat_scan_without_repeats_blocks (listener : float -> bool) (depth : nat)
        (config : ScanConfig) (self : t) :
  _is_scanning self = false ->
  mode config = REPEAT ->
  (repeat_count config <= 0)%Z ->
  (1 <= depth)%nat ->
  let o := start_scan float_str listener depth config self in
  o = (Return tt, started self config, []) /\
  _is_scanning (state_of o) = true /\
  (forall listener' depth' config',
      start_scan float_str listener' depth' config' (state_of o)
      = (Return tt, state_of o, [])) /\
  _is_scanning (state_of (stop_scan (state_of o))) = false.
Proof.
  intros Hidle Hmode Hcount Hdepth o.
  assert (Ho : o = (Return tt, started self config, [])).
  { subst o. rewrite start_scan_idle by exact Hidle. rewrite Hmode.
    destruct depth as [|depth]; [lia|]. cbn [_start_repeat_scan].
    unfold mbind at 1. unfold M_bind at 1. unfold get at 1.
    unfold mbind at 1. unfold M_bind at 1. unfold current_scan at 1.
    cbn [_current_scan started _repeat_count].
    replace (0 <? repeat_count config)%Z with false by (symmetry; apply Z.ltb_ge; lia).
    reflexivity. }
  rewrite Ho. split; [reflexivity|]. split; [reflexivity|]. split; [|reflexivity].
  intros listener' depth' config'. now apply start_scan_busy.
Qed.

(** One tick of the timer on an object that is scanning in auto mode, when
    no slot stops the scan: a full pass, and the flag stays set. *)
Lemma timer_tick_pass (config : ScanConfig) (num_points : Z) (wavelengths : list float)
      (self : t) (ms : Z) :
  mode config = AUTO ->
  scan_plan config = Return (num_points, wavelengths) ->
  _current_scan self = Some config ->
  _auto_timer self = Some ms ->
  _is_scanning self = true ->
  timer_tick float_str (fun _ => false) self
  = (Return tt,
     with_communicator self (comm_after_pass float_str (_communicator self) wavelengths),
     pass_trace num_points 0 wavelengths).
Proof.
  intros Hmode Hplan Hcfg Htimer Hscan. unfold timer_tick.
  unfold mbind at 1. unfold M_bind at 1. unfold get at 1. rewrite Htimer.
  rewrite (execute_single_scan_plan float_str _ config _ num_points wavelengths)
    by first [exact Hplan | exact Hcfg].
  rewrite (scan_points_pass float_str) by exact Hscan.
  cbn [_is_scanning with_communicator]. rewrite Hscan.
  rewrite (handle_scan_complete_eq config) by exact Hcfg.
  rewrite Hmode. cbn [app]. now rewrite app_nil_r.
Qed.

(** One tick on an object that is not scanning: nothing. *)
Lemma timer_tick_idle (listener : float -> bool) (config : ScanConfig) (num_points : Z)
      (wavelengths : list float) (self : t) :
  scan_plan config = Return (num_points, wavelengths) ->
  _current_scan self = Some config ->
  _is_scanning self = false ->
  timer_tick float_str listener self = (Return tt, self, []).
Proof.
  intros Hplan Hcfg Hidle. unfold timer_tick.
  unfold mbind at 1. unfold M_bind at 1. unfold get at 1.
  destruct (_auto_timer self); [|reflexivity].
  rewrite (execute_single_scan_plan float_str _ config _ num_points wavelengths)
    by first [exact Hplan | exact Hcfg].
  rewrite scan_points_idle by exact Hidle. now rewrite Hidle.
Qed.

Lemma timer_ticks_S (listener : float -> bool) (k : nat) (self : t) :
  timer_ticks float_str listener (S k) self
  = match timer_tick float_str listener self with
    | (Return _, self1, tr1) =>
      let '(r, self2, tr2) := timer_ticks float_str listener k self1 in
      (r, self2, (tr1 ++ tr2)%list)
    | (Raise e, self1, tr1) => (Raise e, self1, tr1)
    end.
Proof. reflexivity. Qed.

Lemma timer_ticks_pass (config : ScanConfig) (num_points : Z) (wavelengths : list float)
      (ms : Z) :
  mode config = AUTO ->
  scan_plan config = Return (num_points, wavelengths) ->
  forall (k : nat) (self : t),
    _current_scan self = Some config ->
    _auto_timer self = Some ms ->
    _is_scanning self = true ->
    timer_ticks float_str (fun _ => false) k self
    = (Return tt,
       with_communicator self
         (comm_after_passes float_str (_communicator self) wavelengths k),
       concat (replicate k (pass_trace num_points 0 wavelengths))).
Proof.
  intros Hmode Hplan. induction k as [|k IH]; intros self Hcfg Htimer Hscan.
  - now destruct self.
  - rewrite timer_ticks_S.
    rewrite (timer_tick_pass config num_points wavelengths self ms) by assumption.
    rewrite IH by assumption. reflexivity.
Qed.

Lemma timer_ticks_idle (listener : float -> bool) (config : ScanConfig) (num_points : Z)
      (wavelengths : list float) (self : t) :
  scan_plan config = Return (num_points, wavelengths) ->
  _current_scan self = Some config ->
  _is_scanning self = false ->
  forall k, timer_ticks float_str listener k self = (Return tt, self, []).
Proof.
  intros Hplan Hcfg Hidle. induction k as [|k IH]; [reflexivity|].
  rewrite timer_ticks_S.
  rewrite (timer_tick_idle listener config num_points wavelengths) by assumption.
  now rewrite IH.
Qed.


(** X21. When the plan of a scan cannot be computed (a step of zero, a
    quotient that is not a number or is infinite, a negative point count),
    a single-mode scan, or a repeat-mode scan with at least one repeat,
    raises the exception of the plan before any command is issued, and the
    scanning flag stays set: every later [start_scan] is ignored. *)
Theorem failed_plan_leaves_scan_on (listener : float -> bool) (depth : nat)
        (config : ScanConfig) (self : t) (e : exn) :
  _is_scanning self = false ->
  scan_plan config = Raise e ->
  mode config = SINGLE \/
  (mode config = REPEAT /\ (1 <= repeat_count config)%Z /\ (1 <= depth)%nat) ->
  let o := start_scan float_str listener depth config self in
  result_of o = Raise e /\
  trace_of o = [] /\
  _is_scanning (state_of o) = true /\
  _communicator (state_of o) = _communicator self /\
  forall listener' depth' config',
    start_scan float_str listener' depth' config' (state_of o)
    = (Return tt, state_of o, []).
Proof.
  intros Hidle Hplan Hmode o.
  assert (Ho : exists s, o = (Raise e, s, []) /\ _is_scanning s = true /\
                         _communicator s = _communicator self).
  { subst o. rewrite start_scan_idle by exact Hidle.
    destruct Hmode as [Hmode | (Hmode & Hcount & Hdepth)]; rewrite Hmode.
    - rewrite (execute_single_scan_raise float_str listener config _ e)
        by first [exact Hplan | reflexivity].
      eexists. split; [reflexivity|]. now split.
    - destruct depth as [|depth]; [lia|]. cbn [_start_repeat_scan].
      unfold mbind at 1. unfold M_bind at 1. unfold get at 1.
      unfold mbind at 1. unfold M_bind at 1. unfold current_scan at 1.
      cbn [_current_scan started _repeat_count].
      replace (0 <? repeat_count config)%Z with true by (symmetry; apply Z.ltb_lt; lia).
      unfold mbind at 1. unfold M_bind at 1. unfold set_repeat_count at 1.
      cbn [_communicator _current_scan _scan_data _is_scanning _scan_state
           _repeat_count _auto_timer started].
      unfold mbind at 1. unfold M_bind at 1.
      rewrite (execute_single_scan_raise float_str listener config _ e)
        by first [exact Hplan | reflexivity].
      eexists. split; [reflexivity|]. now split. }
  destruct Ho as (s & -> & Hs & Hc).
  split; [reflexivity|]. split; [reflexivity|]. split; [exact Hs|]. split; [exact Hc|].
  intros listener' depth' config'. now apply start_scan_busy.
Qed.

(** [_start_repeat_scan] with more runs to go than nested calls allowed. *)
Lemma start_repeat_scan_exhausts (config : ScanConfig) (num_points : Z)
      (wavelengths : list float) :
  mode config = REPEAT ->
  scan_plan config = Return (num_points, wavelengths) ->
  forall (depth : nat) (self : t),
    _current_scan self = Some config ->
    _is_scanning self = true ->
    (_repeat_count self + Z.of_nat depth < repeat_count config)%Z ->
    _start_repeat_scan float_str (fun _ => false) depth self
    = (Raise RecursionError,
       with_repeat_count
         (with_communicator self
            (comm_after_passes float_str (_communicator self) wavelengths depth))
         (_repeat_count self + Z.of_nat depth),
       concat (replicate depth (pass_trace num_points 0 wavelengths))).
Proof.
  intros Hmode Hplan. induction depth as [|depth IH]; intros self Hcfg Hscan Hcount.
  - destruct self. cbn. now rewrite Z.add_0_r.
  - destruct self as [comm cs sd sc st rc timer]; cbn in Hcfg, Hscan, Hcount; subst cs sc.
    cbn [_start_repeat_scan].
    unfold mbind at 1. unfold M_bind at 1. unfold get at 1.
    unfold mbind at 1. unfold M_bind at 1. unfold current_scan at 1.
    cbn [_current_scan _repeat_count].
    replace (rc <? repeat_count config)%Z with true by (symmetry; apply Z.ltb_lt; lia).
    unfold mbind at 1. unfold M_bind at 1. unfold set_repeat_count at 1.
    cbn [_communicator _current_scan _scan_data _is_scanning _scan_state
         _repeat_count _auto_timer].
    unfold mbind at 1. unfold M_bind at 1.
    rewrite (execute_single_scan_plan float_str _ config _ num_points wavelengths)
      by first [exact Hplan | reflexivity].
    rewrite (scan_points_pass float_str) by reflexivity.
    unfold with_communicator.
    cbn [_is_scanning _communicator _current_scan _scan_data
         _scan_state _repeat_count _auto_timer].
    rewrite (handle_scan_complete_eq config) by reflexivity.
    rewrite Hmode. cbn [_repeat_count].
    replace (repeat_count config <=? rc + 1)%Z with false
      by (symmetry; apply Z.leb_gt; lia).
    unfold mbind at 1. unfold M_bind at 1. unfold get at 1.
    cbn [_is_scanning].
    rewrite IH by (cbn; first [reflexivity | lia]).
    unfold with_repeat_count, with_communicator.
    cbn [_is_scanning _communicator _current_scan _scan_data
         _scan_state _repeat_count _auto_timer comm_after_passes replicate concat].
    replace (rc + 1 + Z.of_nat depth)%Z with (rc + Z.of_nat (S depth))%Z by lia.
    now rewrite !app_nil_r.
Qed.


Lemma set_last_length (a : list float) (v : float) :
  length (PyFloat.set_last a v) = length a.
Proof.
  induction a as [|x a IH]; [reflexivity|].
  destruct a as [|y a]; [reflexivity|].
  change (PyFloat.set_last (x :: y :: a) v) with (x :: PyFloat.set_last (y :: a) v).
  cbn [length] in *. now rewrite IH.
Qed.

Lemma set_last_last (a : list float) (v : float) :
  a <> [] -> last (PyFloat.set_last a v) = Some v.
Proof.
  induction a as [|x a IH]; [congruence|]. intros _.
  destruct a as [|y a]; [reflexivity|].
  change (PyFloat.set_last (x :: y :: a) v) with (x :: PyFloat.set_last (y :: a) v).
  specialize (IH ltac:(discriminate)).
  destruct (PyFloat.set_last (y :: a) v) as [|z rest]; [discriminate | exact IH].
Qed.

Lemma linspace_spec (start stop : float) (num : Z) (points : list float) :
  PyFloat.linspace start stop num = Return points ->
  (0 <= num)%Z /\
  length points = Z.to_nat num /\
  ((1 < num)%Z -> last points = Some stop).
Proof.
  unfold PyFloat.linspace. destruct (num <? 0)%Z eqn:Hneg; [discriminate|].
  apply Z.ltb_ge in Hneg. cbn zeta.
  set (y0 := map (fun i => PyFloat.of_int (Z.of_nat i)) (seq 0 (Z.to_nat num))).
  set (y1 := if (0 <? num - 1)%Z then _ else _).
  assert (Hlen : length (map (fun v => v + start) y1) = Z.to_nat num).
  { rewrite length_map. subst y1.
    destruct (0 <? num - 1)%Z; [destruct (_ =? 0)|];
      rewrite length_map; subst y0; now rewrite length_map, length_seq. }
  intros H. inversion H as [Hp]. clear H. split; [exact Hneg|].
  destruct (1 <? num)%Z eqn:Hnum.
  - rewrite set_last_length. split; [exact Hlen|]. intros _.
    apply set_last_last. intros Hnil. rewrite Hnil in Hlen. cbn in Hlen.
    apply Z.ltb_lt in Hnum. lia.
  - split; [exact Hlen|]. apply Z.ltb_ge in Hnum. lia.
Qed.

Lemma pass_trace_length (num_points : Z) (wavelengths : list float) :
  forall i, length (pass_trace num_points i wavelengths) = (3 * length wavelengths)%nat.
Proof.
  induction wavelengths as [|wl rest IH]; intros i; [reflexivity|].
  cbn [pass_trace length]. rewrite IH. lia.
Qed.

(** X23. The plan of a scan: the step size decides the number of points
    only, which is the quotient of the range by the step, truncated toward
    zero, plus one. The plan has exactly that many points, and when there
    are two or more the last one is the end wavelength itself, whether or
    not the step divides the range. A pass over the plan has three events
    per point. *)
Theorem scan_plan_endpoints (config : ScanConfig) (num_points : Z)
        (wavelengths : list float) :
  scan_plan config = Return (num_points, wavelengths) ->
  (exists q n,
      PyFloat.div (end_wavelength config - start_wavelength config) (step_size config)
      = Return q /\
      PyFloat.to_int q = Return n /\ num_points = (n + 1)%Z) /\
  (0 <= num_points)%Z /\
  length wavelengths = Z.to_nat num_points /\
  ((1 < num_points)%Z -> last wavelengths = Some (end_wavelength config)) /\
  length (pass_trace num_points 0 wavelengths) = (3 * Z.to_nat num_points)%nat.
Proof.
  unfold scan_plan. intros Hplan.
  destruct (PyFloat.div _ _) as [q|] eqn:Hq; [|discriminate].
  cbn [mbind result_bind] in Hplan.
  destruct (PyFloat.to_int q) as [n|] eqn:Hn; [|discriminate].
  cbn [mbind result_bind] in Hplan.
  destruct (PyFloat.linspace _ _ _) as [points|] eqn:Hl; [|discriminate].
  cbn [mbind result_bind] in Hplan. inversion Hplan; subst. clear Hplan.
  destruct (linspace_spec _ _ _ _ Hl) as (Hnn & Hlen & Hlast).
  split; [now exists q, n|]. split; [exact Hnn|]. split; [exact Hlen|].
  split; [exact Hlast|]. now rewrite pass_trace_length, Hlen.
Qed.

(** The flag after the loop tells whether a slot has stopped the scan. *)
Lemma scan_points_flag (listener : float -> bool) (num_points : Z)
      (wavelengths : list float) :
  forall (i : Z) (self : t),
    _is_scanning self = true ->
    _is_scanning (state_of (scan_points float_str listener num_points i wavelengths self))
    = negb (stop_requested listener num_points i wavelengths).
Proof.
  induction wavelengths as [|wl rest IH]; intros i self Hscan; [exact Hscan|].
  rewrite scan_points_cons_listener by exact Hscan. cbn zeta. cbn [stop_requested].
  destruct (listener (PyFloat.of_int (i + 1) / PyFloat.of_int num_points)) eqn:Hl.
  - rewrite scan_points_idle by reflexivity. reflexivity.
  - specialize (IH (i + 1)%Z
                   (with_communicator self
                      (comm_after_point float_str (_communicator self) wl)) Hscan).
    destruct (scan_points _ _ _ _ _ _) as [[r self'] tr]. exact IH.
Qed.

(** X29. In repeat mode a stop requested by a slot ends the repetition
    with the pass: when some slot of [scan_progress] stops the scan during
    the first pass, that pass ends after the point at whose progress the
    stop was requested, no further pass is started whatever the repeat
    count, and the call returns with the scanning flag cleared and the
    repeat counter at one. *)
Theorem repeat_scan_stop_ends_repetition (listener : float -> bool) (depth : nat)
        (config : ScanConfig) (self : t) (num_points : Z) (wavelengths : list float) :
  _is_scanning self = false ->
  mode config = REPEAT ->
  (1 <= repeat_count config)%Z ->
  (1 <= depth)%nat ->
  scan_plan config = Return (num_points, wavelengths) ->
  stop_requested listener num_points 0 wavelengths = true ->
  let issued := issued_points listener num_points 0 wavelengths in
  start_scan float_str listener depth config self
  = (Return tt,
     stopped (with_repeat_count
                (with_communicator (started self config)
                   (comm_after_pass float_str (_communicator self) issued)) 1),
     pass_trace num_points 0 issued).
Proof.
  intros Hidle Hmode Hcount Hdepth Hplan Hstop issued.
  rewrite start_scan_idle by exact Hidle. rewrite Hmode.
  destruct depth as [|depth]; [lia|]. cbn [_start_repeat_scan].
  unfold mbind at 1. unfold M_bind at 1. unfold get at 1.
  unfold mbind at 1. unfold M_bind at 1. unfold current_scan at 1.
  cbn [_current_scan started _repeat_count].
  replace (0 <? repeat_count config)%Z with true by (symmetry; apply Z.ltb_lt; lia).
  unfold mbind at 1. unfold M_bind at 1. unfold set_repeat_count at 1.
  cbn [_communicator _current_scan _scan_data _is_scanning _scan_state
       _repeat_count _auto_timer started].
  change (0 + 1)%Z with 1%Z.
  set (running := mkDataAcquisition (_communicator self) (Some config) [] true
                                    "scanning" 1 (_auto_timer self)).
  unfold mbind at 1. unfold M_bind at 1.
  rewrite (execute_single_scan_plan float_str listener config running num_points wavelengths)
    by first [exact Hplan | reflexivity].
  destruct (scan_points_listener listener num_points wavelengths 0 running eq_refl)
    as (self' & Hrun & Hstate & _).
  pose proof (scan_points_flag listener num_points wavelengths 0 running eq_refl) as Hflag.
  rewrite Hrun in Hflag |- *. rewrite Hstop in Hflag. cbn in Hflag.
  rewrite Hflag.
  unfold mbind at 1. unfold M_bind at 1. unfold get at 1. rewrite Hflag.
  assert (Hself : self' = stopped self') by (destruct self'; cbn in Hflag; now subst).
  rewrite Hself, Hstate. fold issued. cbn. now rewrite app_nil_r.
Qed.

End ScanProperties.

(** ** Peak detection: neighbours and failures *)

Section PeakProperties.

Import DataAcquisition.
Local Open Scope float_scope.

(** X24. No two neighbouring samples are both peaks: of the indices the
    first loop of [detect_peaks] selects, none is the successor of
    another, because a peak is strictly above the samples next to it. *)
Theorem peaks_never_adjacent (x : list float) (threshold : float) :
  exists indices,
    peak_indices x threshold = Return indices /\
    forall i, i ∈ indices -> S i ∉ indices.
Proof.
  destruct (peak_indices_spec x threshold) as (indices & Hi & Hmem & _).
  exists indices. split; [exact Hi|]. intros i Hin Hnext.
  apply Hmem in Hin as (_ & _ & xi & xl & xr & m & Hxi & _ & Hxr & _ & _ & Gr & _).
  apply Hmem in Hnext as (_ & _ & yi & yl & yr & m' & Hyi & Hyl & _ & _ & Gl & _ & _).
  replace (i + 1)%nat with (S i) in Hxr by lia.
  replace (S i - 1)%nat with i in Hyl by lia.
  rewrite Hyi in Hxr. rewrite Hxi in Hyl. inversion Hxr; inversion Hyl; subst.
  apply gt_asym in Gr. congruence.
Qed.

Lemma getitem_cases (a : list float) (i : nat) :
  (exists v, getitem a i = Return v) \/
  (getitem a i = Raise IndexError /\ (length a <= i)%nat).
Proof.
  unfold getitem. destruct (a !! i) as [v|] eqn:Hv; [left; now exists v|].
  right. split; [reflexivity|]. now apply lookup_ge_None_1.
Qed.

(** The body of the second loop at an index inside the intensities: it
    returns, or the wavelengths are too few. *)
Lemma measure_peak_cases (spectrum : SpectrumData) (idx : nat) :
  (idx < length (intensities spectrum))%nat ->
  (exists p, measure_peak spectrum idx = Return p) \/
  (measure_peak spectrum idx = Raise IndexError /\
   (length (wavelengths spectrum) < length (intensities spectrum))%nat).
Proof.
  intros Hidx.
  destruct (getitem_lt (intensities spectrum) idx Hidx) as (xi & Hxi & Gxi).
  destruct (walk_left_spec (intensities spectrum) (xi / 2) idx Hidx) as (l & Hl & Sl).
  destruct (walk_right_spec (intensities spectrum) (xi / 2)
              (length (intensities spectrum) - 1 - idx) idx) as (r & Hr & Sr); [lia|].
  destruct Sl as (Hle & _). destruct Sr as (Hri & _).
  unfold measure_peak. rewrite Gxi. cbn [mbind result_bind].
  rewrite Hl. cbn [mbind result_bind]. rewrite Hr. cbn [mbind result_bind].
  destruct (getitem_cases (wavelengths spectrum) r) as [[wr ->]|[-> Hshort]];
    cbn [mbind result_bind]; [|right; split; [reflexivity | lia]].
  destruct (getitem_cases (wavelengths spectrum) l) as [[wl ->]|[-> Hshort]];
    cbn [mbind result_bind]; [|right; split; [reflexivity | lia]].
  destruct (getitem_cases (wavelengths spectrum) idx) as [[wi ->]|[-> Hshort]];
    cbn [mbind result_bind]; [|right; split; [reflexivity | lia]].
  left. eexists. reflexivity.
Qed.

Lemma measure_peaks_cases (spectrum : SpectrumData) :
  forall indices acc,
    Forall (fun i => (i < length (intensities spectrum))%nat) indices ->
    let d := measure_peaks spectrum acc indices in
    (exists more, peaks_emitted d = (acc ++ more)%list /\
                  (length more <= length indices)%nat) /\
    (peaks_returned d = Return (peaks_emitted d) \/
     (peaks_returned d = Raise IndexError /\
      (length (wavelengths spectrum) < length (intensities spectrum))%nat)).
Proof.
  induction indices as [|idx rest IH]; intros acc Hin; cbn zeta.
  - cbn. split; [exists []; now rewrite app_nil_r | now left].
  - inversion Hin as [|? ? Hidx Hrest]; subst. cbn [measure_peaks].
    destruct (measure_peak_cases spectrum idx Hidx) as [[p ->]|[-> Hshort]].
    + destruct (IH (acc ++ [p])%list Hrest) as [(more & Hm & Hlen) Hret].
      split; [|exact Hret]. exists (p :: more).
      rewrite Hm, <- app_assoc. split; [reflexivity | cbn; lia].
    + cbn. split; [exists []; rewrite app_nil_r; split; [reflexivity | cbn; lia]|].
      right. now split.
Qed.


End PeakProperties.

(** ** The synchronous communicator and the playback controller *)

Section SynchronousProperties.

Import ProtocolHandler.

Variable float_str : float -> string.
Variable float_parse : string -> option float.


End SynchronousProperties.

Section PlaybackProperties.

Import DataPlayback.

Context {Frame : Type}.

Implicit Types (self : t Frame) (frames : list Frame).

Lemma ticks_S (k : nat) self :
  ticks (S k) self
  = (let '(self1, s1) := tick self in
     let '(self2, s2) := ticks k self1 in (self2, (s1 ++ s2)%list)).
Proof. reflexivity. Qed.

(** While the timer is stopped, ticks do nothing. *)
Lemma ticks_stopped (k : nat) self :
  _timer self = None -> ticks k self = (self, []).
Proof.
  intros Hstopped. induction k as [|k IH]; [reflexivity|].
  rewrite ticks_S. unfold tick. rewrite Hstopped, IH. reflexivity.
Qed.

(** While the timer runs and frames are left, each tick emits the next
    frame. *)
Lemma ticks_playing (k : nat) :
  forall self interval,
    _timer self = Some interval ->
    (_current_frame self + k <= length (_frames self))%nat ->
    ticks k self
    = (mkDataPlayback (Some interval) (_current_frame self + k) (_frames self)
                      (_interval self),
       map playback_frame (take k (drop (_current_frame self) (_frames self)))).
Proof.
  induction k as [|k IH]; intros self interval Htimer Hroom.
  - destruct self as [tm c fs i]. cbn in *. subst tm.
    rewrite Nat.add_0_r. now rewrite take_0.
  - rewrite ticks_S. unfold tick. rewrite Htimer. unfold _next_frame.
    destruct (lookup_lt_is_Some_2 (_frames self) (_current_frame self)) as [frame Hframe];
      [lia|].
    rewrite Hframe, Htimer.
    rewrite (IH _ interval) by (cbn; first [reflexivity | lia]).
    cbn [_current_frame _frames _interval]. f_equal.
    + f_equal. lia.
    + rewrite (drop_S _ _ _ Hframe). reflexivity.
Qed.

(** With the timer running and no frame left, a tick stops the timer and
    reports the end. *)
Lemma tick_finished self interval :
  _timer self = Some interval ->
  (length (_frames self) <= _current_frame self)%nat ->
  tick self
  = (mkDataPlayback None (_current_frame self) (_frames self) (_interval self),
     [playback_finished]).
Proof.
  intros Htimer Hend. unfold tick, _next_frame. rewrite Htimer.
  now rewrite (lookup_ge_None_2 _ _ Hend).
Qed.

Lemma ticks_add (a b : nat) self :
  ticks (a + b) self
  = (let '(self1, s1) := ticks a self in
     let '(self2, s2) := ticks b self1 in (self2, (s1 ++ s2)%list)).
Proof.
  revert self. induction a as [|a IH]; intros self.
  - cbn [Nat.add ticks]. now destruct (ticks b self).
  - cbn [Nat.add]. rewrite !ticks_S. destruct (tick self) as [self1 s1].
    rewrite IH. destruct (ticks a self1) as [self2 s2].
    destruct (ticks b self2) as [self3 s3]. now rewrite app_assoc.
Qed.

(** A playback from the current frame on, with ticks to spare. *)
Lemma ticks_to_the_end (extra : nat) self interval :
  _timer self = Some interval ->
  (_current_frame self <= length (_frames self))%nat ->
  ticks (length (_frames self) - _current_frame self + S extra) self
  = (mkDataPlayback None (length (_frames self)) (_frames self) (_interval self),
     (map playback_frame (drop (_current_frame self) (_frames self))
      ++ [playback_finished])%list).
Proof.
  intros Htimer Hc.
  set (n := (length (_frames self) - _current_frame self)%nat).
  rewrite ticks_add, (ticks_playing n self interval Htimer) by (subst n; lia).
  rewrite ticks_S, (tick_finished _ interval) by (cbn; first [reflexivity | subst n; lia]).
  rewrite ticks_stopped by reflexivity.
  cbn [_current_frame _frames _interval]. rewrite app_nil_r.
  replace (_current_frame self + n)%nat with (length (_frames self)) by (subst n; lia).
  rewrite take_ge by (rewrite length_drop; subst n; lia). reflexivity.
Qed.



End PlaybackProperties.

(** *** Closed instances for the queue and the receive paths *)

Section QueueInstances.

Import ProtocolHandler AsyncCommunication AsyncCommunicationLoops FloatText.

(** X9, witness: two commands behind a frame that is already queued. *)
Lemma send_commands_queue_in_order_witness :
  let commands := [ ("set_wavelength", {[ "value" := VInt 500 ]});
                    ("read_intensity", (∅ : gmap string pyval)) ] in
  let frames := [ "$WL 500*58" ++ CRLF; "$INT?*2A" ++ CRLF ] in
  builds str_integral commands frames /\
  send_commands str_integral (mkCommunicator (Some (mkThread true ["$RST*F9" ++ CRLF])) true)
                commands
  = mkOutcome
      (mkCommunicator
         (Some (mkThread true [ "$RST*F9" ++ CRLF; "$WL 500*58" ++ CRLF;
                                "$INT?*2A" ++ CRLF ])) true)
      [] (Return tt).
Proof.
  intros commands frames.
  assert (Hbuilds : builds str_integral commands frames).
  { unfold builds. repeat (constructor; [vm_compute; reflexivity|]). constructor. }
  split; [exact Hbuilds|].
  exact (send_commands_queue_in_order str_integral (mkThread true ["$RST*F9" ++ CRLF])
           commands frames Hbuilds).
Defined.

(** X10, witness: the second of three commands lacks its value. *)
Lemma send_commands_stop_at_first_failure_witness :
  let commands := [ ("set_wavelength", {[ "value" := VInt 500 ]}) ] in
  let frames := [ "$WL 500*58" ++ CRLF ] in
  builds str_integral commands frames /\
  build_command str_integral "set_average" ∅ = Raise (KeyError "value") /\
  send_commands str_integral (mkCommunicator (Some (mkThread true [])) true)
                (commands ++ [ ("set_average", (∅ : gmap string pyval));
                               ("read_intensity", (∅ : gmap string pyval)) ])%list
  = mkOutcome (mkCommunicator (Some (mkThread true [ "$WL 500*58" ++ CRLF ])) true)
              [] (Raise (KeyError "value")).
Proof.
  intros commands frames.
  assert (Hbuilds : builds str_integral commands frames).
  { unfold builds. repeat (constructor; [vm_compute; reflexivity|]). constructor. }
  assert (Hraise : build_command str_integral "set_average" ∅ = Raise (KeyError "value"))
    by (vm_compute; reflexivity).
  split; [exact Hbuilds|]. split; [exact Hraise|].
  exact (send_commands_stop_at_first_failure str_integral (mkThread true []) commands
           [ ("read_intensity", ∅) ] frames "set_average" ∅ (KeyError "value")
           Hbuilds Hraise).
Defined.

(** X12, witness: a reconnect with one frame still queued. *)
Lemma connect_starts_with_empty_queue_witness :
  let self := mkCommunicator (Some (mkThread true ["$RST*F9" ++ CRLF])) true in
  let commands := [ ("read_intensity", (∅ : gmap string pyval)) ] in
  let frames := [ "$INT?*2A" ++ CRLF ] in
  builds str_integral commands frames /\
  emitted (connect self "tcp") = [connection_changed false; connection_changed true] /\
  send_commands str_integral (after (connect self "tcp")) commands
  = mkOutcome (mkCommunicator (Some (mkThread false frames)) true) [] (Return tt).
Proof.
  intros self commands frames.
  assert (Hbuilds : builds str_integral commands frames).
  { unfold builds. repeat (constructor; [vm_compute; reflexivity|]). constructor. }
  split; [exact Hbuilds|].
  exact (connect_starts_with_empty_queue str_integral self "tcp" commands frames Hbuilds).
Defined.

(** X14, witness: the device answers [read_wavelength] with the frame the
    host itself would build for the payload [WL 500]. *)
Lemma wire_format_reply_rejected_witness :
  let line := "$" ++ "WL 500" ++ "*" ++ String "5" (String "8" CRLF) in
  let command := "$WL?*E2" ++ CRLF in
  line = frame_of "WL 500" /\
  build_command str_integral "read_wavelength" ∅ = Return command /\
  SerialThread_turn parse_decimal [command] line None
  = mkTurn [] [command] [Invalid (Parsing_error ValueError)] /\
  TcpThread_turn parse_decimal [command] (Some line) None
  = mkTurn [] [command] [Invalid (Parsing_error ValueError)] /\
  Communication.send_command str_integral parse_decimal
    (Communication.mkCommunicator true true) "read_wavelength" ∅ line
  = Communication.mkOutcome (Communication.mkCommunicator true true) [command]
      [Communication.data_received (Invalid (Parsing_error ValueError))] (Return tt).
Proof.
  intros line command.
  assert (Hbuild : build_command str_integral "read_wavelength" ∅ = Return command)
    by (vm_compute; reflexivity).
  split; [reflexivity|]. split; [exact Hbuild|].
  exact (wire_format_reply_rejected str_integral parse_decimal "WL 500" "5" "8" command []
           "read_wavelength" ∅ eq_refl eq_refl Hbuild).
Defined.

(** X15, witness: the read after [get_status] times out. *)
Lemma blank_reply_paths_witness :
  let command := "$STAT?*7B" ++ CRLF in
  Py.all_chars Py.isspace "" = true /\
  build_command str_integral "get_status" ∅ = Return command /\
  SerialThread_turn parse_decimal [command] "" None = mkTurn [] [command] [] /\
  TcpThread_turn parse_decimal [command] (Some "") None = mkTurn [] [command] [] /\
  Communication.send_command str_integral parse_decimal
    (Communication.mkCommunicator true true) "get_status" ∅ ""
  = Communication.mkOutcome (Communication.mkCommunicator true true) [command]
      [Communication.data_received (Invalid Invalid_frame_format)] (Return tt).
Proof.
  intros command.
  assert (Hbuild : build_command str_integral "get_status" ∅ = Return command)
    by (vm_compute; reflexivity).
  split; [reflexivity|]. split; [exact Hbuild|].
  exact (blank_reply_paths str_integral parse_decimal "" command [] "get_status" ∅
           eq_refl Hbuild).
Defined.


End QueueInstances.

(** *** Closed instances for scans *)

Section ScanMoreInstances.

Import AsyncCommunication DataAcquisition FloatText.
Local Open Scope float_scope.

(** X16, witness: the scan from 500 to 510 in steps of 5 with a slot that
    stops it as soon as the progress is above one half: the points 500 and
    505 are issued, 510 is not. *)
Lemma single_scan_stops_at_point_boundary_witness :
  let config := mkScanConfig 500 510 5 SINGLE 1 1 in
  let listener := fun progress => (1 / 2 <? progress) in
  scan_plan config = Return (3%Z, [500; 505; 510]) /\
  issued_points listener 3 0 [500; 505; 510] = [500; 505] /\
  start_scan str_integral listener 0 config fresh_connected
  = (Return tt,
     stopped (with_communicator (started fresh_connected config)
                (comm_after_pass str_integral (_communicator fresh_connected) [500; 505])),
     pass_trace 3 0 [500; 505]).
Proof.
  intros config listener.
  assert (Hplan : scan_plan config = Return (3%Z, [500; 505; 510]))
    by (vm_compute; reflexivity).
  split; [exact Hplan|]. split; [vm_compute; reflexivity|].
  exact (single_scan_stops_at_point_boundary str_integral listener 0 config fresh_connected
           3 [500; 505; 510] eq_refl eq_refl Hplan).
Defined.

(** X19, witness: a repeat-mode scan with repeat count 0, then a
    single-mode scan that is ignored. *)
Lemma repeat_scan_without_repeats_blocks_witness :
  let config := mkScanConfig 500 510 5 REPEAT 0 1 in
  let o := start_scan str_integral (fun _ => false) 1 config fresh_connected in
  o = (Return tt, started fresh_connected config, []) /\
  start_scan str_integral (fun _ => false) 1 (mkScanConfig 500 510 5 SINGLE 1 1) (state_of o)
  = (Return tt, state_of o, []).
Proof.
  intros config o.
  destruct (repeat_scan_without_repeats_blocks str_integral (fun _ => false) 1 config
              fresh_connected eq_refl eq_refl ltac:(cbn; lia) ltac:(lia))
    as (Ho & _ & Hblocked & _).
  split; [exact Ho|]. apply Hblocked.
Defined.


(** X21, witness: a step of zero. *)
Lemma failed_plan_leaves_scan_on_witness :
  let config := mkScanConfig 500 510 0 SINGLE 1 1 in
  let o := start_scan str_integral (fun _ => false) 0 config fresh_connected in
  scan_plan config = Raise ZeroDivisionError /\
  result_of o = Raise ZeroDivisionError /\
  trace_of o = [] /\
  _is_scanning (state_of o) = true /\
  start_scan str_integral (fun _ => false) 0 (mkScanConfig 500 510 5 SINGLE 1 1) (state_of o)
  = (Return tt, state_of o, []).
Proof.
  intros config o.
  assert (Hplan : scan_plan config = Raise ZeroDivisionError) by (vm_compute; reflexivity).
  destruct (failed_plan_leaves_scan_on str_integral (fun _ => false) 0 config
              fresh_connected ZeroDivisionError eq_refl Hplan (or_introl eq_refl))
    as (Hres & Htrace & Hflag & _ & Hblocked).
  split; [exact Hplan|]. split; [exact Hres|]. split; [exact Htrace|].
  split; [exact Hflag|]. apply Hblocked.
Defined.


(** X23, witness: from 500 to 512 in steps of 5 the plan has three
    points, 500, 506 and 512: evenly spaced, and none of them at 505
    or 510. *)
Lemma scan_plan_endpoints_witness :
  let config := mkScanConfig 500 512 5 SINGLE 1 1 in
  scan_plan config = Return (3%Z, [500; 506; 512]) /\
  length [500; 506; 512] = Z.to_nat 3 /\
  last [500; 506; 512] = Some (end_wavelength config) /\
  length (pass_trace 3 0 [500; 506; 512]) = (3 * Z.to_nat 3)%nat.
Proof.
  intros config.
  assert (Hplan : scan_plan config = Return (3%Z, [500; 506; 512]))
    by (vm_compute; reflexivity).
  destruct (scan_plan_endpoints config 3 [500; 506; 512] Hplan)
    as (_ & _ & Hlen & Hlast & Hevents).
  split; [exact Hplan|]. split; [exact Hlen|]. split; [apply Hlast; lia | exact Hevents].
Defined.

(** X29, witness: three repeats asked for, and a slot that stops the scan
    as soon as the progress is above one half: one pass, cut short after
    505. *)
Lemma repeat_scan_stop_ends_repetition_witness :
  let config := mkScanConfig 500 510 5 REPEAT 3 1 in
  let listener := fun progress => (1 / 2 <? progress) in
  let o := start_scan str_integral listener 3 config fresh_connected in
  scan_plan config = Return (3%Z, [500; 505; 510]) /\
  stop_requested listener 3 0 [500; 505; 510] = true /\
  result_of o = Return tt /\
  trace_of o = pass_trace 3 0 [500; 505] /\
  _is_scanning (state_of o) = false /\
  _repeat_count (state_of o) = 1%Z.
Proof.
  intros config listener o.
  assert (Hplan : scan_plan config = Return (3%Z, [500; 505; 510]))
    by (vm_compute; reflexivity).
  assert (Hstop : stop_requested listener 3 0 [500; 505; 510] = true)
    by (vm_compute; reflexivity).
  pose proof (repeat_scan_stop_ends_repetition str_integral listener 3 config
                fresh_connected 3 [500; 505; 510] eq_refl eq_refl ltac:(cbn; lia)
                ltac:(lia) Hplan Hstop) as Ho.
  fold o in Ho. cbn zeta in Ho. rewrite Ho.
  split; [exact Hplan|]. split; [exact Hstop|]. repeat split.
Defined.

End ScanMoreInstances.

(** *** Closed instances for the playback controller *)

Section PlaybackInstances.

Import DataPlayback.



End PlaybackInstances.
